(** * Builder image assembly (pack/create_builder.go)

    A shallow embedding of [BuilderFactory.BuilderConfigFromFlags],
    [BuilderFactory.Create], [BuilderFactory.orderLayer] and
    [BuilderFactory.buildpackLayer], together with the parts of Go's
    [strings] and [path/filepath] packages they call, and the properties
    the design document states about them.

    Go strings are modelled as [string], Go [error] values by their
    message ([string]), and the calls that reach outside the process
    (filesystem, TOML codec, image library, daemon, repository store) by
    an explicit world: a filesystem, the logger's output and a trace of
    the external calls made so far. *)

From Stdlib Require Import Ascii String List Bool ZArith Lia.
From stdpp Require Import base option list strings gmap.

Local Open Scope string_scope.
Local Open Scope list_scope.

(** ** Go's [strings] package *)

Module strings.

(** [strings.HasPrefix(s, prefix)]. *)
Fixpoint HasPrefix (s prefix : string) {struct prefix} : bool :=
  match prefix with
  | EmptyString => true
  | String a prefix' =>
      match s with
      | EmptyString => false
      | String b s' => if Ascii.eqb a b then HasPrefix s' prefix' else false
      end
  end.

(** [s[n:]] for [n <= len(s)]. *)
Fixpoint slice_from (n : nat) (s : string) : string :=
  match n, s with
  | O, _ => s
  | S n', String _ s' => slice_from n' s'
  | S _, EmptyString => EmptyString
  end.

(** [strings.TrimPrefix(s, prefix)]: [s] without the leading [prefix],
    or [s] itself when it does not start with [prefix]. *)
Definition TrimPrefix (s prefix : string) : string :=
  if HasPrefix s prefix then slice_from (String.length prefix) s else s.

(** [strings.Join(elems, sep)]. *)
Fixpoint Join (elems : list string) (sep : string) : string :=
  match elems with
  | [] => ""
  | [e] => e
  | e :: rest => e +:+ sep +:+ Join rest sep
  end.

(** [strings.Split(s, "/")]: the pieces of [s] between slashes. *)
Fixpoint split_slash (s : string) : list string :=
  match s with
  | EmptyString => [""]
  | String c s' =>
      if Ascii.eqb c "/"%char then "" :: split_slash s'
      else match split_slash s' with
           | [] => [String c ""]
           | e :: rest => String c e :: rest
           end
  end.

(** [strings.Contains(s, substr)]. *)
Fixpoint Contains (s substr : string) : bool :=
  HasPrefix s substr ||
  match s with
  | EmptyString => false
  | String _ s' => Contains s' substr
  end.

End strings.

(** ** Go's [path/filepath] package (Unix) *)

Module filepath.

(** [filepath.IsAbs(path)]: on Unix, [strings.HasPrefix(path, "/")]. *)
Definition IsAbs (path : string) : bool := strings.HasPrefix path "/".

(** One step of the loop of [filepath.Clean] on the path element [e],
    [out] being the elements written so far, innermost first.  Empty
    and [.] elements are skipped; [..] removes the last real element
    when there is one, is kept at the front of a path that is not
    rooted, and is dropped at the root. *)
Definition clean_step (rooted : bool) (out : list string) (e : string)
  : list string :=
  if String.eqb e "" then out
  else if String.eqb e "." then out
  else if String.eqb e ".." then
    match out with
    | top :: below =>
        if String.eqb top ".." then (if rooted then out else e :: out)
        else below
    | [] => if rooted then out else [e]
    end
  else e :: out.

(** [filepath.Clean(path)]: the shortest path name equivalent to [path]
    by purely lexical processing. *)
Definition Clean (path : string) : string :=
  if String.eqb path "" then "."
  else
    let rooted := IsAbs path in
    let out := rev (fold_left (clean_step rooted) (strings.split_slash path) []) in
    match rooted, out with
    | true, _ => "/" +:+ strings.Join out "/"
    | false, [] => "."
    | false, _ => strings.Join out "/"
    end.

(** [filepath.Join(elem...)]: the elements from the first non-empty one
    on, joined with slashes and cleaned; [""] when all are empty. *)
Fixpoint Join (elem : list string) : string :=
  match elem with
  | [] => ""
  | e :: rest =>
      if String.eqb e "" then Join rest
      else Clean (strings.Join elem "/")
  end.

(** [filepath.Dir(path)]: all but the last element of [path], cleaned. *)
Fixpoint dir_part (s : string) : string :=
  match s with
  | EmptyString => ""
  | String c s' =>
      if strings.Contains s' "/" then String c (dir_part s')
      else if Ascii.eqb c "/"%char then "/" else ""
  end.

Definition Dir (path : string) : string := Clean (dir_part path).

(** [path] without its trailing slashes. *)
Fixpoint trim_trailing_slashes (path : string) : string :=
  match path with
  | EmptyString => ""
  | String c rest =>
      let rest' := trim_trailing_slashes rest in
      if String.eqb rest' "" && Ascii.eqb c "/" then "" else String c rest'
  end.

(** [filepath.Base(path)]: the last element of [path], trailing slashes
    removed first; [.] for the empty path and [/] for a path of slashes
    only. *)
Definition Base (path : string) : string :=
  if String.eqb path "" then "."
  else
    let element := List.last (strings.split_slash (trim_trailing_slashes path)) "" in
    if String.eqb element "" then "/" else element.

End filepath.

(** A path element that [filepath.Clean] keeps as it is: no slash in
    it, and none of the empty element, [.] and [..]. *)
Definition plain_element (x : string) : Prop :=
  strings.split_slash x = [x] /\ x <> "" /\ x <> "." /\ x <> "..".

(** The last byte of a string. *)
Fixpoint last_byte (s : string) : option ascii :=
  match s with
  | EmptyString => None
  | String c s' => match last_byte s' with Some l => Some l | None => Some c end
  end.

(** ** Results, errors and the state-and-error monad

    A Go function returning [(T, error)] yields [Ok t] or [Err msg]; a
    function returning only [error] yields [Ok tt] or [Err msg]; an
    [error] value that is inspected rather than returned is an
    [option string], [None] being [nil]. *)

Inductive result (A : Type) : Type :=
| Ok (a : A)
| Err (msg : string).
Arguments Ok {A} a.
Arguments Err {A} msg.

Definition M (W A : Type) : Type := W -> result A * W.

Definition ret {W A} (a : A) : M W A := fun w => (Ok a, w).

Definition bind {W A B} (m : M W A) (k : A -> M W B) : M W B :=
  fun w => match m w with
           | (Ok a, w') => k a w'
           | (Err e, w') => (Err e, w')
           end.

(** [if err != nil { return fmt.Errorf(..., err) }]: the failure of [m]
    is returned with its message rewritten by [wrap]. *)
Definition onError {W A} (wrap : string -> string) (m : M W A) : M W A :=
  fun w => match m w with
           | (Ok a, w') => (Ok a, w')
           | (Err e, w') => (Err (wrap e), w')
           end.

(** [defer cleanup] followed by [body]: [cleanup] runs when the function
    returns, on every path, and what it returns is dropped. *)
Definition defer {W A B} (cleanup : M W B) (body : M W A) : M W A :=
  fun w => let (r, w') := body w in (r, snd (cleanup w')).

(** A call that cannot fail from the caller's point of view. *)
Definition lift {W A} (r : result A) : M W A := fun w => (r, w).

Notation "x <- m ;; k" := (bind m (fun x => k))
  (at level 90, m at level 89, right associativity, only parsing).
Notation "m ;;; k" := (bind m (fun _ => k))
  (at level 90, right associativity, only parsing).

(** The double-quote character of the Go format strings. *)
Definition dq : string := String (Ascii.ascii_of_nat 34) "".
Definition quoted (s : string) : string := dq +:+ s +:+ dq.

(** ** Data model *)

(** A filesystem entry. *)
Inductive Node : Type :=
| Directory
| File (content : string).

(** [type Buildpack struct { ID string; URI string }] *)
Record Buildpack : Type := mkBuildpack { ID : string; URI : string }.

(** The [buildpack] table of a [buildpack.toml], as [buildpackLayer]
    decodes it: [data.BP]. *)
Record BP : Type := mkBP { BP_ID : string; BP_Version : string }.

(** [type CreateBuilderFlags struct] *)
Record CreateBuilderFlags : Type := mkFlags {
  flag_RepoName : string;
  BuilderTomlPath : string;
  StackID : string;
  Publish : bool;
  NoPull : bool
}.

(** A stack of the configuration table ([config.Stack]): its id and its
    build images. *)
Record Stack : Type := mkStack { Stack_ID : string; BuildImages : list string }.

(** [config.Config], through the one method used here. *)
Record Config : Type := { Get : string -> result Stack }.

(** ** The world outside the process

    [Image] is the type of the values of the Go interface [v1.Image]
    (among them [nil]); [BuildpackGroup] is [lifecycle.BuildpackGroup],
    which the assembler only passes through. *)

Section Assembler.

Context {Image BuildpackGroup : Type}.

(** The external calls, as the trace records them: the arguments and
    what came back. *)
Inductive Call : Type :=
| TempDirCall (dir prefix : string) (r : result string)
| MkdirCall (name : string) (err : option string)
| CreateCall (name : string) (err : option string)
| EncodeCall (name : string) (written : string) (err : option string)
| CloseCall (name : string)
| DecodeFileCall (path : string) (err : option string)
| CreateTGZFileCall (tarFile srcDir tarDir : string) (uid gid : Z)
    (err : option string)
| AppendCall (base : Image) (tar : string) (r : result Image)
| WriteCall (image : Image) (err : option string)
| RemoveCall (name : string) (err : option string)
| PullImageCall (ref : string) (err : option string)
| ReadImageCall (repoName : string) (useDaemon : bool) (err : option string)
| RepoStoreCall (repoName : string) (useDaemon : bool) (err : option string).

(** The filesystem, the lines printed by [f.Log] and the calls made. *)
Record World : Type := mkWorld {
  files : gmap string Node;
  logged : list string;
  calls : list Call
}.

(** [img.Store], through the one method used here.  What an external
    call answers may depend on everything that happened before it. *)
Record Store : Type := { Write : World -> Image -> option string }.

(** [type BuilderConfig struct] *)
Record BuilderConfig : Type := mkBuilderConfig {
  RepoName : string;
  Repo : Store;
  Buildpacks : list Buildpack;
  Groups : list BuildpackGroup;
  BaseImage : Image;
  BuilderDir : string
}.

(** [type Docker interface], through the one method used here. *)
Record Docker : Type := { PullImage : World -> string -> option string }.

(** [type Images interface] *)
Record Images : Type := {
  ReadImage : World -> string -> bool -> result Image;
  RepoStore : World -> string -> bool -> result Store
}.

(** [type FS interface], through the one method used here:
    [CreateTGZFile(tarFile, srcDir, tarDir, uid, gid)] answers with the
    bytes of the archive it writes to [tarFile], or with an error. *)
Record FS : Type := {
  CreateTGZFile : World -> string -> string -> string -> Z -> Z -> result string
}.

(** [type BuilderFactory struct]; what [Log] prints goes to [logged]. *)
Record BuilderFactory : Type := mkBuilderFactory {
  Docker_ : Docker;
  FS_ : FS;
  Config_ : Config;
  Images_ : Images
}.

(** What [toml.DecodeFile] can set in a [BuilderConfig]: the fields of
    string and slice type. *)
Record BuilderToml : Type := mkBuilderToml {
  toml_RepoName : string;
  toml_Buildpacks : list Buildpack;
  toml_Groups : list BuildpackGroup
}.

(** The packages and the operating system behind the calls: the TOML
    codec and the [config] package as functions, and for each system
    call the failures that the filesystem model does not decide
    (permissions, quota, ...).  [Write_fault w name bytes] is a write
    of [bytes] to the open file [name] that fails, with the number of
    bytes that reached the file before it did. *)
Record Host : Type := {
  TempDir_answer : World -> string -> string -> result string;
  Mkdir_fault : World -> string -> option string;
  Create_fault : World -> string -> option string;
  Remove_fault : World -> string -> option string;
  Write_fault : World -> string -> string -> option (nat * string);
  toml_Encode_order : list BuildpackGroup -> string * option string;
  toml_Decode_buildpack : string -> result BP;
  toml_Decode_builder : string -> string -> result BuilderToml;
  img_Append : World -> Image -> string -> result Image;
  v1_Image_is_nil : Image -> bool;
  config_Registry : string -> result string;
  config_ImageByRegistry : string -> list string -> result string
}.

Variable host : Host.

Abbreviation IO := (M World).

Definition record (c : Call) (w : World) : World :=
  {| files := files w; logged := logged w; calls := calls w ++ [c] |}.

Definition set_files (fs : gmap string Node) (w : World) : World :=
  {| files := fs; logged := logged w; calls := calls w |}.

Definition error_of {A} (r : result A) : option string :=
  match r with Ok _ => None | Err e => Some e end.

(** A call returning only [error]: [None] is [nil]. *)
Definition result_of (err : option string) : result unit :=
  match err with
  | None => Ok tt
  | Some e => Err e
  end.

Definition returning (err : option string) (w : World) : result unit * World :=
  (result_of err, w).

(** [f.Log.Println(args...)]: the operands separated by spaces. *)
Definition Println (args : list string) : IO unit :=
  fun w => (Ok tt, {| files := files w;
                      logged := logged w ++ [strings.Join args " "];
                      calls := calls w |}).

(** [ioutil.TempDir(dir, prefix)]: a new directory, whose name the
    system chooses. *)
Definition ioutil_TempDir (dir prefix : string) : IO string :=
  fun w =>
    let r := TempDir_answer host w dir prefix in
    let w' := record (TempDirCall dir prefix r) w in
    match r with
    | Ok name => (Ok name, set_files (<[name := Directory]> (files w)) w')
    | Err e => (Err e, w')
    end.

(** [os.Mkdir(name, perm)]: fails when [name] exists already; any
    other failure, a missing parent directory among them, is the
    host's [Mkdir_fault]. *)
Definition os_Mkdir (name : string) : IO unit :=
  fun w =>
    let err := match files w !! name with
               | Some _ => Some ("mkdir " +:+ name +:+ ": file exists")
               | None => Mkdir_fault host w name
               end in
    let w' := record (MkdirCall name err) w in
    returning err
      (if err is None then set_files (<[name := Directory]> (files w)) w' else w').

(** [os.Create(name)]: creates the file or truncates it; the file
    handle is modelled by the name. *)
Definition os_Create (name : string) : IO string :=
  fun w =>
    let err := match files w !! name with
               | Some Directory => Some ("open " +:+ name +:+ ": is a directory")
               | _ => Create_fault host w name
               end in
    let w' := record (CreateCall name err) w in
    match err with
    | None => (Ok name, set_files (<[name := File ""]> (files w)) w')
    | Some e => (Err e, w')
    end.

(** [orderFile.Close()] *)
Definition File_Close (name : string) : IO unit :=
  fun w => (Ok tt, record (CloseCall name) w).

Definition content_of (fs : gmap string Node) (name : string) : string :=
  match fs !! name with
  | Some (File c) => c
  | _ => ""
  end.

(** [orderFile.Write(bytes)], the call the encoder's output goes
    through: all of [bytes] reaches the file, or the write fails and
    only the first [n] bytes do. *)
Definition File_Write (name bytes : string) (w : World) : string * option string :=
  match Write_fault host w name bytes with
  | Some (n, e) => (String.substring 0 n bytes, Some e)
  | None => (bytes, None)
  end.

(** Modelled from the spec: the serializer of the TOML package, which
    [Encode] runs on [order{Groups: groups}] and which is not among the
    sources.  "Given the same groups value (list of lists of
    identities, order preserved), output bytes are stable": the document
    and the error of the serializer are a function of the groups value
    and of nothing else; which function, the host says. *)
Definition order_document (groups : list BuildpackGroup) : string * option string :=
  toml_Encode_order host groups.

(** What [toml.NewEncoder(orderFile).Encode(order{Groups: groups})]
    gets into the file and returns in the world [w]: the document goes
    through [orderFile.Write], and an error of the serializer comes
    before an error of the write. *)
Definition toml_Encode_answer (orderFile : string) (groups : list BuildpackGroup)
    (w : World) : string * option string :=
  let (bytes, err) := order_document groups in
  let (written, werr) := File_Write orderFile bytes w in
  (written, if err is Some e then Some e else werr).

(** [toml.NewEncoder(orderFile).Encode(order{Groups: groups})]: what
    is written goes to the end of the file. *)
Definition toml_Encode (orderFile : string) (groups : list BuildpackGroup)
  : IO unit :=
  fun w =>
    let (written, err) := toml_Encode_answer orderFile groups w in
    let fs := <[orderFile := File (content_of (files w) orderFile +:+ written)]> (files w) in
    returning err (set_files fs (record (EncodeCall orderFile written err) w)).

(** [toml.DecodeFile(path, &data)] for the [data] of [buildpackLayer]. *)
Definition toml_DecodeFile_buildpack (path : string) : IO BP :=
  fun w =>
    let r := match files w !! path with
             | Some (File c) => toml_Decode_buildpack host c
             | Some Directory => Err ("read " +:+ path +:+ ": is a directory")
             | None => Err ("open " +:+ path +:+ ": no such file or directory")
             end in
    (r, record (DecodeFileCall path (error_of r)) w).

(** [toml.DecodeFile(path, &builderConfig)], the configuration holding
    [repoName] before the call. *)
Definition toml_DecodeFile_builder (path repoName : string) : IO BuilderToml :=
  fun w =>
    let r := match files w !! path with
             | Some (File c) => toml_Decode_builder host c repoName
             | Some Directory => Err ("read " +:+ path +:+ ": is a directory")
             | None => Err ("open " +:+ path +:+ ": no such file or directory")
             end in
    (r, record (DecodeFileCall path (error_of r)) w).

(** [f.FS.CreateTGZFile(tarFile, srcDir, tarDir, uid, gid)] *)
Definition FS_CreateTGZFile (fs : FS) (tarFile srcDir tarDir : string)
    (uid gid : Z) : IO unit :=
  fun w =>
    let r := CreateTGZFile fs w tarFile srcDir tarDir uid gid in
    let w' := record (CreateTGZFileCall tarFile srcDir tarDir uid gid (error_of r)) w in
    match r with
    | Ok bytes => (Ok tt, set_files (<[tarFile := File bytes]> (files w)) w')
    | Err e => (Err e, w')
    end.

(** [img.Append(base, tar)] *)
Definition img_Append_call (base : Image) (tar : string) : IO Image :=
  fun w =>
    let r := img_Append host w base tar in
    (r, record (AppendCall base tar r) w).

(** [repo.Write(image)] *)
Definition Repo_Write (repo : Store) (image : Image) : IO unit :=
  fun w =>
    let err := Write repo w image in
    returning err (record (WriteCall image err) w).

(** Whether [dir] has entries: some path of the filesystem lies
    under it. *)
Definition has_entries (fs : gmap string Node) (dir : string) : bool :=
  existsb (fun e => strings.HasPrefix e.1 (dir +:+ "/")) (map_to_list fs).

(** [os.Remove(name)]: removes the file or the empty directory. *)
Definition os_Remove (name : string) : IO unit :=
  fun w =>
    let err := match files w !! name with
               | None => Some ("remove " +:+ name +:+ ": no such file or directory")
               | Some _ =>
                   if has_entries (files w) name
                   then Some ("remove " +:+ name +:+ ": directory not empty")
                   else Remove_fault host w name
               end in
    let w' := record (RemoveCall name err) w in
    returning err
      (if err is None then set_files (delete name (files w)) w' else w').

(** [f.Docker.PullImage(ref)] *)
Definition Docker_PullImage (d : Docker) (ref : string) : IO unit :=
  fun w =>
    let err := PullImage d w ref in
    returning err (record (PullImageCall ref err) w).

(** [f.Images.ReadImage(repoName, useDaemon)] *)
Definition Images_ReadImage (i : Images) (repoName : string) (useDaemon : bool)
  : IO Image :=
  fun w =>
    let r := ReadImage i w repoName useDaemon in
    (r, record (ReadImageCall repoName useDaemon (error_of r)) w).

(** [f.Images.RepoStore(repoName, useDaemon)] *)
Definition Images_RepoStore (i : Images) (repoName : string) (useDaemon : bool)
  : IO Store :=
  fun w =>
    let r := RepoStore i w repoName useDaemon in
    (r, record (RepoStoreCall repoName useDaemon (error_of r)) w).


(** ** The program *)

(** [func (f *BuilderFactory) baseImageName(stackID, repoName string)] *)
Definition baseImageName (f : BuilderFactory) (stackID repoName : string)
  : result string :=
  match Get (Config_ f) stackID with
  | Err err => Err err
  | Ok stack =>
      if Nat.eqb (length (BuildImages stack)) 0
      then Err ("Invalid stack: stack " +:+ quoted (Stack_ID stack)
                +:+ " requies at least one build image")
      else
        match config_Registry host repoName with
        | Err err => Err err
        | Ok registry => config_ImageByRegistry host registry (BuildImages stack)
        end
  end.

(** [func (f *BuilderFactory) BuilderConfigFromFlags(flags CreateBuilderFlags)] *)
Definition BuilderConfigFromFlags (f : BuilderFactory) (flags : CreateBuilderFlags)
  : IO BuilderConfig :=
  baseImage <- lift (baseImageName f (StackID flags) (flag_RepoName flags)) ;;
  (if negb (NoPull flags) && negb (Publish flags)
   then
     Println ["Pulling builder base image "; baseImage] ;;;
     onError (fun err => "failed to pull stack build image " +:+ quoted baseImage
                         +:+ ": " +:+ err)
       (Docker_PullImage (Docker_ f) baseImage)
   else ret tt) ;;;
  decoded <- onError (fun err => "failed to decode builder config from file "
                                 +:+ quoted (BuilderTomlPath flags) +:+ ": " +:+ err)
               (toml_DecodeFile_builder (BuilderTomlPath flags) (flag_RepoName flags)) ;;
  image <- onError (fun err => "failed to read base image " +:+ quoted baseImage
                               +:+ ": " +:+ err)
             (Images_ReadImage (Images_ f) baseImage (negb (Publish flags))) ;;
  (if v1_Image_is_nil host image
   then lift (Err ("base image " +:+ quoted baseImage +:+ " was not found"))
   else ret tt) ;;;
  repo <- onError (fun err => "failed to create repository store for builder image "
                              +:+ quoted (flag_RepoName flags) +:+ ": " +:+ err)
            (Images_RepoStore (Images_ f) (flag_RepoName flags) (negb (Publish flags))) ;;
  ret {| RepoName := toml_RepoName decoded;
         Repo := repo;
         Buildpacks := toml_Buildpacks decoded;
         Groups := toml_Groups decoded;
         BaseImage := image;
         BuilderDir := filepath.Dir (BuilderTomlPath flags) |}.

(** [func (f *BuilderFactory) orderLayer(dest string, groups
    []lifecycle.BuildpackGroup) (layerTar string, err error)] *)
Definition orderLayer (f : BuilderFactory) (dest : string)
    (groups : list BuildpackGroup) : IO string :=
  let buildpackDir := filepath.Join [dest; "buildpack"] in
  os_Mkdir buildpackDir ;;;
  orderFile <- os_Create (filepath.Join [buildpackDir; "order.toml"]) ;;
  defer (File_Close orderFile)
    (toml_Encode orderFile groups ;;;
     let layerTar := filepath.Join [dest; "order.tar"] in
     FS_CreateTGZFile (FS_ f) layerTar buildpackDir "/buildpacks" 0 0 ;;;
     ret layerTar).

(** The directory of a buildpack, [dir] in [buildpackLayer]:
    [strings.TrimPrefix(buildpack.URI, "file://")], joined to
    [builderDir] unless absolute. *)
Definition buildpackLayer_dir (builderDir uri : string) : string :=
  let dir := strings.TrimPrefix uri "file://" in
  if negb (filepath.IsAbs dir) then filepath.Join [builderDir; dir] else dir.

Definition ids_did_not_match (id bp_id : string) : string :=
  "buildpack ids did not match: " +:+ id +:+ " != " +:+ bp_id.

Definition must_provide_version (path : string) : string :=
  "buildpack.toml must provide version: " +:+ path.

(** [func (f *BuilderFactory) buildpackLayer(dest string, buildpack
    Buildpack, builderDir string) (layerTar string, err error)] *)
Definition buildpackLayer (f : BuilderFactory) (dest : string)
    (buildpack : Buildpack) (builderDir : string) : IO string :=
  let dir := buildpackLayer_dir builderDir (URI buildpack) in
  bp <- onError (fun err => "reading buildpack.toml from buildpack: "
                            +:+ filepath.Join [dir; "buildpack.toml"] +:+ ": " +:+ err)
          (toml_DecodeFile_buildpack (filepath.Join [dir; "buildpack.toml"])) ;;
  if negb (String.eqb (ID buildpack) (BP_ID bp))
  then lift (Err (ids_did_not_match (ID buildpack) (BP_ID bp)))
  else if String.eqb (BP_Version bp) ""
  then lift (Err (must_provide_version (filepath.Join [dir; "buildpack.toml"])))
  else
    let tarFile := filepath.Join
                     [dest; ID buildpack +:+ "." +:+ BP_Version bp +:+ ".tar"] in
    FS_CreateTGZFile (FS_ f) tarFile dir
      (filepath.Join ["/buildpacks"; ID buildpack; BP_Version bp]) 0 0 ;;;
    ret tarFile.

(** The loop of [Create]: [for _, buildpack := range config.Buildpacks],
    [builderImage] being the image built so far. *)
Fixpoint Create_buildpacks (f : BuilderFactory) (tmpDir builderDir : string)
    (buildpacks : list Buildpack) (builderImage : Image) : IO Image :=
  match buildpacks with
  | [] => ret builderImage
  | buildpack :: rest =>
      tarFile <- onError (fun err => "failed generate layer for buildpack "
                                     +:+ quoted (ID buildpack) +:+ ": " +:+ err)
                   (buildpackLayer f tmpDir buildpack builderDir) ;;
      builderImage' <- onError (fun err => "failed append buildpack layer to image: "
                                           +:+ err)
                         (img_Append_call builderImage tarFile) ;;
      Create_buildpacks f tmpDir builderDir rest builderImage'
  end.

(** The body of [Create] after [defer os.Remove(tmpDir)]. *)
Definition Create_body (f : BuilderFactory) (config : BuilderConfig)
    (tmpDir : string) : IO unit :=
  orderTar <- onError (fun err => "failed generate order.toml layer: " +:+ err)
                (orderLayer f tmpDir (Groups config)) ;;
  builderImage <- onError (fun err => "failed append order.toml layer to image: "
                                      +:+ err)
                    (img_Append_call (BaseImage config) orderTar) ;;
  builderImage <- Create_buildpacks f tmpDir (BuilderDir config)
                    (Buildpacks config) builderImage ;;
  Repo_Write (Repo config) builderImage ;;;
  Println ["Successfully created builder image:"; RepoName config] ;;;
  Println [""] ;;;
  Println ["Tip: Run " +:+ dq
           +:+ "pack build <image name> --builder <builder image> --path <app source code>"
           +:+ dq +:+ " to use this builder"] ;;;
  ret tt.

(** [func (f *BuilderFactory) Create(config BuilderConfig) error] *)
Definition Create (f : BuilderFactory) (config : BuilderConfig) : IO unit :=
  tmpDir <- onError (fun err => "failed to create temporary directory: " +:+ err)
              (ioutil_TempDir "" "create-builder") ;;
  defer (os_Remove tmpDir) (Create_body f config tmpDir).

(** ** What a trace shows *)

(** The calls of [img.Append]: base image, layer archive, answer. *)
Definition appends (cs : list Call) : list (Image * string * result Image) :=
  omap (fun c => match c with
                 | AppendCall base tar r => Some (base, tar, r)
                 | _ => None
                 end) cs.

(** The calls of [Repo.Write]: image and answer. *)
Definition writes (cs : list Call) : list (Image * option string) :=
  omap (fun c => match c with
                 | WriteCall image err => Some (image, err)
                 | _ => None
                 end) cs.

(** The calls of [CreateTGZFile]: archive, source directory, directory
    in the image, answer. *)
Definition archives (cs : list Call)
  : list (string * string * string * option string) :=
  omap (fun c => match c with
                 | CreateTGZFileCall tarFile srcDir tarDir _ _ err =>
                     Some (tarFile, srcDir, tarDir, err)
                 | _ => None
                 end) cs.

(** The calls of [os.Remove]. *)
Definition removals (cs : list Call) : list (string * option string) :=
  omap (fun c => match c with
                 | RemoveCall name err => Some (name, err)
                 | _ => None
                 end) cs.

(** The image references given to [PullImage]. *)
Definition pulls (cs : list Call) : list string :=
  omap (fun c => match c with
                 | PullImageCall ref _ => Some ref
                 | _ => None
                 end) cs.

(** The bytes the TOML encoder wrote, with the file they went to. *)
Definition manifests (cs : list Call) : list (string * string) :=
  omap (fun c => match c with
                 | EncodeCall name written _ => Some (name, written)
                 | _ => None
                 end) cs.

(** The files given to [toml.DecodeFile]. *)
Definition decodes (cs : list Call) : list string :=
  omap (fun c => match c with
                 | DecodeFileCall path _ => Some path
                 | _ => None
                 end) cs.

(** The error a call answered with, the deferred calls ([Close],
    [os.Remove]) apart: their errors are dropped. *)
Definition failure_of (c : Call) : option string :=
  match c with
  | TempDirCall _ _ r => error_of r
  | MkdirCall _ err | CreateCall _ err | EncodeCall _ _ err
  | DecodeFileCall _ err | CreateTGZFileCall _ _ _ _ _ err
  | WriteCall _ err | PullImageCall _ err
  | ReadImageCall _ _ err | RepoStoreCall _ _ err => err
  | AppendCall _ _ r => error_of r
  | CloseCall _ | RemoveCall _ _ => None
  end.

Definition failures (cs : list Call) : list string := omap failure_of cs.

(** The calls made between the worlds [w] and [w']. *)
Definition new_calls (w w' : World) : list Call :=
  drop (length (calls w)) (calls w').

(** A linear chain of successful appends: each layer of [tars] goes on
    top of the image the previous append answered with. *)
Fixpoint layering (base : Image) (tars : list string) (images : list Image)
  : list (Image * string * result Image) :=
  match tars, images with
  | tar :: tars', image :: images' =>
      (base, tar, Ok image) :: layering image tars' images'
  | _, _ => []
  end.

(** The file [orderLayer] writes the order manifest to. *)
Definition order_file (dest : string) : string :=
  filepath.Join [filepath.Join [dest; "buildpack"]; "order.toml"].

(** The world in which [orderLayer] reaches the encoder: the directory
    made and the manifest opened, empty. *)
Definition orderLayer_opened (dest : string) (w : World) : World :=
  let d := filepath.Join [dest; "buildpack"] in
  let w1 := set_files (<[d := Directory]> (files w)) (record (MkdirCall d None) w) in
  set_files (<[order_file dest := File ""]> (files w1))
    (record (CreateCall (order_file dest) None) w1).

(** What the filesystem did at a call of [orderLayer]: whether the call
    failed, and the number of bytes a write took. *)
Definition fs_behaviour (c : Call) : option (bool * nat) :=
  match c with
  | MkdirCall _ err | CreateCall _ err | CreateTGZFileCall _ _ _ _ _ err =>
      Some (if err is Some _ then true else false, 0)
  | EncodeCall _ written err =>
      Some (if err is Some _ then true else false, String.length written)
  | _ => None
  end.

(** The metadata file [buildpackLayer] reads. *)
Definition buildpack_toml (builderDir : string) (buildpack : Buildpack) : string :=
  filepath.Join [buildpackLayer_dir builderDir (URI buildpack); "buildpack.toml"].

(** Every failed call of the trace is what the function returned, up
    to the context put in front of the message. *)
Definition blames (err : option string) (cs : list Call) : Prop :=
  forall msg, msg ∈ failures cs -> exists context, err = Some (context +:+ msg).

(** A computation that never calls [PullImage]. *)
Definition pull_free {A} (m : IO A) : Prop :=
  forall w r w', m w = (r, w') ->
    exists evs, calls w' = calls w ++ evs /\ pulls evs = [].

(** The archive [buildpackLayer] writes for a buildpack of version [v]. *)
Definition buildpack_tar (tmpDir : string) (buildpack : Buildpack) (v : string)
  : string :=
  filepath.Join [tmpDir; ID buildpack +:+ "." +:+ v +:+ ".tar"].

(** The [CreateTGZFile] call of [buildpackLayer], when it succeeds. *)
Definition buildpack_archive (tmpDir builderDir : string)
    (buildpack : Buildpack) (v : string)
  : string * string * string * option string :=
  (buildpack_tar tmpDir buildpack v,
   buildpackLayer_dir builderDir (URI buildpack),
   filepath.Join ["/buildpacks"; ID buildpack; v],
   None).

(** The [CreateTGZFile] call of [orderLayer], when it succeeds. *)
Definition order_archive (tmpDir : string)
  : string * string * string * option string :=
  (filepath.Join [tmpDir; "order.tar"],
   filepath.Join [tmpDir; "buildpack"],
   "/buildpacks",
   None).

(** ** More of what a trace shows *)

(** The calls Go defers in [Create] and [orderLayer]: they run on the
    way out and their errors are dropped. *)
Definition deferred (c : Call) : bool :=
  match c with
  | CloseCall _ | RemoveCall _ _ => true
  | _ => false
  end.

(** The owner, uid and gid, given to each [CreateTGZFile]. *)
Definition owners (cs : list Call) : list (Z * Z) :=
  omap (fun c => match c with
                 | CreateTGZFileCall _ _ _ uid gid _ => Some (uid, gid)
                 | _ => None
                 end) cs.

(** The files opened by a successful [os.Create], and the files closed. *)
Definition opened (cs : list Call) : list string :=
  omap (fun c => match c with
                 | CreateCall name None => Some name
                 | _ => None
                 end) cs.

Definition closed (cs : list Call) : list string :=
  omap (fun c => match c with
                 | CloseCall name => Some name
                 | _ => None
                 end) cs.
(** After the first failed call only deferred calls follow. *)
Fixpoint fail_fast (cs : list Call) : bool :=
  match cs with
  | [] => true
  | c :: rest =>
      match failure_of c with
      | Some _ => forallb deferred rest
      | None => fail_fast rest
      end
  end.

(** The three lines [Create] prints after a successful write. *)
Definition success_lines (repoName : string) : list string :=
  [strings.Join ["Successfully created builder image:"; repoName] " ";
   strings.Join [""] " ";
   strings.Join ["Tip: Run " +:+ dq
      +:+ "pack build <image name> --builder <builder image> --path <app source code>"
      +:+ dq +:+ " to use this builder"] " "].
(** The appends follow the declared layers one by one, each on the image
    the previous append answered with, and stop at the first append
    that fails, if not before. *)
Inductive chained : Image -> list string -> list (Image * string * result Image) -> Prop :=
| chained_stop base declared : chained base declared []
| chained_failed base tar declared e :
    chained base (tar :: declared) [(base, tar, Err e)]
| chained_ok base tar declared image apps :
    chained image declared apps ->
    chained base (tar :: declared) ((base, tar, Ok image) :: apps).
(** The line [BuilderConfigFromFlags] prints before it pulls [ref]. *)
Definition pulling_line (ref : string) : string :=
  strings.Join ["Pulling builder base image "; ref] " ".

End Assembler.

(** ** A concrete world

    One buildpack [java] next to the builder configuration, an image
    library that stacks layer names, and a system without faults. *)

Module Demo.

(** An image is the list of its layers; [None] is [nil]. *)
Definition Image : Type := option (list string).
Definition BuildpackGroup : Type := list string.

Definition decode_buildpack (content : string) : result BP :=
  match strings.split_slash content with
  | [id; version] => Ok (mkBP id version)
  | [id] => Ok (mkBP id "")
  | _ => Err "toml: cannot load TOML value"
  end.

Definition java : Buildpack := mkBuildpack "java" "./bp-java".

Definition host : @Host Image BuildpackGroup := {|
  TempDir_answer := fun _ _ prefix => Ok ("/tmp/" +:+ prefix +:+ "012345");
  Mkdir_fault := fun _ _ => None;
  Create_fault := fun _ _ => None;
  Remove_fault := fun _ _ => None;
  Write_fault := fun _ _ _ => None;
  toml_Encode_order := fun groups =>
    ("groups = " +:+ strings.Join (map (fun g => strings.Join g ",") groups) ";", None);
  toml_Decode_buildpack := decode_buildpack;
  toml_Decode_builder := fun _ repoName =>
    Ok (mkBuilderToml repoName [java] [["java"]]);
  img_Append := fun _ base tar =>
    match base with
    | Some layers => Ok (Some (layers ++ [tar]))
    | None => Err "nil image"
    end;
  v1_Image_is_nil := fun image => if image is None then true else false;
  config_Registry := fun _ => Ok "index.docker.io";
  config_ImageByRegistry := fun _ images =>
    match images with
    | image :: _ => Ok image
    | [] => Err "no build image"
    end
|}.

Definition store : @Store Image := {| Write := fun _ _ => None |}.

Definition factory : @BuilderFactory Image := {|
  Docker_ := {| PullImage := fun _ _ => None |};
  FS_ := {| CreateTGZFile := fun _ tarFile srcDir tarDir _ _ =>
              Ok ("tgz " +:+ srcDir +:+ " as " +:+ tarDir) |};
  Config_ := {| Get := fun stackID =>
                  if String.eqb stackID "io.buildpacks.stacks.bionic"
                  then Ok (mkStack stackID ["packs/build"])
                  else Err ("stack " +:+ stackID +:+ " not found") |};
  Images_ := {| ReadImage := fun _ _ _ => Ok (Some ["base"]);
                RepoStore := fun _ _ _ => Ok store |}
|}.

(** The builder of the end-to-end scenario, and the same builder
    without buildpacks. *)
Definition config : @BuilderConfig Image BuildpackGroup := {|
  RepoName := "example/builder";
  Repo := store;
  Buildpacks := [java];
  Groups := [["java"]];
  BaseImage := Some ["base"];
  BuilderDir := "/spec"
|}.

Definition config_empty : @BuilderConfig Image BuildpackGroup := {|
  RepoName := "example/builder";
  Repo := store;
  Buildpacks := [];
  Groups := [];
  BaseImage := Some ["base"];
  BuilderDir := "/spec"
|}.

(** The filesystem before the build; [metadata] is the content of the
    buildpack's [buildpack.toml]. *)
Definition world (metadata : string) : @World Image := {|
  files := {[ "/spec/builder.toml" := File "";
              "/spec/bp-java" := Directory;
              "/spec/bp-java/buildpack.toml" := File metadata ]};
  logged := [];
  calls := []
|}.

Definition flags (stackID : string) (publish noPull : bool) : CreateBuilderFlags := {|
  flag_RepoName := "example/builder";
  BuilderTomlPath := "/spec/builder.toml";
  StackID := stackID;
  Publish := publish;
  NoPull := noPull
|}.

End Demo.

(** ** The shell function initializer (package [shell])

    [generateShellFunctionDockerFile] fills the tokens of the Dockerfile
    template and hands them to [core.GenerateFunctionDockerFileContents],
    which is taken as it comes. *)

Module shell.

(** The fields of [options.InitOptions] the generator reads. *)
Record InitOptions : Type := { Artifact : string; RiffVersion : string }.

(** [core.DockerFileTokens], as the generator fills it. *)
Record DockerFileTokens : Type := mkTokens {
  token_Artifact : string;
  token_ArtifactBase : string;
  token_RiffVersion : string
}.

Definition shellFunctionDockerfileTemplate : string :=
  "
FROM projectriff/shell-function-invoker:{{.RiffVersion}}
ARG FUNCTION_URI=" +:+ dq +:+ "/{{.ArtifactBase}}" +:+ dq +:+ "
ADD {{.Artifact}} /
ENV FUNCTION_URI $FUNCTION_URI
".

Section Generator.

(** [core.GenerateFunctionDockerFileContents(tmpl, name, tokens)]. *)
Variable GenerateFunctionDockerFileContents :
  string -> string -> DockerFileTokens -> result string.

(** [func generateShellFunctionDockerFile(opts options.InitOptions)
    (string, error)] *)
Definition generateShellFunctionDockerFile (opts : InitOptions) : result string :=
  let dockerFileTokens := {|
    token_Artifact := Artifact opts;
    token_ArtifactBase := filepath.Base (Artifact opts);
    token_RiffVersion := RiffVersion opts
  |} in
  GenerateFunctionDockerFileContents shellFunctionDockerfileTemplate "docker-shell"
    dockerFileTokens.

End Generator.
End shell.

(** ** More of the concrete world *)

Module Scenario.

(** The builder of [Demo] before the buildpack is unpacked: its
    [buildpack.toml] is not there. *)
Definition world_bare : @World Demo.Image := {|
  files := {[ "/spec/builder.toml" := File "" ]};
  logged := [];
  calls := []
|}.

(** No builder configuration at all. *)
Definition world_empty : @World Demo.Image := {|
  files := ∅;
  logged := [];
  calls := []
|}.

(** Two working directories on filesystems that differ otherwise. *)
Definition world_a : @World Demo.Image := {|
  files := {[ "/tmp/a" := Directory ]};
  logged := [];
  calls := []
|}.

Definition world_b : @World Demo.Image := {|
  files := {[ "/tmp/b" := Directory; "/tmp/full" := File "" ]};
  logged := ["an earlier line"];
  calls := []
|}.

(** The system of [Demo] with a disk that is full where [/tmp/full]
    exists: a write takes [n] bytes there and fails. *)
Definition host_full (n : nat) : @Host Demo.Image Demo.BuildpackGroup := {|
  TempDir_answer := TempDir_answer Demo.host;
  Mkdir_fault := Mkdir_fault Demo.host;
  Create_fault := Create_fault Demo.host;
  Remove_fault := Remove_fault Demo.host;
  Write_fault := fun w name _ =>
    match files w !! "/tmp/full" with
    | Some _ => Some (n, "write " +:+ name +:+ ": no space left on device")
    | None => None
    end;
  toml_Encode_order := toml_Encode_order Demo.host;
  toml_Decode_buildpack := toml_Decode_buildpack Demo.host;
  toml_Decode_builder := toml_Decode_builder Demo.host;
  img_Append := img_Append Demo.host;
  v1_Image_is_nil := v1_Image_is_nil Demo.host;
  config_Registry := config_Registry Demo.host;
  config_ImageByRegistry := config_ImageByRegistry Demo.host
|}.

(** A shell function and the template renderer left as it is: the
    tokens in a row. *)
Definition echo : shell.InitOptions :=
  {| shell.Artifact := "functions/echo.sh"; shell.RiffVersion := "0.0.7" |}.

Definition render (template name : string) (tokens : shell.DockerFileTokens)
  : result string :=
  Ok (shell.token_RiffVersion tokens +:+ " " +:+ shell.token_ArtifactBase tokens
      +:+ " " +:+ shell.token_Artifact tokens).

End Scenario.

(** * Properties *)

Arguments filepath.Join : simpl never.
Arguments filepath.Clean : simpl never.

(** ** Strings *)

Lemma append_cons (x : ascii) (a b : string) :
  String x a +:+ b = String x (a +:+ b).
Proof. reflexivity. Qed.

Lemma append_assoc (a b c : string) : (a +:+ b) +:+ c = a +:+ (b +:+ c).
Proof.
  induction a as [|x a IH]; [reflexivity |].
  rewrite !append_cons. now f_equal.
Qed.

Lemma append_empty_r (a : string) : a +:+ "" = a.
Proof.
  induction a as [|x a IH]; [reflexivity |].
  rewrite append_cons. now f_equal.
Qed.

Lemma substring_whole s : String.substring 0 (String.length s) s = s.
Proof. induction s as [|a s IH]; [reflexivity |]. simpl. now rewrite IH. Qed.

(** The first [n] bytes of [s] are the first bytes of [s], as many as
    they are. *)
Lemma substring_length_substring n s :
  String.substring 0 (String.length (String.substring 0 n s)) s
  = String.substring 0 n s.
Proof.
  revert n. induction s as [|a s IH]; intros [|n]; try reflexivity.
  simpl. now rewrite IH.
Qed.

Lemma HasPrefix_append (p s : string) : strings.HasPrefix (p +:+ s) p = true.
Proof.
  induction p as [|x p IH]; [reflexivity |].
  rewrite append_cons. simpl. now rewrite Ascii.eqb_refl.
Qed.




Lemma Contains_here (s sub : string) :
  strings.HasPrefix s sub = true -> strings.Contains s sub = true.
Proof. destruct s; simpl; now intros ->. Qed.

Lemma Contains_later (a s sub : string) :
  strings.Contains s sub = true -> strings.Contains (a +:+ s) sub = true.
Proof.
  intros H. induction a as [|x a IH]; [exact H |].
  rewrite append_cons. simpl. rewrite IH. apply orb_true_r.
Qed.

Lemma Contains_middle (a b c : string) : strings.Contains (a +:+ b +:+ c) b = true.
Proof. apply Contains_later, Contains_here, HasPrefix_append. Qed.

Lemma Contains_end (a b : string) : strings.Contains (a +:+ b) b = true.
Proof.
  rewrite <- (append_empty_r b) at 1. apply Contains_middle.
Qed.

(** ** Path resolution *)



(** ** The files of the order layer *)

Lemma split_slash_nonempty s : strings.split_slash s <> [].
Proof.
  destruct s as [|c s]; simpl; [discriminate |].
  destruct (Ascii.eqb c "/"); [discriminate |].
  destruct (strings.split_slash s); discriminate.
Qed.

Lemma split_slash_append d x :
  strings.split_slash (d +:+ "/" +:+ x) = strings.split_slash d ++ strings.split_slash x.
Proof.
  induction d as [|c d IH]; [reflexivity |].
  rewrite append_cons. simpl.
  destruct (Ascii.eqb c "/"); simpl; [now rewrite IH |].
  rewrite IH. pose proof (split_slash_nonempty d) as Hne.
  destruct (strings.split_slash d); [contradiction | reflexivity].
Qed.

Lemma clean_step_plain rooted out x :
  plain_element x -> filepath.clean_step rooted out x = x :: out.
Proof.
  intros (_ & H1 & H2 & H3). unfold filepath.clean_step.
  apply String.eqb_neq in H1, H2, H3. now rewrite H1, H2, H3.
Qed.

Lemma strings_Join_snoc l x sep :
  exists p, strings.Join (l ++ [x]) sep = p +:+ x.
Proof.
  induction l as [|e l [p IH]]; [now exists "" |].
  destruct l as [|e' l].
  - exists (e +:+ sep). simpl. now rewrite append_assoc.
  - exists (e +:+ sep +:+ p). 
    change (strings.Join ((e :: e' :: l) ++ [x]) sep)
      with (e +:+ sep +:+ strings.Join ((e' :: l) ++ [x]) sep).
    rewrite IH. now rewrite !append_assoc.
Qed.

Lemma Clean_ends_with d x :
  plain_element x -> exists p, filepath.Clean (d +:+ "/" +:+ x) = p +:+ x.
Proof.
  intros Hx. unfold filepath.Clean.
  destruct (String.eqb (d +:+ "/" +:+ x) "") eqn:E.
  { apply String.eqb_eq in E. destruct d; discriminate. }
  rewrite split_slash_append, (proj1 Hx), fold_left_app. simpl fold_left.
  rewrite (clean_step_plain _ _ _ Hx). simpl rev.
  destruct (strings_Join_snoc
              (rev (fold_left (filepath.clean_step (filepath.IsAbs (d +:+ "/" +:+ x)))
                      (strings.split_slash d) [])) x "/") as [p Hp].
  destruct (filepath.IsAbs (d +:+ "/" +:+ x)).
  - exists ("/" +:+ p). now rewrite Hp.
  - destruct (rev _ ++ [x]) eqn:El; [now destruct (rev _) |].
    exists p. exact Hp.
Qed.

Lemma Clean_plain x : plain_element x -> filepath.Clean x = x.
Proof.
  intros Hx. pose proof Hx as (Hs & H1 & H2 & H3). unfold filepath.Clean.
  apply String.eqb_neq in H1 as E. rewrite E, Hs. simpl fold_left.
  rewrite (clean_step_plain _ _ _ Hx). simpl.
  destruct (filepath.IsAbs x) eqn:Ha; [| reflexivity].
  exfalso. unfold filepath.IsAbs in Ha. destruct x as [|c x]; [discriminate |].
  cbn [strings.HasPrefix] in Ha. destruct (Ascii.eqb "/" c) eqn:Ec; [| discriminate].
  apply Ascii.eqb_eq in Ec as <-. discriminate.
Qed.

(** [filepath.Join(d, x)] ends with [x], for a plain element [x]. *)
Lemma Join_ends_with d x :
  plain_element x -> exists p, filepath.Join [d; x] = p +:+ x.
Proof.
  intros Hx. unfold filepath.Join.
  destruct (String.eqb d "").
  - pose proof Hx as (_ & H1 & _). apply String.eqb_neq in H1. rewrite H1.
    exists "". simpl strings.Join. now rewrite Clean_plain.
  - now apply Clean_ends_with.
Qed.

Lemma last_byte_append p x : x <> "" -> last_byte (p +:+ x) = last_byte x.
Proof.
  intros Hx. induction p as [|c p IH]; [reflexivity |].
  rewrite append_cons. simpl. rewrite IH.
  destruct x as [|c' x]; [contradiction |]. simpl.
  now destruct (last_byte x).
Qed.

Lemma plain_order_tar : plain_element "order.tar".
Proof. repeat split; discriminate. Qed.

Lemma plain_order_toml : plain_element "order.toml".
Proof. repeat split; discriminate. Qed.

(** The archive of the order layer is not the order manifest. *)
Lemma order_tar_not_order_file dest :
  filepath.Join [dest; "order.tar"] <> order_file dest.
Proof.
  unfold order_file. intros H.
  destruct (Join_ends_with dest "order.tar" plain_order_tar) as [p1 H1].
  destruct (Join_ends_with (filepath.Join [dest; "buildpack"]) "order.toml"
              plain_order_toml) as [p2 H2].
  apply (f_equal last_byte) in H. rewrite H1, H2 in H.
  rewrite !last_byte_append in H by discriminate. discriminate.
Qed.

Lemma plain_buildpack : plain_element "buildpack".
Proof. repeat split; discriminate. Qed.

Lemma buildpack_dir_not_order_file dest :
  filepath.Join [dest; "buildpack"] <> order_file dest.
Proof.
  unfold order_file. intros H.
  destruct (Join_ends_with dest "buildpack" plain_buildpack) as [p1 H1].
  destruct (Join_ends_with (filepath.Join [dest; "buildpack"]) "order.toml"
              plain_order_toml) as [p2 H2].
  apply (f_equal last_byte) in H. rewrite H2 in H. rewrite H1 in H at 1.
  rewrite !last_byte_append in H by discriminate. discriminate.
Qed.

Lemma buildpack_dir_not_order_tar dest :
  filepath.Join [dest; "buildpack"] <> filepath.Join [dest; "order.tar"].
Proof.
  intros H.
  destruct (Join_ends_with dest "buildpack" plain_buildpack) as [p1 H1].
  destruct (Join_ends_with dest "order.tar" plain_order_tar) as [p2 H2].
  apply (f_equal last_byte) in H. rewrite H1, H2 in H.
  rewrite !last_byte_append in H by discriminate. discriminate.
Qed.

(** ** Runs and their traces *)

Section Run.
Context {Image BuildpackGroup : Type} (host : @Host Image BuildpackGroup).
Implicit Types (w : @World Image) (cs evs : list (@Call Image)).

Abbreviation IO := (M (@World Image)).

(** *** The primitives: one call each *)

Lemma ioutil_TempDir_run dir prefix w r w' :
  ioutil_TempDir host dir prefix w = (r, w') ->
  calls w' = calls w ++ [TempDirCall dir prefix r] /\
  r = TempDir_answer host w dir prefix.
Proof.
  unfold ioutil_TempDir. intros H.
  destruct (TempDir_answer host w dir prefix); simplify_eq; done.
Qed.

Lemma os_Mkdir_run name w r w' :
  os_Mkdir host name w = (r, w') ->
  exists err, calls w' = calls w ++ [MkdirCall name err] /\ r = result_of err.
Proof.
  unfold os_Mkdir, returning. intros H. simplify_eq.
  eexists. split; [| reflexivity]. now case_match.
Qed.

Lemma os_Create_run name w r w' :
  os_Create host name w = (r, w') ->
  exists err, calls w' = calls w ++ [CreateCall name err] /\
              r = match err with None => Ok name | Some e => Err e end.
Proof.
  unfold os_Create. intros H.
  case_match; simplify_eq; eexists; (split; [reflexivity |]); done.
Qed.

Lemma toml_Encode_run name groups w r w' :
  toml_Encode host name groups w = (r, w') ->
  calls w' = calls w ++ [EncodeCall name (toml_Encode_answer host name groups w).1
                           (toml_Encode_answer host name groups w).2] /\
  r = result_of (toml_Encode_answer host name groups w).2.
Proof.
  unfold toml_Encode, returning. intros H.
  destruct (toml_Encode_answer host name groups w); simplify_eq; done.
Qed.

(** An [Encode] without error has written the whole document. *)
Lemma toml_Encode_answer_complete name groups w :
  (toml_Encode_answer host name groups w).2 = None ->
  (toml_Encode_answer host name groups w).1 = (toml_Encode_order host groups).1 /\
  (toml_Encode_order host groups).2 = None /\
  Write_fault host w name (toml_Encode_order host groups).1 = None.
Proof.
  unfold toml_Encode_answer, order_document, File_Write.
  destruct (toml_Encode_order host groups) as [bytes [e|]]; cbn [fst snd];
    destruct (Write_fault host w name bytes) as [[n e']|]; cbn [fst snd];
    intros H; try discriminate; repeat split; reflexivity.
Qed.

(** Whatever [Encode] has written is the beginning of the document. *)
Lemma toml_Encode_answer_prefix name groups w :
  (toml_Encode_answer host name groups w).1
  = String.substring 0 (String.length (toml_Encode_answer host name groups w).1)
      (toml_Encode_order host groups).1.
Proof.
  unfold toml_Encode_answer, order_document, File_Write.
  destruct (toml_Encode_order host groups) as [bytes err].
  destruct (Write_fault host w name bytes) as [[n e']|]; cbn [fst].
  - now rewrite substring_length_substring.
  - now rewrite substring_whole.
Qed.

Lemma FS_CreateTGZFile_run fs tarFile srcDir tarDir uid gid w r w' :
  FS_CreateTGZFile fs tarFile srcDir tarDir uid gid w = (r, w') ->
  exists err, calls w' = calls w ++ [CreateTGZFileCall tarFile srcDir tarDir uid gid err] /\
              r = result_of err.
Proof.
  unfold FS_CreateTGZFile. intros H.
  case_match; simplify_eq; eexists; (split; [reflexivity |]); done.
Qed.

Lemma toml_DecodeFile_buildpack_run path w r w' :
  toml_DecodeFile_buildpack host path w = (r, w') ->
  calls w' = calls w ++ [DecodeFileCall path (error_of r)] /\ files w' = files w.
Proof. unfold toml_DecodeFile_buildpack. intros H. simplify_eq. done. Qed.

Lemma img_Append_call_run base tar w r w' :
  img_Append_call host base tar w = (r, w') ->
  calls w' = calls w ++ [AppendCall base tar r].
Proof. unfold img_Append_call. intros H. simplify_eq. done. Qed.

Lemma Repo_Write_run repo image w r w' :
  Repo_Write repo image w = (r, w') ->
  exists err, calls w' = calls w ++ [WriteCall image err] /\ r = result_of err.
Proof. unfold Repo_Write, returning. intros H. simplify_eq. eauto. Qed.

Lemma os_Remove_run name w r w' :
  os_Remove host name w = (r, w') ->
  exists err, calls w' = calls w ++ [RemoveCall name err] /\ logged w' = logged w.
Proof.
  unfold os_Remove, returning. intros H. simplify_eq.
  match goal with
  | |- context [record (RemoveCall name ?e)] => exists e; now destruct e
  end.
Qed.

(** *** Traces *)

Lemma new_calls_app w w' evs : calls w' = calls w ++ evs -> new_calls w w' = evs.
Proof. unfold new_calls. intros ->. apply drop_app_length. Qed.

Lemma new_calls_record c w : new_calls w (record c w) = [c].
Proof. now apply new_calls_app. Qed.

Lemma new_calls_same w : new_calls w w = [].
Proof. apply new_calls_app. now rewrite app_nil_r. Qed.

Lemma failures_app cs1 cs2 : failures (cs1 ++ cs2) = failures cs1 ++ failures cs2.
Proof. apply omap_app. Qed.

Lemma appends_app cs1 cs2 : appends (cs1 ++ cs2) = appends cs1 ++ appends cs2.
Proof. apply omap_app. Qed.

Lemma writes_app cs1 cs2 : writes (cs1 ++ cs2) = writes cs1 ++ writes cs2.
Proof. apply omap_app. Qed.

Lemma archives_app cs1 cs2 : archives (cs1 ++ cs2) = archives cs1 ++ archives cs2.
Proof. apply omap_app. Qed.

Lemma removals_app cs1 cs2 : removals (cs1 ++ cs2) = removals cs1 ++ removals cs2.
Proof. apply omap_app. Qed.

Lemma manifests_app cs1 cs2 : manifests (cs1 ++ cs2) = manifests cs1 ++ manifests cs2.
Proof. apply omap_app. Qed.

Lemma blames_quiet err cs : failures cs = [] -> blames err cs.
Proof. unfold blames. intros -> msg Hin. inversion Hin. Qed.

Lemma blames_single e cs : failures cs = [e] -> blames (Some e) cs.
Proof.
  unfold blames. intros -> msg Hin.
  apply list_elem_of_singleton in Hin as ->. now exists "".
Qed.

Lemma blames_app err cs1 cs2 :
  failures cs1 = [] -> blames err cs2 -> blames err (cs1 ++ cs2).
Proof. unfold blames. intros H1 H2 msg. rewrite failures_app, H1. apply H2. Qed.

Lemma blames_app_l err cs1 cs2 :
  blames err cs1 -> failures cs2 = [] -> blames err (cs1 ++ cs2).
Proof.
  unfold blames. intros H1 H2 msg. rewrite failures_app, H2, app_nil_r. apply H1.
Qed.

Lemma blames_context context e cs :
  blames (Some e) cs -> blames (Some (context +:+ e)) cs.
Proof.
  unfold blames. intros H msg Hin.
  destruct (H msg Hin) as [c Hc]. injection Hc as ->.
  exists (context +:+ c). now rewrite append_assoc.
Qed.

Lemma blames_None cs : blames None cs -> failures cs = [].
Proof.
  unfold blames. intros H. destruct (failures cs) as [|msg l]; [reflexivity |].
  destruct (H msg) as [c Hc]; [left | discriminate].
Qed.

Lemma layering_length (base : Image) tars images :
  length tars = length images -> length (layering base tars images) = length tars.
Proof.
  revert base images. induction tars as [|tar tars IH]; intros base [|image images] Hlen;
    simpl in *; try discriminate; [reflexivity |].
  f_equal. apply IH. lia.
Qed.

(** *** [orderLayer] *)

Lemma orderLayer_run f dest groups w r w' :
  orderLayer host f dest groups w = (r, w') ->
  exists evs, calls w' = calls w ++ evs /\
    appends evs = [] /\ writes evs = [] /\ removals evs = [] /\
    decodes evs = [] /\ length (archives evs) <= 1 /\
    (forall m, m ∈ manifests evs -> m.1 = order_file dest) /\
    match r with
    | Ok tar => tar = filepath.Join [dest; "order.tar"] /\ failures evs = [] /\
                archives evs = [order_archive dest] /\
                manifests evs = [(order_file dest, (toml_Encode_order host groups).1)]
    | Err e => failures evs = [e] /\ Forall (fun a => a.2 <> None) (archives evs)
    end.
Proof.
  unfold orderLayer, bind, defer, ret. intros H.
  destruct (os_Mkdir _ _ w) as [r1 w1] eqn:E1.
  apply os_Mkdir_run in E1 as ([e1|] & C1 & ->); cbn [result_of] in H.
  { injection H as <- <-. eexists; split; [eassumption |].
    repeat split; try done; try (simpl; lia). intros m Hm. inversion Hm. }
  destruct (os_Create _ _ w1) as [r2 w2] eqn:E2.
  apply os_Create_run in E2 as ([e2|] & C2 & ->).
  { injection H as <- <-. rewrite C2, C1, <- app_assoc.
    eexists; split; [reflexivity |].
    repeat split; try done; try (simpl; lia). intros m Hm. inversion Hm. }
  fold (order_file dest) in *.
  destruct (toml_Encode _ _ _ w2) as [r3 w3] eqn:E3.
  apply toml_Encode_run in E3 as (C3 & ->).
  pose proof (toml_Encode_answer_complete (order_file dest) groups w2) as Hdoc.
  destruct (toml_Encode_answer host (order_file dest) groups w2)
    as [bytes [e3|]] eqn:Eenc;
    cbn [result_of fst snd File_Close record calls] in *.
  { injection H as <- <-. unfold record; cbn [calls].
    rewrite C3, C2, C1, <- !app_assoc.
    eexists; split; [reflexivity |].
    repeat split; try done; try (simpl; lia).
    intros m Hm. now apply list_elem_of_singleton in Hm as ->. }
  destruct (Hdoc eq_refl) as (-> & _).
  destruct (FS_CreateTGZFile _ _ _ _ _ _ w3) as [r4 w4] eqn:E4.
  apply FS_CreateTGZFile_run in E4 as ([e4|] & C4 & ->);
    cbn [result_of fst snd] in H; injection H as <- <-; unfold record; cbn [calls].
  all: rewrite C4, C3, C2, C1, <- !app_assoc; eexists; (split; [reflexivity |]).
  - repeat split; try done; try (simpl; lia).
    + intros m Hm. now apply list_elem_of_singleton in Hm as ->.
    + repeat constructor. discriminate.
  - repeat split; try done; try (simpl; lia).
    intros m Hm. now apply list_elem_of_singleton in Hm as ->.
Qed.

Lemma os_Create_files name w w' :
  os_Create host name w = (Ok name, w') ->
  files w' = <[name := File ""]> (files w).
Proof.
  unfold os_Create. intros H.
  destruct (match files w !! name with
            | Some Directory => _
            | _ => _
            end); now simplify_eq.
Qed.

Lemma toml_Encode_files name groups w r w' :
  toml_Encode host name groups w = (r, w') ->
  files w' = <[name := File (content_of (files w) name
                             +:+ (toml_Encode_answer host name groups w).1)]> (files w).
Proof.
  unfold toml_Encode, returning. intros H.
  destruct (toml_Encode_answer host name groups w). now simplify_eq.
Qed.

Lemma FS_CreateTGZFile_files fs tarFile srcDir tarDir uid gid w w' :
  FS_CreateTGZFile fs tarFile srcDir tarDir uid gid w = (Ok tt, w') ->
  exists bytes, files w' = <[tarFile := File bytes]> (files w).
Proof.
  unfold FS_CreateTGZFile. intros H.
  destruct (CreateTGZFile fs w tarFile srcDir tarDir uid gid) as [bytes | e];
    simplify_eq. now exists bytes.
Qed.

(** After a successful [orderLayer] the order manifest holds the
    encoding of the groups, and nothing else. *)
Lemma orderLayer_manifest_file f dest groups w tar w' :
  orderLayer host f dest groups w = (Ok tar, w') ->
  files w' !! order_file dest = Some (File (toml_Encode_order host groups).1).
Proof.
  unfold orderLayer, bind, defer, ret. fold (order_file dest). intros H.
  destruct (os_Mkdir _ _ w) as [[[] | e1] w1] eqn:E1; [| discriminate].
  destruct (os_Create _ _ w1) as [[orderFile | e2] w2] eqn:E2; [| discriminate].
  pose proof E2 as E2'. apply os_Create_run in E2' as (err & _ & Hname).
  destruct err; simplify_eq. apply os_Create_files in E2.
  destruct (toml_Encode _ _ _ w2) as [[[] | e3] w3] eqn:E3;
    [| simpl in H; discriminate].
  pose proof E3 as E3'. apply toml_Encode_run in E3' as (_ & Hr).
  destruct (toml_Encode_answer_complete (order_file dest) groups w2)
    as (Hdoc & _); [now destruct (toml_Encode_answer _ _ _ _).2 |].
  apply toml_Encode_files in E3. rewrite Hdoc in E3.
  destruct (FS_CreateTGZFile _ _ _ _ _ _ w3) as [[[] | e4] w4] eqn:E4;
    simpl in H; [| discriminate].
  apply FS_CreateTGZFile_files in E4 as [bytes E4].
  injection H as <- <-. unfold File_Close, record; cbn [files].
  rewrite E4, lookup_insert_ne by apply order_tar_not_order_file.
  rewrite E3, lookup_insert_eq. unfold content_of.
  now rewrite E2, lookup_insert_eq.
Qed.

(** *** Runs taken apart *)

Lemma bind_run {A B} (m : IO A) (k : A -> IO B) w r w' :
  bind m k w = (r, w') ->
  (exists e, m w = (Err e, w') /\ r = Err e) \/
  (exists a w1, m w = (Ok a, w1) /\ k a w1 = (r, w')).
Proof.
  unfold bind. destruct (m w) as [[a | e] w1]; intros H.
  - right. eauto.
  - left. simplify_eq. eauto.
Qed.

Lemma onError_run {A} wrap (m : IO A) w r w' :
  onError wrap m w = (r, w') ->
  (exists a, m w = (Ok a, w') /\ r = Ok a) \/
  (exists e, m w = (Err e, w') /\ r = Err (wrap e)).
Proof.
  unfold onError. destruct (m w) as [[a | e] w1]; intros H; simplify_eq; eauto.
Qed.

Lemma defer_run {A B} (cleanup : IO B) (body : IO A) w r w' :
  defer cleanup body w = (r, w') ->
  exists w1, body w = (r, w1) /\ w' = (cleanup w1).2.
Proof.
  unfold defer. destruct (body w) as [r1 w1]. intros H. simplify_eq. eauto.
Qed.

Lemma os_Mkdir_exact name w r w' :
  os_Mkdir host name w = (r, w') ->
  exists err, r = result_of err /\
    w' = (if err is None
          then set_files (<[name := Directory]> (files w))
                 (record (MkdirCall name err) w)
          else record (MkdirCall name err) w) /\
    (files w !! name <> None -> err <> None).
Proof.
  unfold os_Mkdir, returning. intros H. injection H as <- <-.
  eexists. split; [reflexivity |]. split; [reflexivity |].
  destruct (files w !! name); [discriminate | congruence].
Qed.

Lemma os_Create_exact name w r w' :
  os_Create host name w = (r, w') ->
  exists err,
    (r, w') = match err with
              | None => (Ok name, set_files (<[name := File ""]> (files w))
                                    (record (CreateCall name err) w))
              | Some e => (Err e, record (CreateCall name err) w)
              end.
Proof.
  unfold os_Create. intros H.
  match type of H with
  | match ?e with _ => _ end = _ => exists e; destruct e; now rewrite <- H
  end.
Qed.

Lemma FS_CreateTGZFile_exact fs tarFile srcDir tarDir uid gid w r w' :
  FS_CreateTGZFile fs tarFile srcDir tarDir uid gid w = (r, w') ->
  (exists bytes, CreateTGZFile fs w tarFile srcDir tarDir uid gid = Ok bytes /\
     r = Ok tt /\
     w' = set_files (<[tarFile := File bytes]> (files w))
            (record (CreateTGZFileCall tarFile srcDir tarDir uid gid None) w)) \/
  (exists e, CreateTGZFile fs w tarFile srcDir tarDir uid gid = Err e /\
     r = Err e /\
     w' = record (CreateTGZFileCall tarFile srcDir tarDir uid gid (Some e)) w).
Proof.
  unfold FS_CreateTGZFile. intros H.
  destruct (CreateTGZFile fs w tarFile srcDir tarDir uid gid) as [bytes | e];
    simplify_eq; [left | right]; eauto.
Qed.

Lemma toml_Encode_exact name groups w r w' :
  toml_Encode host name groups w = (r, w') ->
  r = result_of (toml_Encode_answer host name groups w).2 /\
  w' = set_files (<[name := File (content_of (files w) name
                                  +:+ (toml_Encode_answer host name groups w).1)]> (files w))
         (record (EncodeCall name (toml_Encode_answer host name groups w).1
                    (toml_Encode_answer host name groups w).2) w).
Proof.
  unfold toml_Encode, returning. intros H.
  destruct (toml_Encode_answer host name groups w). now simplify_eq.
Qed.

(** Names the answer of the encoder wherever it stands. *)
Ltac name_answer enc :=
  repeat match goal with
         | |- context [toml_Encode_answer ?h ?n ?g ?x] =>
             change (toml_Encode_answer h n g x) with enc
         | H : context [toml_Encode_answer ?h ?n ?g ?x] |- _ =>
             change (toml_Encode_answer h n g x) with enc in H
         end.

(** Every way [orderLayer] can go: the calls it made, what it returned
    and the filesystem it left. *)
Lemma orderLayer_cases f dest groups w r w' :
  orderLayer host f dest groups w = (r, w') ->
  let d := filepath.Join [dest; "buildpack"] in
  let o := order_file dest in
  let t := filepath.Join [dest; "order.tar"] in
  let enc := toml_Encode_answer host o groups (orderLayer_opened dest w) in
  logged w' = logged w /\
  ((exists e, r = Err e /\ files w' = files w /\
      calls w' = calls w ++ [MkdirCall d (Some e)]) \/
   (exists e, r = Err e /\ files w' = <[d := Directory]> (files w) /\
      calls w' = calls w ++ [MkdirCall d None; CreateCall o (Some e)]) \/
   (exists e, enc.2 = Some e /\ r = Err e /\
      files w' = <[o := File enc.1]> (<[d := Directory]> (files w)) /\
      calls w' = calls w ++ [MkdirCall d None; CreateCall o None;
                             EncodeCall o enc.1 (Some e); CloseCall o]) \/
   (exists e, enc.2 = None /\ r = Err e /\
      files w' = <[o := File enc.1]> (<[d := Directory]> (files w)) /\
      calls w' = calls w ++ [MkdirCall d None; CreateCall o None;
                             EncodeCall o enc.1 None;
                             CreateTGZFileCall t d "/buildpacks" 0 0 (Some e);
                             CloseCall o]) \/
   (exists bytes, enc.2 = None /\ r = Ok t /\
      files w' = <[t := File bytes]>
                   (<[o := File enc.1]> (<[d := Directory]> (files w))) /\
      calls w' = calls w ++ [MkdirCall d None; CreateCall o None;
                             EncodeCall o enc.1 None;
                             CreateTGZFileCall t d "/buildpacks" 0 0 None;
                             CloseCall o])) /\
  (files w !! d <> None ->
   exists e, r = Err e /\ w' = record (MkdirCall d (Some e)) w).
Proof.
  intros H d o t enc. unfold orderLayer in H.
  fold d t in H. fold (order_file dest) in H. fold o in H.
  apply bind_run in H as [(e & H & ->) | ([] & w1 & H1 & H)].
  { apply os_Mkdir_exact in H as (err & Hr & -> & Hex).
    destruct err as [e1|]; simpl in Hr; simplify_eq.
    split; [done |]. split; [left; eauto |]. eauto. }
  apply os_Mkdir_exact in H1 as (err & Hr & -> & Hex).
  destruct err as [e1|]; [discriminate |]. clear Hr.
  assert (Hfresh : files w !! d <> None -> False) by (intros Hd; now apply Hex in Hd).
  split; [| split; [| intros Hd; now destruct (Hfresh Hd)]].
  { apply bind_run in H as [(e & H & _) | (orderFile & w2 & H2 & H)].
    { apply os_Create_exact in H as ([e2|] & H); now simplify_eq. }
    apply os_Create_exact in H2 as ([e2|] & H2); simplify_eq.
    apply defer_run in H as (w3 & H & ->).
    apply bind_run in H as [(e & H & _) | ([] & w4 & H4 & H)].
    { apply toml_Encode_exact in H as (_ & ->). done. }
    apply toml_Encode_exact in H4 as (_ & ->).
    apply bind_run in H as [(e & H & _) | ([] & w5 & H5 & H)].
    { apply FS_CreateTGZFile_exact in H as [(b & _ & ? & ->) | (e5 & _ & _ & ->)]; done. }
    unfold ret in H. simplify_eq.
    apply FS_CreateTGZFile_exact in H5 as [(b & _ & _ & ->) | (e5 & _ & ? & _)]; done. }
  apply bind_run in H as [(e & H & ->) | (orderFile & w2 & H2 & H)].
  { apply os_Create_exact in H as ([e2|] & H); simplify_eq.
    right; left. eexists. unfold record, set_files; cbn [files calls].
    rewrite <- app_assoc. repeat split; first [eassumption | reflexivity]. }
  apply os_Create_exact in H2 as ([e2|] & H2); simplify_eq.
  apply defer_run in H as (w3 & H & ->).
  unfold File_Close, record; cbn [snd files calls logged].
  apply bind_run in H as [(e & H & ->) | ([] & w4 & H4 & H)].
  { apply toml_Encode_exact in H as (Hr & ->). name_answer enc.
    destruct (enc.2) as [e3|] eqn:E3; simpl in Hr; simplify_eq.
    right; right; left. eexists.
    unfold record, set_files, content_of; cbn [files calls].
    rewrite lookup_insert_eq, insert_insert_eq, <- !app_assoc.
    repeat split; first [eassumption | reflexivity]. }
  apply toml_Encode_exact in H4 as (Hr & ->). name_answer enc.
  destruct (enc.2) as [e3|] eqn:E3; simpl in Hr; [discriminate |]. clear Hr.
  apply bind_run in H as [(e & H & ->) | ([] & w5 & H5 & H)].
  { apply FS_CreateTGZFile_exact in H as [(b & _ & ? & _) | (e5 & _ & ? & ->)];
      simplify_eq.
    do 3 right; left. eexists.
    unfold record, set_files, content_of; cbn [files calls].
    rewrite lookup_insert_eq, insert_insert_eq, <- !app_assoc.
    repeat split; first [eassumption | reflexivity]. }
  unfold ret in H. simplify_eq.
  apply FS_CreateTGZFile_exact in H5 as [(b & _ & _ & ->) | (e5 & _ & ? & _)];
    [| discriminate].
  do 4 right. exists b.
  unfold record, set_files, content_of; cbn [files calls].
  rewrite lookup_insert_eq, insert_insert_eq, <- !app_assoc.
  repeat split; first [eassumption | reflexivity].
Qed.

(** *** [buildpackLayer] *)

(** What [buildpackLayer] does once the metadata file has decoded. *)
Lemma buildpackLayer_decoded f dest buildpack builderDir w content meta :
  files w !! buildpack_toml builderDir buildpack = Some (File content) ->
  toml_Decode_buildpack host content = Ok meta ->
  buildpackLayer host f dest buildpack builderDir w =
    let w1 := record (DecodeFileCall (buildpack_toml builderDir buildpack) None) w in
    if negb (String.eqb (ID buildpack) (BP_ID meta))
    then (Err (ids_did_not_match (ID buildpack) (BP_ID meta)), w1)
    else if String.eqb (BP_Version meta) ""
    then (Err (must_provide_version (buildpack_toml builderDir buildpack)), w1)
    else (FS_CreateTGZFile (FS_ f) (buildpack_tar dest buildpack (BP_Version meta))
            (buildpackLayer_dir builderDir (URI buildpack))
            (filepath.Join ["/buildpacks"; ID buildpack; BP_Version meta]) 0 0 ;;;
          ret (buildpack_tar dest buildpack (BP_Version meta))) w1.
Proof.
  intros Hfile Hmeta.
  unfold buildpackLayer, bind, onError, toml_DecodeFile_buildpack, lift.
  fold (buildpack_toml builderDir buildpack).
  rewrite Hfile, Hmeta. simpl.
  destruct (negb (ID buildpack =? BP_ID meta)%string); [reflexivity |].
  destruct (BP_Version meta =? "")%string; reflexivity.
Qed.

Lemma buildpackLayer_run f dest buildpack builderDir w r w' :
  buildpackLayer host f dest buildpack builderDir w = (r, w') ->
  exists evs, calls w' = calls w ++ evs /\
    appends evs = [] /\ writes evs = [] /\ removals evs = [] /\ manifests evs = [] /\
    blames (error_of r) evs /\
    match r with
    | Ok tar => exists v, v <> "" /\ tar = buildpack_tar dest buildpack v /\
                          archives evs = [buildpack_archive dest builderDir buildpack v]
    | Err e => Forall (fun a => a.2 <> None) (archives evs)
    end.
Proof.
  unfold buildpackLayer, bind, onError, lift, ret. intros H.
  destruct (toml_DecodeFile_buildpack _ _ w) as [r1 w1] eqn:E1.
  apply toml_DecodeFile_buildpack_run in E1 as [C1 _].
  destruct r1 as [meta | e1]; simpl in C1; simplify_eq.
  2:{ eexists; split; [eassumption |]. cbn. repeat split; try done.
      repeat apply blames_context. now apply blames_single. }
  destruct (negb (ID buildpack =? BP_ID meta)%string); simplify_eq.
  { eexists; split; [eassumption |]. cbn. repeat split; try done.
    now apply blames_quiet. }
  destruct (BP_Version meta =? "")%string eqn:Ev; simplify_eq.
  { eexists; split; [eassumption |]. cbn. repeat split; try done.
    now apply blames_quiet. }
  destruct (FS_CreateTGZFile _ _ _ _ _ _ w1) as [r2 w2] eqn:E2.
  apply FS_CreateTGZFile_run in E2 as ([e2|] & C2 & ->); simpl in H; simplify_eq.
  all: rewrite C2, C1, <- app_assoc; eexists; (split; [reflexivity |]); cbn.
  - repeat split; try done.
    + now apply blames_single.
    + repeat constructor. done.
  - repeat split; try done.
    + now apply blames_quiet.
    + exists (BP_Version meta). repeat split.
      now apply String.eqb_neq in Ev.
Qed.

(** *** The loop of [Create] *)

Lemma Create_buildpacks_run f tmpDir builderDir buildpacks :
  forall builderImage w r w',
  Create_buildpacks host f tmpDir builderDir buildpacks builderImage w = (r, w') ->
  exists evs, calls w' = calls w ++ evs /\
    writes evs = [] /\ removals evs = [] /\ manifests evs = [] /\ blames (error_of r) evs /\
    match r with
    | Ok final =>
        exists vs images,
          length vs = length buildpacks /\ length images = length buildpacks /\
          appends evs = layering builderImage
                          (zip_with (buildpack_tar tmpDir) buildpacks vs) images /\
          archives evs = zip_with (buildpack_archive tmpDir builderDir) buildpacks vs /\
          last (builderImage :: images) = Some final
    | Err _ => buildpacks <> []
    end.
Proof.
  induction buildpacks as [|buildpack rest IH]; intros builderImage w r w' H.
  { unfold Create_buildpacks, ret in H. simplify_eq.
    exists []. rewrite app_nil_r. repeat split; try done.
    - now apply blames_quiet.
    - now exists [], []. }
  simpl in H. unfold bind, onError in H.
  destruct (buildpackLayer _ _ _ _ _ w) as [r1 w1] eqn:E1.
  apply buildpackLayer_run in E1 as (ev1 & C1 & A1 & W1 & R1 & M1 & B1 & P1).
  destruct r1 as [tarFile | e1]; simplify_eq.
  2:{ exists ev1. repeat split; try done. now repeat apply blames_context. }
  destruct P1 as (v & Hv & -> & Ar1).
  destruct (img_Append_call _ _ _ w1) as [r2 w2] eqn:E2.
  apply img_Append_call_run in E2 as C2.
  destruct r2 as [image | e2]; simplify_eq.
  2:{ rewrite C2, C1, <- app_assoc. eexists; split; [reflexivity |].
      rewrite writes_app, removals_app, manifests_app, W1, R1, M1. cbn.
      repeat split; try done.
      apply blames_app; [now apply blames_None in B1 |].
      apply blames_context. now apply blames_single. }
  apply IH in H as (ev3 & C3 & W3 & R3 & M3 & B3 & P3).
  rewrite C3, C2, C1, <- !app_assoc. eexists; split; [reflexivity |].
  rewrite !writes_app, !removals_app, !manifests_app, W1, R1, M1, W3, R3, M3.
  repeat split; try done.
  { apply blames_app; [now apply blames_None in B1 |].
    now apply (blames_app _ [_]). }
  destruct r as [final | e]; [| done].
  destruct P3 as (vs & images & Lv & Li & Ap3 & Ar3 & La).
  exists (v :: vs), (image :: images).
  rewrite !appends_app, !archives_app, A1, Ar1, Ap3, Ar3.
  repeat split; try done; simpl; lia.
Qed.

(** *** [Create] *)

Lemma Create_body_run f config tmpDir w r w' :
  Create_body host f config tmpDir w = (r, w') ->
  exists evs, calls w' = calls w ++ evs /\ removals evs = [] /\
    blames (error_of r) evs /\
    (forall m, m ∈ manifests evs -> m.1 = order_file tmpDir) /\
    ((exists e, r = Err e /\ writes evs = [] /\
                (Buildpacks config = [] -> failures evs <> [])) \/
     (exists pre vs images final err,
        evs = pre ++ [WriteCall final err] /\ r = result_of err /\
        writes pre = [] /\ failures pre = [] /\
        length vs = length (Buildpacks config) /\
        length images = S (length (Buildpacks config)) /\
        appends pre = layering (BaseImage config)
                        (filepath.Join [tmpDir; "order.tar"]
                         :: zip_with (buildpack_tar tmpDir) (Buildpacks config) vs)
                        images /\
        archives pre = order_archive tmpDir
                       :: zip_with (buildpack_archive tmpDir (BuilderDir config))
                            (Buildpacks config) vs /\
        last images = Some final)).
Proof.
  unfold Create_body, bind, onError. intros H.
  destruct (orderLayer _ _ _ _ w) as [r1 w1] eqn:E1.
  apply orderLayer_run in E1 as (ev1 & C1 & A1 & W1 & R1 & _ & _ & M1 & P1).
  destruct r1 as [orderTar | e1]; simplify_eq.
  2:{ destruct P1 as [F1 _]. exists ev1. repeat split; try done.
      - apply blames_context. now apply blames_single.
      - left. eexists. repeat split; try done. now rewrite F1. }
  destruct P1 as (-> & F1 & Ar1 & Mf1).
  destruct (img_Append_call _ _ _ w1) as [r2 w2] eqn:E2.
  apply img_Append_call_run in E2 as C2.
  destruct r2 as [image | e2]; simplify_eq.
  2:{ rewrite C2, C1, <- app_assoc. eexists; split; [reflexivity |].
      rewrite removals_app, manifests_app, writes_app, failures_app, R1, W1, F1.
      repeat split; try done.
      - apply blames_app; [done |]. apply blames_context. now apply blames_single.
      - intros m. rewrite app_nil_r. apply M1.
      - left. eexists. repeat split; done. }
  destruct (Create_buildpacks _ _ _ _ _ _ w2) as [r3 w3] eqn:E3.
  apply Create_buildpacks_run in E3 as (ev3 & C3 & W3 & R3 & M3 & B3 & P3).
  destruct r3 as [final | e3]; simplify_eq.
  2:{ rewrite C3, C2, C1, <- !app_assoc. eexists; split; [reflexivity |].
      rewrite !removals_app, !manifests_app, !writes_app, R1, W1, R3, W3, M3.
      repeat split; try done.
      - apply blames_app; [done |]. now apply (blames_app _ [_]).
      - intros m. rewrite app_nil_r. apply M1.
      - left. eexists. repeat split; done. }
  destruct P3 as (vs & images & Lv & Li & Ap3 & Ar3 & La).
  apply blames_None in B3 as F3.
  destruct (Repo_Write _ _ w3) as [r4 w4] eqn:E4.
  apply Repo_Write_run in E4 as (err & C4 & ->).
  assert (Hr : r = result_of err /\ calls w' = calls w4).
  { destruct err; simpl in H; unfold Println, ret in H; simplify_eq;
      split; reflexivity. }
  destruct Hr as [-> Hc]. clear H.
  rewrite Hc, C4, C3, C2, C1, <- !app_assoc. eexists; split; [reflexivity |].
  rewrite !removals_app, !manifests_app, R1, R3, M3.
  repeat split; try done.
  - apply blames_app; [done |]. apply (blames_app _ [_]); [done |].
    apply blames_app; [done |]. destruct err; [now apply blames_single | now apply blames_quiet].
  - intros m. rewrite app_nil_r. apply M1.
  - right. exists (ev1 ++ [AppendCall (BaseImage config) (filepath.Join [tmpDir; "order.tar"]) (Ok image)] ++ ev3),
      vs, (image :: images), final, err.
    rewrite <- !app_assoc.
    rewrite !writes_app, !failures_app, !appends_app, !archives_app,
      W1, W3, F1, F3, A1, Ar1, Ap3, Ar3.
    repeat split; try done. simpl. lia.
Qed.

Lemma decodes_app cs1 cs2 : decodes (cs1 ++ cs2) = decodes cs1 ++ decodes cs2.
Proof. apply omap_app. Qed.

Lemma Create_run f config w r w' :
  Create host f config w = (r, w') ->
  (exists e, TempDir_answer host w "" "create-builder" = Err e /\
             r = Err ("failed to create temporary directory: " +:+ e) /\
             calls w' = calls w ++ [TempDirCall "" "create-builder" (Err e)]) \/
  (exists tmpDir w0 w1 rm,
     TempDir_answer host w "" "create-builder" = Ok tmpDir /\
     calls w0 = calls w ++ [TempDirCall "" "create-builder" (Ok tmpDir)] /\
     Create_body host f config tmpDir w0 = (r, w1) /\
     calls w' = calls w1 ++ [RemoveCall tmpDir rm] /\
     logged w' = logged w1 /\
     (rm = None -> files w' !! tmpDir = None)).
Proof.
  unfold Create, bind, onError, defer. intros H.
  destruct (ioutil_TempDir _ _ _ w) as [r0 w0] eqn:E0.
  apply ioutil_TempDir_run in E0 as [C0 T0].
  destruct r0 as [tmpDir | e0]; simplify_eq.
  2:{ left. eauto. }
  destruct (Create_body _ _ _ _ w0) as [r1 w1] eqn:E1.
  simplify_eq. right.
  destruct (os_Remove host tmpDir w1) as [r2 w2] eqn:E2.
  pose proof E2 as E2'.
  apply os_Remove_run in E2 as (rm & C2 & L2).
  exists tmpDir, w0, w1, rm. simpl. repeat split; try done.
  intros ->. revert E2' C2. unfold os_Remove, returning.
  intros E2'. simplify_eq.
  match goal with
  | |- context [record (RemoveCall tmpDir ?e)] => destruct e eqn:Ee
  end; simpl.
  - intros C2. apply app_inv_head in C2. discriminate.
  - intros _. apply lookup_delete_eq.
Qed.

Lemma failures_elem c msg cs :
  c ∈ cs -> failure_of c = Some msg -> msg ∈ failures cs.
Proof. intros Hin Hf. apply list_elem_of_omap. eauto. Qed.

Lemma Create_write_blames f config w r w' :
  Create host f config w = (r, w') -> blames (error_of r) (new_calls w w').
Proof.
  intros H.
  apply Create_run in H as [(e & _ & -> & C) | (tmpDir & w0 & w1 & rm & T & C0 & Hb & C2 & _)].
  { apply new_calls_app in C as ->. apply blames_context. now apply blames_single. }
  apply Create_body_run in Hb as (body & C1 & R1 & B1 & _).
  rewrite C1, C0, <- !app_assoc in C2. apply new_calls_app in C2 as ->.
  apply (blames_app _ [_]); [done |]. now apply blames_app_l.
Qed.

(** ** The assembler *)

(** C1. A successful [Create] on a configuration with N buildpacks
    makes exactly N+1 calls of [img.Append], all successful: the order
    layer on the base image first, then the layer of each buildpack in
    the order of [config.Buildpacks], each on the image the previous
    append answered with; the image of the last append is what is
    written to the repository. *)
Theorem Create_layers_in_order f config w w' :
  Create host f config w = (Ok tt, w') ->
  exists tmpDir vs images final,
    calls w' = calls w ++ new_calls w w' /\
    TempDir_answer host w "" "create-builder" = Ok tmpDir /\
    length vs = length (Buildpacks config) /\
    length images = S (length (Buildpacks config)) /\
    appends (new_calls w w') =
      layering (BaseImage config)
        (filepath.Join [tmpDir; "order.tar"]
         :: zip_with (buildpack_tar tmpDir) (Buildpacks config) vs) images /\
    length (appends (new_calls w w')) = S (length (Buildpacks config)) /\
    archives (new_calls w w') =
      order_archive tmpDir
      :: zip_with (buildpack_archive tmpDir (BuilderDir config)) (Buildpacks config) vs /\
    last images = Some final /\
    writes (new_calls w w') = [(final, None)].
Proof.
  intros H.
  apply Create_run in H as [(e & _ & He & _) | (tmpDir & w0 & w1 & rm & T & C0 & Hb & C2 & _)];
    [discriminate |].
  apply Create_body_run in Hb as (evs & C1 & _ & _ & _ & [(e & He & _) | Hw]);
    [discriminate |].
  destruct Hw as (pre & vs & images & final & err & -> & Hr & W & F & Lv & Li & Ap & Ar & La).
  destruct err; [discriminate |].
  rewrite C1, C0, <- !app_assoc in C2. pose proof C2 as C.
  apply new_calls_app in C2 as ->.
  exists tmpDir, vs, images, final.
  rewrite !appends_app, !archives_app, !writes_app, Ap, Ar, W.
  repeat split; try done.
  - simpl. now rewrite app_nil_r.
  - rewrite !length_app, layering_length; simpl; rewrite length_zip_with; lia.
  - simpl. now rewrite app_nil_r.
Qed.

(** C2. Whatever [Create] does, either [Repo.Write] is never called
    and [Create] returns an error, or it is called once, after the
    order layer and all N buildpack layers have been generated and
    appended without a failure, and [Create] returns what it answered.
    A call that fails before the write leaves the repository unwritten,
    and its error is the one [Create] returns, behind the context of
    the step. *)
Theorem Create_write_only_when_complete f config w r w' :
  Create host f config w = (r, w') ->
  let evs := new_calls w w' in
  calls w' = calls w ++ evs /\
  blames (error_of r) evs /\
  (forall c msg, c ∈ evs -> failure_of c = Some msg ->
     (forall image err, c <> WriteCall image err) ->
     writes evs = [] /\ exists context, r = Err (context +:+ msg)) /\
  ((exists e, r = Err e /\ writes evs = []) \/
   (exists tmpDir pre vs images final err rm,
      evs = TempDirCall "" "create-builder" (Ok tmpDir)
            :: pre ++ [WriteCall final err; RemoveCall tmpDir rm] /\
      r = result_of err /\ writes pre = [] /\ failures pre = [] /\
      length vs = length (Buildpacks config) /\
      length images = S (length (Buildpacks config)) /\
      appends pre = layering (BaseImage config)
                      (filepath.Join [tmpDir; "order.tar"]
                       :: zip_with (buildpack_tar tmpDir) (Buildpacks config) vs)
                      images /\
      archives pre = order_archive tmpDir
                     :: zip_with (buildpack_archive tmpDir (BuilderDir config))
                          (Buildpacks config) vs /\
      last images = Some final)).
Proof.
  intros H evs.
  assert (Hmain : calls w' = calls w ++ evs /\ blames (error_of r) evs /\
    ((exists e, r = Err e /\ writes evs = []) \/
     (exists tmpDir pre vs images final err rm,
        evs = TempDirCall "" "create-builder" (Ok tmpDir)
              :: pre ++ [WriteCall final err; RemoveCall tmpDir rm] /\
        r = result_of err /\ writes pre = [] /\ failures pre = [] /\
        length vs = length (Buildpacks config) /\
        length images = S (length (Buildpacks config)) /\
        appends pre = layering (BaseImage config)
                        (filepath.Join [tmpDir; "order.tar"]
                         :: zip_with (buildpack_tar tmpDir) (Buildpacks config) vs)
                        images /\
        archives pre = order_archive tmpDir
                       :: zip_with (buildpack_archive tmpDir (BuilderDir config))
                            (Buildpacks config) vs /\
        last images = Some final))).
  { subst evs.
    apply Create_run in H as [(e & _ & -> & C) | (tmpDir & w0 & w1 & rm & T & C0 & Hb & C2 & _)].
    { pose proof C as C'. apply new_calls_app in C as ->. split; [exact C' |]. split.
      - apply blames_context. now apply blames_single.
      - left. eauto. }
    apply Create_body_run in Hb as (body & C1 & R1 & B1 & _ & Hcase).
    rewrite C1, C0, <- !app_assoc in C2. pose proof C2 as C.
    apply new_calls_app in C2 as ->.
    split; [exact C |]. split.
    { apply (blames_app _ [_]); [done |]. now apply blames_app_l. }
    destruct Hcase as [(e & -> & W & _) | Hw].
    - left. exists e. split; [done |]. now rewrite !writes_app, W.
    - right.
      destruct Hw as (pre & vs & images & final & err & -> & Hr & Hrest).
      exists tmpDir, pre, vs, images, final, err, rm.
      split; [| done]. simpl. now rewrite <- app_assoc. }
  destruct Hmain as (Hext & Hb & Hcase).
  split; [exact Hext |]. split; [exact Hb |]. split; [| exact Hcase].
  intros c msg Hin Hf Hnw. split.
  - destruct Hcase as [(e & _ & W) | Hw]; [done |].
    destruct Hw as (tmpDir & pre & vs & images & final & err & rm & Hevs & _ & _ & F & _).
    exfalso. rewrite Hevs in Hin.
    apply elem_of_cons in Hin as [-> | Hin]; [discriminate |].
    apply elem_of_app in Hin as [Hin | Hin].
    + pose proof (failures_elem _ _ _ Hin Hf) as Hm. rewrite F in Hm. inversion Hm.
    + apply elem_of_cons in Hin as [-> | Hin]; [now apply (Hnw final err) |].
      apply list_elem_of_singleton in Hin as ->. discriminate.
  - destruct (Hb msg (failures_elem _ _ _ Hin Hf)) as [context Hc].
    exists context. destruct r; [discriminate | simpl in Hc; congruence].
Qed.

(** C6, as the code has it.  Once the working directory is created,
    [os.Remove] is called on it exactly once, as the last call of
    [Create], on every path; what [Create] returns is what its body
    returned before the removal, whatever the removal answered, and
    the removal prints nothing.  The directory is gone when the
    removal succeeded. *)
Theorem Create_removal_attempted f config w r w' tmpDir :
  Create host f config w = (r, w') ->
  TempDir_answer host w "" "create-builder" = Ok tmpDir ->
  exists w0 w1 body rm,
    Create_body host f config tmpDir w0 = (r, w1) /\
    calls w' = calls w ++ new_calls w w' /\
    new_calls w w' = TempDirCall "" "create-builder" (Ok tmpDir)
                     :: body ++ [RemoveCall tmpDir rm] /\
    removals body = [] /\
    removals (new_calls w w') = [(tmpDir, rm)] /\
    logged w' = logged w1 /\
    (rm = None -> files w' !! tmpDir = None).
Proof.
  intros H T.
  apply Create_run in H as [(e & T' & _) | (tmpDir' & w0 & w1 & rm & T' & C0 & Hb & C2 & L & Hrm)];
    [congruence |].
  assert (tmpDir' = tmpDir) as -> by congruence.
  pose proof Hb as Hb'.
  apply Create_body_run in Hb' as (body & C1 & R1 & _).
  rewrite C1, C0, <- !app_assoc in C2. pose proof C2 as C.
  apply new_calls_app in C2.
  exists w0, w1, body, rm. rewrite C2.
  repeat split; try done.
  change (removals ([TempDirCall "" "create-builder" (Ok tmpDir)]
                    ++ body ++ [RemoveCall tmpDir rm]) = [(tmpDir, rm)]).
  now rewrite !removals_app, R1.
Qed.

(** *** Runs without faults *)

Lemma os_Mkdir_ok name w :
  files w !! name = None -> Mkdir_fault host w name = None ->
  os_Mkdir host name w
  = (Ok tt, set_files (<[name := Directory]> (files w)) (record (MkdirCall name None) w)).
Proof. unfold os_Mkdir, returning. intros -> ->. reflexivity. Qed.

Lemma os_Create_ok name w :
  files w !! name = None -> Create_fault host w name = None ->
  os_Create host name w
  = (Ok name, set_files (<[name := File ""]> (files w)) (record (CreateCall name None) w)).
Proof. unfold os_Create. intros -> ->. reflexivity. Qed.

Lemma toml_Encode_answer_ok name groups w :
  (toml_Encode_order host groups).2 = None ->
  Write_fault host w name (toml_Encode_order host groups).1 = None ->
  toml_Encode_answer host name groups w = ((toml_Encode_order host groups).1, None).
Proof.
  unfold toml_Encode_answer, order_document, File_Write.
  destruct (toml_Encode_order host groups) as [bytes err]; cbn [fst snd].
  intros -> ->. reflexivity.
Qed.

(** In a directory that holds neither [buildpack] nor the manifest, and
    with a system, an encoder and an archive writer that do not fail,
    [orderLayer] succeeds. *)
Lemma orderLayer_ok f dest groups w :
  let d := filepath.Join [dest; "buildpack"] in
  let o := order_file dest in
  let t := filepath.Join [dest; "order.tar"] in
  files w !! d = None -> files w !! o = None ->
  (forall w0, Mkdir_fault host w0 d = None) ->
  (forall w0, Create_fault host w0 o = None) ->
  (toml_Encode_order host groups).2 = None ->
  (forall w0, Write_fault host w0 o (toml_Encode_order host groups).1 = None) ->
  (forall w0, error_of (CreateTGZFile (FS_ f) w0 t d "/buildpacks" 0 0) = None) ->
  (orderLayer host f dest groups w).1 = Ok t.
Proof.
  intros d o t Hd Ho HM HC HE HW HT.
  unfold orderLayer, bind, defer. fold d (order_file dest) t. fold o.
  rewrite (os_Mkdir_ok d w Hd (HM w)).
  rewrite os_Create_ok; [| | apply HC].
  2:{ cbn [files set_files record].
      rewrite lookup_insert_ne by apply buildpack_dir_not_order_file. exact Ho. }
  unfold toml_Encode. rewrite toml_Encode_answer_ok by (exact HE || apply HW).
  unfold returning, FS_CreateTGZFile. cbn [result_of].
  match goal with
  | |- context [CreateTGZFile (FS_ f) ?w0 t d "/buildpacks" 0 0] =>
      specialize (HT w0);
      destruct (CreateTGZFile (FS_ f) w0 t d "/buildpacks" 0 0) as [bytes | e]
  end; [reflexivity | discriminate HT].
Qed.

(** C9. With no buildpacks [Create] still succeeds.  When the
    temporary directory is new, holding neither [buildpack] nor the
    manifest, and neither the system, the encoder, the archive writer,
    [img.Append] nor the repository fails, [Create] on a configuration
    without buildpacks returns [nil]; it has read no metadata,
    generated one archive, the order layer, appended it to the base
    image, which is the one append of the run, and written the image of
    that append to the repository. *)
Theorem Create_without_buildpacks f config w tmpDir :
  let d := filepath.Join [tmpDir; "buildpack"] in
  let o := order_file tmpDir in
  let t := filepath.Join [tmpDir; "order.tar"] in
  Buildpacks config = [] ->
  TempDir_answer host w "" "create-builder" = Ok tmpDir ->
  (<[tmpDir := Directory]> (files w)) !! d = None ->
  (<[tmpDir := Directory]> (files w)) !! o = None ->
  (forall w0, Mkdir_fault host w0 d = None) ->
  (forall w0, Create_fault host w0 o = None) ->
  (toml_Encode_order host (Groups config)).2 = None ->
  (forall w0, Write_fault host w0 o (toml_Encode_order host (Groups config)).1 = None) ->
  (forall w0, error_of (CreateTGZFile (FS_ f) w0 t d "/buildpacks" 0 0) = None) ->
  (forall w0, error_of (img_Append host w0 (BaseImage config) t) = None) ->
  (forall w0 image, Write (Repo config) w0 image = None) ->
  let run := Create host f config w in
  let evs := new_calls w run.2 in
  run.1 = Ok tt /\
  decodes evs = [] /\
  archives evs = [order_archive tmpDir] /\
  exists image,
    appends evs = [(BaseImage config, t, Ok image)] /\
    writes evs = [(image, None)].
Proof.
  intros d o t Hnil T Hd Ho HM HC HE HW HT HA HR run evs. subst evs run.
  unfold Create, bind, onError, defer, ioutil_TempDir. rewrite T.
  cbv beta iota zeta.
  set (w0 := set_files _ (record (TempDirCall "" "create-builder" (Ok tmpDir)) w)).
  destruct (Create_body host f config tmpDir w0) as [r w1] eqn:Eb.
  unfold Create_body, bind, onError in Eb. rewrite Hnil in Eb.
  cbn [Create_buildpacks] in Eb. unfold ret in Eb.
  pose proof (orderLayer_ok f tmpDir (Groups config) w0 Hd Ho HM HC HE HW HT) as Hok.
  destruct (orderLayer host f tmpDir (Groups config) w0) as [r1 w1'] eqn:E1.
  cbn [fst] in Hok. subst r1. fold t in Eb.
  apply orderLayer_run in E1 as (ev1 & C1 & A1 & W1 & _ & D1 & _ & _ & (_ & _ & Ar1 & _)).
  unfold img_Append_call in Eb. specialize (HA w1').
  destruct (img_Append host w1' (BaseImage config) t) as [image | e];
    [| discriminate HA].
  unfold Repo_Write, returning, Println in Eb. rewrite HR in Eb.
  cbn [result_of] in Eb. injection Eb as <- <-.
  destruct (os_Remove host tmpDir _) as [rr w2] eqn:ER.
  apply os_Remove_run in ER as (rm & CR & _).
  cbn [fst snd calls record] in CR |- *.
  rewrite C1 in CR. subst w0. cbn [calls record set_files] in CR.
  rewrite <- !app_assoc in CR. apply new_calls_app in CR. rewrite CR.
  rewrite !decodes_app, !archives_app, !appends_app, !writes_app, D1, Ar1, A1, W1.
  split; [reflexivity |]. split; [reflexivity |]. split; [reflexivity |].
  exists image. split; reflexivity.
Qed.

(** ** Validation of the buildpack metadata *)

(** C3. When the metadata of a buildpack declares an id other than
    the id of the buildpack in the configuration, [buildpackLayer]
    fails with an error that names both ids, and it makes no call of
    [CreateTGZFile]: no archive is produced and the filesystem is as
    it was. *)
Theorem buildpackLayer_id_mismatch f dest buildpack builderDir w content meta :
  files w !! buildpack_toml builderDir buildpack = Some (File content) ->
  toml_Decode_buildpack host content = Ok meta ->
  ID buildpack <> BP_ID meta ->
  let run := buildpackLayer host f dest buildpack builderDir w in
  run.1 = Err (ids_did_not_match (ID buildpack) (BP_ID meta)) /\
  strings.Contains (ids_did_not_match (ID buildpack) (BP_ID meta)) (ID buildpack) = true /\
  strings.Contains (ids_did_not_match (ID buildpack) (BP_ID meta)) (BP_ID meta) = true /\
  archives (new_calls w run.2) = [] /\
  files run.2 = files w.
Proof.
  intros Hfile Hmeta Hne run. subst run.
  rewrite (buildpackLayer_decoded _ _ _ _ _ _ _ Hfile Hmeta).
  apply String.eqb_neq in Hne. rewrite Hne. cbn [negb fst snd].
  repeat split.
  - apply Contains_middle.
  - unfold ids_did_not_match. do 2 apply Contains_later. apply Contains_end.
  - now rewrite new_calls_record.
Qed.

(** C4. When the metadata of a buildpack declares the empty version,
    [buildpackLayer] fails with a validation error, the missing
    version when the ids agree, and it makes no call of
    [CreateTGZFile]: the check comes before the archive. *)
Theorem buildpackLayer_empty_version f dest buildpack builderDir w content meta :
  files w !! buildpack_toml builderDir buildpack = Some (File content) ->
  toml_Decode_buildpack host content = Ok meta ->
  BP_Version meta = "" ->
  let run := buildpackLayer host f dest buildpack builderDir w in
  run.1 = Err (if String.eqb (ID buildpack) (BP_ID meta)
               then must_provide_version (buildpack_toml builderDir buildpack)
               else ids_did_not_match (ID buildpack) (BP_ID meta)) /\
  archives (new_calls w run.2) = [] /\
  files run.2 = files w.
Proof.
  intros Hfile Hmeta Hv run. subst run.
  rewrite (buildpackLayer_decoded _ _ _ _ _ _ _ Hfile Hmeta), Hv.
  destruct (ID buildpack =? BP_ID meta)%string; cbn [negb fst snd String.eqb];
    now rewrite new_calls_record.
Qed.

(** C10. The id is checked before the version: metadata with another
    id and the empty version makes [buildpackLayer] fail with the
    error of the ids, which is not the error of the version. *)
Theorem buildpackLayer_id_checked_first f dest buildpack builderDir w content meta :
  files w !! buildpack_toml builderDir buildpack = Some (File content) ->
  toml_Decode_buildpack host content = Ok meta ->
  ID buildpack <> BP_ID meta ->
  BP_Version meta = "" ->
  let run := buildpackLayer host f dest buildpack builderDir w in
  run.1 = Err (ids_did_not_match (ID buildpack) (BP_ID meta)) /\
  forall path, run.1 <> Err (must_provide_version path).
Proof.
  intros Hfile Hmeta Hne Hv run. subst run.
  rewrite (buildpackLayer_decoded _ _ _ _ _ _ _ Hfile Hmeta).
  apply String.eqb_neq in Hne. rewrite Hne. cbn [negb fst snd].
  split; [reflexivity |]. intros path. discriminate.
Qed.

(** ** The order manifest *)

(** C8. The order manifest is deterministic.  Two runs of
    [orderLayer] on the same groups in which the filesystem behaves
    alike, every call failing or not as in the other run and the write
    taking as many bytes, hand the same bytes to the manifest, whatever
    the destination directories, the filesystems before the runs and
    the archive writers are; when the manifest was opened the two files
    hold these bytes and no others, and after a run that succeeds they
    are the document of the groups. *)
Theorem orderLayer_manifest_deterministic f1 f2 dest1 dest2 groups w1 w2 :
  let run1 := orderLayer host f1 dest1 groups w1 in
  let run2 := orderLayer host f2 dest2 groups w2 in
  let evs1 := new_calls w1 run1.2 in
  let evs2 := new_calls w2 run2.2 in
  omap fs_behaviour evs1 = omap fs_behaviour evs2 ->
  map snd (manifests evs1) = map snd (manifests evs2) /\
  (manifests evs1 <> [] ->
   exists bytes,
     manifests evs1 = [(order_file dest1, bytes)] /\
     manifests evs2 = [(order_file dest2, bytes)] /\
     files run1.2 !! order_file dest1 = Some (File bytes) /\
     files run2.2 !! order_file dest2 = Some (File bytes) /\
     (forall tar, run1.1 = Ok tar ->
        run2.1 = Ok (filepath.Join [dest2; "order.tar"]) /\
        bytes = (order_document host groups).1)).
Proof.
  intros run1 run2 evs1 evs2. subst evs1 evs2 run1 run2.
  destruct (orderLayer host f1 dest1 groups w1) as [r1 w1'] eqn:E1.
  destruct (orderLayer host f2 dest2 groups w2) as [r2 w2'] eqn:E2.
  cbn [fst snd]. unfold order_document.
  apply orderLayer_cases in E1, E2. cbv zeta in E1, E2.
  pose proof (toml_Encode_answer_prefix
                (order_file dest1) groups (orderLayer_opened dest1 w1)) as P1.
  pose proof (toml_Encode_answer_prefix
                (order_file dest2) groups (orderLayer_opened dest2 w2)) as P2.
  pose proof (toml_Encode_answer_complete
                (order_file dest1) groups (orderLayer_opened dest1 w1)) as K1.
  set (enc1 := toml_Encode_answer host (order_file dest1) groups
                 (orderLayer_opened dest1 w1)) in *.
  set (enc2 := toml_Encode_answer host (order_file dest2) groups
                 (orderLayer_opened dest2 w2)) in *.
  clearbody enc1 enc2.
  assert (Hsame : String.length enc1.1 = String.length enc2.1 -> enc1.1 = enc2.1).
  { intros Hl. rewrite P1, Hl. symmetry. exact P2. }
  pose proof (order_tar_not_order_file dest1) as T1.
  pose proof (order_tar_not_order_file dest2) as T2.
  destruct E1 as (_ & [(e1 & -> & F1 & C1) | [(e1 & -> & F1 & C1)
               | [(e1 & X1 & -> & F1 & C1) | [(e1 & X1 & -> & F1 & C1)
               | (b1 & X1 & -> & F1 & C1)]]]] & _);
    destruct E2 as (_ & [(e2 & -> & F2 & C2) | [(e2 & -> & F2 & C2)
                 | [(e2 & X2 & -> & F2 & C2) | [(e2 & X2 & -> & F2 & C2)
                 | (b2 & X2 & -> & F2 & C2)]]]] & _);
    apply new_calls_app in C1, C2; rewrite C1, C2; rewrite ?X1, ?X2;
    cbn [omap list_omap fs_behaviour manifests map fst snd];
    intros Hb; try discriminate Hb.
  1, 2: split; [reflexivity | intros Hne; now destruct Hne].
  all: injection Hb as Hl; rewrite (Hsame Hl); split; [reflexivity | intros _].
  all: exists enc2.1; rewrite F1, F2, <- (Hsame Hl).
  all: rewrite ?(lookup_insert_ne _ _ _ _ T1), ?(lookup_insert_ne _ _ _ _ T2),
         !lookup_insert_eq.
  all: repeat split; try reflexivity; try discriminate.
  destruct (K1 X1) as (-> & _). reflexivity.
Qed.

(** ** The base image pull *)


Lemma pull_free_ret {A} (a : A) : pull_free (ret a : IO A).
Proof.
  intros w r w' H. unfold ret in H. simplify_eq.
  exists []. now rewrite app_nil_r.
Qed.

Lemma pull_free_lift {A} (x : result A) : pull_free (lift x : IO A).
Proof.
  intros w r w' H. unfold lift in H. simplify_eq.
  exists []. now rewrite app_nil_r.
Qed.

Lemma pull_free_bind {A B} (m : IO A) (k : A -> IO B) :
  pull_free m -> (forall a, pull_free (k a)) -> pull_free (bind m k).
Proof.
  intros Hm Hk w r w' H.
  apply bind_run in H as [(e & H & _) | (a & w1 & H1 & H2)]; [now apply Hm in H |].
  apply Hm in H1 as (ev1 & C1 & P1). apply Hk in H2 as (ev2 & C2 & P2).
  exists (ev1 ++ ev2). rewrite C2, C1, <- app_assoc. split; [reflexivity |].
  unfold pulls in *. now rewrite omap_app, P1, P2.
Qed.

Lemma pull_free_onError {A} wrap (m : IO A) : pull_free m -> pull_free (onError wrap m).
Proof.
  intros Hm w r w' H. unfold onError in H.
  destruct (m w) as [[a | e] w1] eqn:E; simplify_eq; now apply Hm in E.
Qed.

Lemma pull_free_DecodeFile_builder path repoName :
  pull_free (toml_DecodeFile_builder host path repoName).
Proof.
  intros w r w' H. unfold toml_DecodeFile_builder in H. simplify_eq.
  eexists. split; reflexivity.
Qed.

Lemma pull_free_ReadImage (images : @Images Image) repoName useDaemon :
  pull_free (Images_ReadImage images repoName useDaemon).
Proof.
  intros w r w' H. unfold Images_ReadImage in H. simplify_eq.
  eexists. split; reflexivity.
Qed.

Lemma pull_free_RepoStore (images : @Images Image) repoName useDaemon :
  pull_free (Images_RepoStore images repoName useDaemon).
Proof.
  intros w r w' H. unfold Images_RepoStore in H. simplify_eq.
  eexists. split; reflexivity.
Qed.

Lemma Docker_PullImage_run docker ref w r w' :
  Docker_PullImage docker ref w = (r, w') ->
  exists err, calls w' = calls w ++ [PullImageCall ref err] /\ r = result_of err.
Proof. unfold Docker_PullImage, returning. intros H. simplify_eq. eauto. Qed.

(** C7, as the code has it.  [BuilderConfigFromFlags] calls
    [PullImage] when the name of the base image resolves and neither
    [NoPull] nor [Publish] is set, once and on that name; it does not
    call it when one of the flags is set, nor when the name does not
    resolve. *)
Theorem BuilderConfigFromFlags_pull f flags w :
  let evs := new_calls w (BuilderConfigFromFlags host f flags w).2 in
  pulls evs =
    match baseImageName host f (StackID flags) (flag_RepoName flags) with
    | Ok baseImage =>
        if negb (NoPull flags) && negb (Publish flags) then [baseImage] else []
    | Err _ => []
    end /\
  ((exists ref, ref ∈ pulls evs) <->
   (exists baseImage,
      baseImageName host f (StackID flags) (flag_RepoName flags) = Ok baseImage) /\
   NoPull flags = false /\ Publish flags = false) /\
  (NoPull flags = true \/ Publish flags = true -> pulls evs = []).
Proof.
  intros evs.
  assert (Heq : pulls evs =
    match baseImageName host f (StackID flags) (flag_RepoName flags) with
    | Ok baseImage =>
        if negb (NoPull flags) && negb (Publish flags) then [baseImage] else []
    | Err _ => []
    end).
  { subst evs.
    destruct (BuilderConfigFromFlags host f flags w) as [r w'] eqn:H. simpl.
    unfold BuilderConfigFromFlags in H.
    apply bind_run in H as [(e & H & _) | (baseImage & w0 & H & Hk)];
      unfold lift in H; injection H as Hb <-; rewrite Hb.
    { now rewrite new_calls_same. }
    assert (Htail : forall w1, (exists evs, calls w1 = calls w ++ evs /\
                       pulls evs = if negb (NoPull flags) && negb (Publish flags)
                                   then [baseImage] else []) ->
               forall m : IO (@BuilderConfig Image BuildpackGroup),
                 pull_free m -> m w1 = (r, w') ->
               pulls (new_calls w w') =
                 if negb (NoPull flags) && negb (Publish flags) then [baseImage] else []).
    { intros w1 (ev1 & C1 & P1) m Hfree Hrun.
      apply Hfree in Hrun as (ev2 & C2 & P2).
      rewrite C1, <- app_assoc in C2. apply new_calls_app in C2 as ->.
      unfold pulls in *. now rewrite omap_app, P1, P2, app_nil_r. }
    apply bind_run in Hk as [(e & Hp & _) | ([] & w1 & Hp & Hk)].
    - destruct (negb (NoPull flags) && negb (Publish flags)).
      + apply bind_run in Hp as [(e' & Hp & _) | ([] & w2 & Hl & Hp)];
          [unfold Println in Hp; discriminate |].
        unfold Println in Hl. simplify_eq. unfold onError in Hp.
        destruct (Docker_PullImage _ _ _) as [[[] | e'] w3] eqn:E; simplify_eq.
        apply Docker_PullImage_run in E as (err & C & _).
        simpl in C. now rewrite (new_calls_app _ _ _ C).
      + unfold ret in Hp. discriminate.
    - refine (Htail w1 _ _ _ Hk).
      + destruct (negb (NoPull flags) && negb (Publish flags)).
        * apply bind_run in Hp as [(e' & Hp & _) | ([] & w2 & Hl & Hp)];
            [unfold Println in Hp; discriminate |].
          unfold Println in Hl. simplify_eq. unfold onError in Hp.
          destruct (Docker_PullImage _ _ _) as [[[] | e'] w3] eqn:E; simplify_eq.
          apply Docker_PullImage_run in E as (err & C & _).
          simpl in C. eauto.
        * unfold ret in Hp. simplify_eq. exists []. now rewrite app_nil_r.
      + apply pull_free_bind;
          [apply pull_free_onError, pull_free_DecodeFile_builder | intros decoded].
        apply pull_free_bind;
          [apply pull_free_onError, pull_free_ReadImage | intros image].
        apply pull_free_bind;
          [destruct (v1_Image_is_nil host image);
             [apply pull_free_lift | apply pull_free_ret] | intros _].
        apply pull_free_bind;
          [apply pull_free_onError, pull_free_RepoStore | intros repo].
        apply pull_free_ret. }
  split; [exact Heq |]. rewrite Heq. clear Heq evs.
  destruct (baseImageName host f (StackID flags) (flag_RepoName flags)) as [baseImage | e];
    destruct (NoPull flags), (Publish flags); simpl.
  all: split; [split |].
  all: try (intros [ref Hin]; inversion Hin; fail).
  all: try (intros ([b Hb] & Hn & Hp); discriminate).
  all: try (intros [Hn | Hp]; (reflexivity || discriminate)).
  - intros _. eauto.
  - intros _. exists baseImage. left.
Qed.
End Run.

(** * More of the code *)

Section More.
Context {Image BuildpackGroup : Type} (host : @Host Image BuildpackGroup).
Implicit Types (w : @World Image) (cs evs : list (@Call Image)).
Abbreviation IO := (M (@World Image)).


Lemma toml_DecodeFile_buildpack_exact path w r w' :
  toml_DecodeFile_buildpack host path w = (r, w') ->
  w' = record (DecodeFileCall path (error_of r)) w.
Proof. unfold toml_DecodeFile_buildpack. intros H. now simplify_eq. Qed.

(** Every way [buildpackLayer] can go. *)
Lemma buildpackLayer_cases f dest buildpack builderDir w r w' :
  buildpackLayer host f dest buildpack builderDir w = (r, w') ->
  let path := buildpack_toml builderDir buildpack in
  let dir := buildpackLayer_dir builderDir (URI buildpack) in
  let read := (toml_DecodeFile_buildpack host path w).1 in
  (exists e, read = Err e /\
     r = Err ("reading buildpack.toml from buildpack: " +:+ path +:+ ": " +:+ e) /\
     w' = record (DecodeFileCall path (Some e)) w) \/
  (exists meta, read = Ok meta /\
     let w1 := record (DecodeFileCall path None) w in
     let tar := buildpack_tar dest buildpack (BP_Version meta) in
     let tarDir := filepath.Join ["/buildpacks"; ID buildpack; BP_Version meta] in
     ((ID buildpack <> BP_ID meta /\
       r = Err (ids_did_not_match (ID buildpack) (BP_ID meta)) /\ w' = w1) \/
      (ID buildpack = BP_ID meta /\ BP_Version meta = "" /\
       r = Err (must_provide_version path) /\ w' = w1) \/
      (ID buildpack = BP_ID meta /\ BP_Version meta <> "" /\
       exists e, CreateTGZFile (FS_ f) w1 tar dir tarDir 0 0 = Err e /\
         r = Err e /\
         w' = record (CreateTGZFileCall tar dir tarDir 0 0 (Some e)) w1) \/
      (ID buildpack = BP_ID meta /\ BP_Version meta <> "" /\
       exists bytes, CreateTGZFile (FS_ f) w1 tar dir tarDir 0 0 = Ok bytes /\
         r = Ok tar /\
         w' = set_files (<[tar := File bytes]> (files w))
                (record (CreateTGZFileCall tar dir tarDir 0 0 None) w1)))).
Proof.
  intros H path dir read. subst path dir read.
  unfold buildpack_toml, buildpack_tar. unfold buildpackLayer in H.
  apply bind_run in H as [(e & H & ->) | (meta & w1 & H1 & H)].
  { apply onError_run in H as [(a & _ & ?) | (e' & H & He)]; [discriminate |].
    injection He as ->. left. exists e'. rewrite H.
    apply toml_DecodeFile_buildpack_exact in H as ->. done. }
  apply onError_run in H1 as [(a & H1 & Ha) | (e' & _ & ?)]; [| discriminate].
  injection Ha as <-. right. exists meta. rewrite H1.
  split; [reflexivity |].
  apply toml_DecodeFile_buildpack_exact in H1 as ->. cbn [error_of].
  destruct (String.eqb (ID buildpack) (BP_ID meta)) eqn:Eid; cbn [negb] in H.
  2:{ unfold lift in H. simplify_eq. left. apply String.eqb_neq in Eid. done. }
  apply String.eqb_eq in Eid.
  destruct (String.eqb (BP_Version meta) "") eqn:Ev.
  { unfold lift in H. simplify_eq. right; left. apply String.eqb_eq in Ev. done. }
  apply String.eqb_neq in Ev.
  apply bind_run in H as [(e & H & ->) | ([] & w2 & H2 & H)].
  { apply FS_CreateTGZFile_exact in H as [(b & _ & ? & _) | (e5 & Hc & ? & ->)];
      simplify_eq.
    right; right; left. eauto 10. }
  unfold ret in H. simplify_eq.
  apply FS_CreateTGZFile_exact in H2 as [(b & Hc & _ & ->) | (e5 & _ & ? & _)];
    [| discriminate].
  do 3 right. eauto 10.
Qed.

(** One turn of the loop of [Create]. *)
Lemma Create_buildpacks_step f tmpDir builderDir buildpack rest builderImage w r w' :
  Create_buildpacks host f tmpDir builderDir (buildpack :: rest) builderImage w = (r, w') ->
  (exists e, buildpackLayer host f tmpDir buildpack builderDir w = (Err e, w') /\
     r = Err ("failed generate layer for buildpack " +:+ quoted (ID buildpack)
              +:+ ": " +:+ e)) \/
  (exists tarFile w1, buildpackLayer host f tmpDir buildpack builderDir w = (Ok tarFile, w1) /\
     ((exists e, img_Append host w1 builderImage tarFile = Err e /\
         r = Err ("failed append buildpack layer to image: " +:+ e) /\
         w' = record (AppendCall builderImage tarFile (Err e)) w1) \/
      (exists image, img_Append host w1 builderImage tarFile = Ok image /\
         Create_buildpacks host f tmpDir builderDir rest image
           (record (AppendCall builderImage tarFile (Ok image)) w1) = (r, w')))).
Proof.
  cbn [Create_buildpacks]. intros H.
  apply bind_run in H as [(e & H & ->) | (tarFile & w1 & H1 & H)].
  { apply onError_run in H as [(a & _ & ?) | (e' & H & He)]; [discriminate |].
    injection He as ->. left. eauto. }
  apply onError_run in H1 as [(a & H1 & Ha) | (e' & _ & ?)]; [| discriminate].
  injection Ha as <-. right. eexists _, w1. split; [exact H1 |].
  apply bind_run in H as [(e & H & ->) | (image & w2 & H2 & H)].
  { apply onError_run in H as [(a' & _ & ?) | (e' & H & He)]; [discriminate |].
    injection He as ->. unfold img_Append_call in H. injection H as Hr <-.
    left. exists e'. rewrite Hr. repeat split; first [eassumption | reflexivity]. }
  apply onError_run in H2 as [(a' & H2 & Ha) | (e' & _ & ?)]; [| discriminate].
  injection Ha as <-. unfold img_Append_call in H2. injection H2 as Hr <-.
  right. eexists. rewrite Hr in H |- *. repeat split; first [eassumption | reflexivity].
Qed.

(** The body of [Create], call by call. *)
Lemma Create_body_step f config tmpDir w r w' :
  Create_body host f config tmpDir w = (r, w') ->
  (exists e, orderLayer host f tmpDir (Groups config) w = (Err e, w') /\
     r = Err ("failed generate order.toml layer: " +:+ e)) \/
  (exists orderTar w1, orderLayer host f tmpDir (Groups config) w = (Ok orderTar, w1) /\
     ((exists e, img_Append host w1 (BaseImage config) orderTar = Err e /\
         r = Err ("failed append order.toml layer to image: " +:+ e) /\
         w' = record (AppendCall (BaseImage config) orderTar (Err e)) w1) \/
      (exists image r3 w3,
         img_Append host w1 (BaseImage config) orderTar = Ok image /\
         Create_buildpacks host f tmpDir (BuilderDir config) (Buildpacks config) image
           (record (AppendCall (BaseImage config) orderTar (Ok image)) w1) = (r3, w3) /\
         match r3 with
         | Err e => r = Err e /\ w' = w3
         | Ok final =>
             match Write (Repo config) w3 final with
             | Some e => r = Err e /\ w' = record (WriteCall final (Some e)) w3
             | None =>
                 r = Ok tt /\
                 files w' = files w3 /\
                 calls w' = calls w3 ++ [WriteCall final None] /\
                 logged w' = logged w3 ++ success_lines (RepoName config)
             end
         end))).
Proof.
  unfold Create_body. intros H.
  apply bind_run in H as [(e & H & ->) | (orderTar & w1 & H1 & H)].
  { apply onError_run in H as [(a & _ & ?) | (e' & H & He)]; [discriminate |].
    injection He as ->. left. eauto. }
  apply onError_run in H1 as [(a & H1 & Ha) | (e' & _ & ?)]; [| discriminate].
  injection Ha as <-. right. eexists _, w1. split; [exact H1 |].
  apply bind_run in H as [(e & H & ->) | (image & w2 & H2 & H)].
  { apply onError_run in H as [(a' & _ & ?) | (e' & H & He)]; [discriminate |].
    injection He as ->. unfold img_Append_call in H. injection H as Hr <-.
    left. exists e'. rewrite Hr. repeat split; first [eassumption | reflexivity]. }
  apply onError_run in H2 as [(a' & H2 & Ha) | (e' & _ & ?)]; [| discriminate].
  injection Ha as <-. unfold img_Append_call in H2. injection H2 as Hr <-.
  right. rewrite Hr in H |- *.
  apply bind_run in H as [(e & H & ->) | (final & w3 & H3 & H)].
  { eexists _, (Err e), w'. repeat split; first [eassumption | reflexivity]. }
  eexists _, (Ok final), w3. split; [reflexivity |]. split; [exact H3 |].
  apply bind_run in H as [(e & H & ->) | ([] & w4 & H4 & H)].
  { unfold Repo_Write, returning in H. injection H as Hr' <-.
    destruct (Write (Repo config) w3 final); [| discriminate].
    simpl in Hr'. injection Hr' as ->. repeat split; first [eassumption | reflexivity]. }
  unfold Repo_Write, returning in H4. injection H4 as Hr' <-.
  destruct (Write (Repo config) w3 final); [discriminate |].
  unfold bind, Println, ret in H. simpl in H. injection H as <- <-.
  cbn [files calls logged record]. rewrite <- !app_assoc. repeat split; first [eassumption | reflexivity].
Qed.

(** [Create], around its body. *)
Lemma Create_step f config w r w' :
  Create host f config w = (r, w') ->
  (exists e, TempDir_answer host w "" "create-builder" = Err e /\
     r = Err ("failed to create temporary directory: " +:+ e) /\
     w' = record (TempDirCall "" "create-builder" (Err e)) w) \/
  (exists tmpDir w1,
     TempDir_answer host w "" "create-builder" = Ok tmpDir /\
     Create_body host f config tmpDir
       (set_files (<[tmpDir := Directory]> (files w))
          (record (TempDirCall "" "create-builder" (Ok tmpDir)) w)) = (r, w1) /\
     w' = (os_Remove host tmpDir w1).2).
Proof.
  unfold Create. intros H.
  apply bind_run in H as [(e & H & ->) | (tmpDir & w0 & H0 & H)].
  { apply onError_run in H as [(a & _ & ?) | (e' & H & He)]; [discriminate |].
    injection He as ->. left. exists e'. unfold ioutil_TempDir in H.
    destruct (TempDir_answer host w "" "create-builder"); simplify_eq. repeat split; first [eassumption | reflexivity]. }
  apply onError_run in H0 as [(a & H0 & Ha) | (e' & _ & ?)]; [| discriminate].
  injection Ha as <-. right. unfold ioutil_TempDir in H0.
  destruct (TempDir_answer host w "" "create-builder") as [name | e];
    simplify_eq.
  apply defer_run in H as (w1 & H & ->). eauto.
Qed.

(** *** Traces that stop at the first failure *)

Lemma owners_app cs1 cs2 : owners (cs1 ++ cs2) = owners cs1 ++ owners cs2.
Proof. apply omap_app. Qed.

Lemma opened_app cs1 cs2 : opened (cs1 ++ cs2) = opened cs1 ++ opened cs2.
Proof. apply omap_app. Qed.

Lemma closed_app cs1 cs2 : closed (cs1 ++ cs2) = closed cs1 ++ closed cs2.
Proof. apply omap_app. Qed.

Lemma failures_cons_quiet c cs :
  failure_of c = None -> failures (c :: cs) = failures cs.
Proof. intros H. unfold failures. simpl. now rewrite H. Qed.

Lemma fail_fast_app_quiet cs1 cs2 :
  failures cs1 = [] -> fail_fast (cs1 ++ cs2) = fail_fast cs2.
Proof.
  induction cs1 as [|c cs1 IH]; intros H; [reflexivity |].
  simpl. unfold failures in H. simpl in H.
  destruct (failure_of c); [discriminate |]. now apply IH.
Qed.

Lemma fail_fast_deferred_tail cs tl :
  fail_fast cs = true -> forallb deferred tl = true -> fail_fast (cs ++ tl) = true.
Proof.
  intros H Ht. induction cs as [|c cs IH]; simpl in *.
  - induction tl as [|c tl IH]; [reflexivity |]. simpl in *.
    apply andb_true_iff in Ht as [Hc Ht].
    destruct c; try discriminate; simpl; auto.
  - destruct (failure_of c); [| now apply IH].
    rewrite forallb_app. now rewrite H, Ht.
Qed.

Lemma forallb_Forall_true {A} (p : A -> bool) (l : list A) :
  forallb p l = true -> Forall (fun x => p x = true) l.
Proof.
  induction l as [|x l IH]; simpl; intros H; [constructor |].
  apply andb_true_iff in H as [Hx H]. constructor; [exact Hx | now apply IH].
Qed.

Lemma deferred_quiet (c : @Call Image) : deferred c = true -> failure_of c = None.
Proof. destruct c; simpl; intros H; try discriminate; reflexivity. Qed.

(** What [fail_fast] says, call by call. *)
Lemma fail_fast_spec cs pre c post :
  fail_fast cs = true -> cs = pre ++ c :: post -> failure_of c <> None ->
  failures pre = [] /\ Forall (fun c' => deferred c' = true) post.
Proof.
  intros H -> Hc. induction pre as [|c0 pre IH]; simpl in H.
  - destruct (failure_of c); [| contradiction].
    split; [reflexivity |]. now apply forallb_Forall_true.
  - destruct (failure_of c0) eqn:E0.
    + rewrite forallb_app in H. apply andb_true_iff in H as [_ H].
      simpl in H. apply andb_true_iff in H as [H _].
      apply deferred_quiet in H. contradiction.
    + rewrite (failures_cons_quiet _ _ E0). now apply IH.
Qed.

Lemma fail_fast_at_most_one cs : fail_fast cs = true -> length (failures cs) <= 1.
Proof.
  induction cs as [|c cs IH]; simpl; intros H; [lia |].
  unfold failures. simpl. destruct (failure_of c) eqn:E; [| now apply IH].
  simpl. assert (Hq : omap failure_of cs = []); [| rewrite Hq; simpl; lia].
  clear IH E. induction cs as [|c' cs IH]; [reflexivity |].
  simpl in *. apply andb_true_iff in H as [Hc H].
  rewrite (deferred_quiet _ Hc). now apply IH.
Qed.

(** *** [buildpackLayer], [orderLayer] and the loop, all runs *)

Lemma buildpackLayer_all f dest buildpack builderDir w r w' :
  buildpackLayer host f dest buildpack builderDir w = (r, w') ->
  exists evs, calls w' = calls w ++ evs /\ logged w' = logged w /\
    fail_fast evs = true /\
    Forall (fun o => o = (0%Z, 0%Z)) (owners evs) /\
    (forall a, a ∈ archives evs ->
       exists v err, v <> "" /\
         a = (buildpack_tar dest buildpack v,
              buildpackLayer_dir builderDir (URI buildpack),
              filepath.Join ["/buildpacks"; ID buildpack; v], err)) /\
    appends evs = [] /\ opened evs = [] /\ closed evs = [] /\
    match r with
    | Ok tar => failures evs = [] /\ exists v, tar = buildpack_tar dest buildpack v
    | Err _ => True
    end.
Proof.
  intros H. apply buildpackLayer_cases in H.
  destruct H as [(e & _ & -> & ->) | (meta & _ & H)].
  { eexists; split; [reflexivity |]. cbn. repeat split; try done.
    intros a Ha. inversion Ha. }
  cbv zeta in H.
  destruct H as [(_ & -> & ->) | [(_ & _ & -> & ->) | [(_ & Hv & e & _ & -> & ->)
                                              | (_ & Hv & b & _ & -> & ->)]]].
  - eexists; split; [reflexivity |]. cbn. repeat split; try done.
    intros a Ha. inversion Ha.
  - eexists; split; [reflexivity |]. cbn. repeat split; try done.
    intros a Ha. inversion Ha.
  - unfold record; cbn [calls logged]. rewrite <- app_assoc.
    eexists; split; [reflexivity |]. cbn. repeat split; try done.
    + repeat constructor.
    + intros a Ha. apply list_elem_of_singleton in Ha as ->. eauto.
  - unfold record, set_files; cbn [calls logged]. rewrite <- app_assoc.
    eexists; split; [reflexivity |]. cbn. repeat split; try done.
    + repeat constructor.
    + intros a Ha. apply list_elem_of_singleton in Ha as ->. eauto.
    + eauto.
Qed.

Lemma Create_buildpacks_all f tmpDir builderDir buildpacks :
  forall builderImage w r w',
  Create_buildpacks host f tmpDir builderDir buildpacks builderImage w = (r, w') ->
  exists evs, calls w' = calls w ++ evs /\ logged w' = logged w /\
    fail_fast evs = true /\
    Forall (fun o => o = (0%Z, 0%Z)) (owners evs) /\
    (forall a, a ∈ archives evs ->
       exists buildpack v err, buildpack ∈ buildpacks /\ v <> "" /\
         a = (buildpack_tar tmpDir buildpack v,
              buildpackLayer_dir builderDir (URI buildpack),
              filepath.Join ["/buildpacks"; ID buildpack; v], err)) /\
    (exists vs, length vs = length buildpacks /\
       chained builderImage (zip_with (buildpack_tar tmpDir) buildpacks vs)
         (appends evs)) /\
    opened evs = [] /\ closed evs = [] /\
    match r with
    | Ok _ => failures evs = []
    | Err _ => True
    end.
Proof.
  induction buildpacks as [|buildpack rest IH]; intros builderImage w r w' H.
  { cbn [Create_buildpacks] in H. unfold ret in H. simplify_eq.
    exists []. rewrite app_nil_r. repeat split; try done.
    - intros a Ha. inversion Ha.
    - exists []. split; [reflexivity |]. constructor. }
  apply Create_buildpacks_step in H
    as [(e & H & ->) | (tarFile & w1 & H1 & [(e & _ & -> & ->) | (image & _ & H)])].
  - apply buildpackLayer_all in H
      as (ev1 & C1 & L1 & FF1 & O1 & A1 & Ap1 & Op1 & Cl1 & _).
    exists ev1. repeat split; try done.
    + intros a Ha. destruct (A1 a Ha) as (v & err & Hv & ->).
      exists buildpack, v, err. repeat split; [left | done].
    + exists (replicate (S (length rest)) ""). rewrite length_replicate.
      split; [reflexivity |]. rewrite Ap1. constructor.
  - apply buildpackLayer_all in H1
      as (ev1 & C1 & L1 & FF1 & O1 & A1 & Ap1 & Op1 & Cl1 & F1 & v & ->).
    unfold record; cbn [calls logged]. rewrite C1, <- app_assoc.
    eexists; split; [reflexivity |].
    rewrite (fail_fast_app_quiet _ _ F1), owners_app, archives_app, appends_app,
      opened_app, closed_app, Ap1, Op1, Cl1.
    cbn. rewrite !app_nil_r. repeat split; try done.
    + intros a Ha. destruct (A1 a Ha) as (v' & err & Hv & ->).
      exists buildpack, v', err. repeat split; [left | done].
    + exists (v :: replicate (length rest) ""). cbn. rewrite length_replicate.
      split; [reflexivity |]. constructor.
  - apply buildpackLayer_all in H1
      as (ev1 & C1 & L1 & FF1 & O1 & A1 & Ap1 & Op1 & Cl1 & F1 & v & ->).
    apply IH in H as (ev3 & C3 & L3 & FF3 & O3 & A3 & (vs & Lv & Ch3) & Op3 & Cl3 & F3).
    unfold record in C3, L3; cbn [calls logged] in C3, L3.
    rewrite C1, <- !app_assoc in C3.
    eexists; split; [exact C3 |].
    rewrite (fail_fast_app_quiet _ _ F1), !owners_app, !archives_app, !appends_app,
      !opened_app, !closed_app, Ap1, Op1, Cl1, Op3, Cl3.
    cbn. repeat split; try congruence.
    + rewrite Forall_app. split; [exact O1 | exact O3].
    + intros a Ha. apply elem_of_app in Ha as [Ha | Ha].
      * destruct (A1 a Ha) as (v' & err & Hv & ->).
        exists buildpack, v', err. repeat split; [left | done].
      * destruct (A3 a Ha) as (bp & v' & err & Hin & Hv & ->).
        exists bp, v', err. repeat split; [now right | done].
    + exists (v :: vs). cbn. split; [now rewrite Lv |]. now constructor.
    + destruct r; [| done]. unfold failures in *. rewrite omap_app, F1. exact F3.
Qed.

Lemma orderLayer_all f dest groups w r w' :
  orderLayer host f dest groups w = (r, w') ->
  exists evs, calls w' = calls w ++ evs /\ logged w' = logged w /\
    fail_fast evs = true /\
    Forall (fun o => o = (0%Z, 0%Z)) (owners evs) /\
    (forall a, a ∈ archives evs ->
       exists err, a = (filepath.Join [dest; "order.tar"],
                        filepath.Join [dest; "buildpack"], "/buildpacks", err)) /\
    appends evs = [] /\ closed evs = opened evs /\
    match r with
    | Ok tar => failures evs = [] /\ tar = filepath.Join [dest; "order.tar"]
    | Err _ => True
    end.
Proof.
  intros H. apply orderLayer_cases in H. cbv zeta in H.
  destruct H as (L & [(e & -> & _ & C) | [(e & -> & _ & C) | [(e & _ & -> & _ & C)
                    | [(e & _ & -> & _ & C) | (b & _ & -> & _ & C)]]]] & _).
  all: eexists; split; [exact C |]; split; [exact L |]; cbn.
  all: repeat split; try done; try (repeat constructor; fail).
  all: intros a Ha; first [now inversion Ha
                         | apply list_elem_of_singleton in Ha as ->; eauto].
Qed.

Lemma Create_body_all f config tmpDir w r w' :
  Create_body host f config tmpDir w = (r, w') ->
  exists evs, calls w' = calls w ++ evs /\
    logged w' = logged w ++ (if r is Ok _ then success_lines (RepoName config) else []) /\
    fail_fast evs = true /\
    Forall (fun o => o = (0%Z, 0%Z)) (owners evs) /\
    (forall a, a ∈ archives evs ->
       (exists err, a = (filepath.Join [tmpDir; "order.tar"],
                         filepath.Join [tmpDir; "buildpack"], "/buildpacks", err)) \/
       (exists buildpack v err, buildpack ∈ Buildpacks config /\ v <> "" /\
          a = (buildpack_tar tmpDir buildpack v,
               buildpackLayer_dir (BuilderDir config) (URI buildpack),
               filepath.Join ["/buildpacks"; ID buildpack; v], err))) /\
    (exists vs, length vs = length (Buildpacks config) /\
       chained (BaseImage config)
         (filepath.Join [tmpDir; "order.tar"]
          :: zip_with (buildpack_tar tmpDir) (Buildpacks config) vs)
         (appends evs)) /\
    closed evs = opened evs.
Proof.
  intros H.
  apply Create_body_step in H
    as [(e & H & ->) | (orderTar & w1 & H1 & [(e & _ & -> & ->) | (image & r3 & w3 & _ & H3 & H)])].
  - apply orderLayer_all in H as (ev1 & C1 & L1 & FF1 & O1 & A1 & Ap1 & Cl1 & _).
    exists ev1. rewrite app_nil_r. repeat split; try done.
    + intros a Ha. left. now apply A1.
    + exists (replicate (length (Buildpacks config)) "").
      rewrite length_replicate. split; [reflexivity |]. rewrite Ap1. constructor.
  - apply orderLayer_all in H1 as (ev1 & C1 & L1 & FF1 & O1 & A1 & Ap1 & Cl1 & F1 & ->).
    unfold record; cbn [calls logged]. rewrite C1, <- app_assoc, app_nil_r.
    eexists; split; [reflexivity |].
    rewrite (fail_fast_app_quiet _ _ F1), owners_app, archives_app, appends_app,
      opened_app, closed_app, Ap1, Cl1.
    cbn. rewrite !app_nil_r. repeat split; try done.
    + intros a Ha. left. now apply A1.
    + exists (replicate (length (Buildpacks config)) "").
      rewrite length_replicate. split; [reflexivity |]. constructor.
  - apply orderLayer_all in H1 as (ev1 & C1 & L1 & FF1 & O1 & A1 & Ap1 & Cl1 & F1 & ->).
    apply Create_buildpacks_all in H3
      as (ev3 & C3 & L3 & FF3 & O3 & A3 & (vs & Lv & Ch3) & Op3 & Cl3 & F3).
    unfold record in C3, L3; cbn [calls logged] in C3, L3.
    rewrite C1, <- !app_assoc in C3. rewrite L1 in L3.
    assert (Hchain : chained (BaseImage config)
              (filepath.Join [tmpDir; "order.tar"]
               :: zip_with (buildpack_tar tmpDir) (Buildpacks config) vs)
              ((BaseImage config, filepath.Join [tmpDir; "order.tar"], Ok image)
               :: appends ev3)) by now constructor.
    assert (Harch : forall a, a ∈ archives ev1 ++ archives ev3 ->
       (exists err, a = (filepath.Join [tmpDir; "order.tar"],
                         filepath.Join [tmpDir; "buildpack"], "/buildpacks", err)) \/
       (exists buildpack v err, buildpack ∈ Buildpacks config /\ v <> "" /\
          a = (buildpack_tar tmpDir buildpack v,
               buildpackLayer_dir (BuilderDir config) (URI buildpack),
               filepath.Join ["/buildpacks"; ID buildpack; v], err))).
    { intros a Ha. apply elem_of_app in Ha as [Ha | Ha]; [left; now apply A1 |].
      right. now apply A3. }
    destruct r3 as [final | e3].
    2:{ destruct H as [-> ->]. eexists; split; [exact C3 |].
        rewrite (fail_fast_app_quiet _ _ F1), !owners_app, !archives_app, !appends_app,
          !opened_app, !closed_app, Ap1, Cl1, Op3, Cl3, app_nil_r.
        cbn. repeat split; try done;
          try (rewrite Forall_app; split; assumption);
          try (now rewrite ?app_nil_r); eauto. }
    destruct (Write (Repo config) w3 final) as [e4|].
    + destruct H as [-> ->]. unfold record; cbn [calls logged].
      rewrite C3, L3, <- !app_assoc, app_nil_r. eexists; split; [reflexivity |].
      rewrite (fail_fast_app_quiet _ _ F1), !owners_app, !archives_app, !appends_app,
        !opened_app, !closed_app, Ap1, Cl1, Op3, Cl3.
      change (fail_fast ([AppendCall (BaseImage config) (filepath.Join [tmpDir; "order.tar"]) (Ok image)]
                         ++ ev3 ++ [WriteCall final (Some e4)]))
        with (fail_fast (ev3 ++ [WriteCall final (Some e4)])).
      rewrite (fail_fast_app_quiet _ _ F3).
      cbn. rewrite ?app_nil_r. repeat split; try done;
        try (rewrite Forall_app; split; assumption); eauto.
    + destruct H as (-> & _ & C & L).
      rewrite C, C3, <- !app_assoc. rewrite L, L3.
      eexists; split; [reflexivity |].
      rewrite (fail_fast_app_quiet _ _ F1), !owners_app, !archives_app, !appends_app,
        !opened_app, !closed_app, Ap1, Cl1, Op3, Cl3.
      change (fail_fast ([AppendCall (BaseImage config) (filepath.Join [tmpDir; "order.tar"]) (Ok image)]
                         ++ ev3 ++ [WriteCall final None]))
        with (fail_fast (ev3 ++ [WriteCall final None])).
      rewrite (fail_fast_app_quiet _ _ F3).
      cbn. rewrite ?app_nil_r. repeat split; try done;
        try (rewrite Forall_app; split; assumption); eauto.
Qed.

Lemma Create_all f config w r w' :
  Create host f config w = (r, w') ->
  exists evs tmpDir, calls w' = calls w ++ evs /\
    logged w' = logged w ++ (if r is Ok _ then success_lines (RepoName config) else []) /\
    fail_fast evs = true /\
    Forall (fun o => o = (0%Z, 0%Z)) (owners evs) /\
    (forall a, a ∈ archives evs ->
       (exists err, a = (filepath.Join [tmpDir; "order.tar"],
                         filepath.Join [tmpDir; "buildpack"], "/buildpacks", err)) \/
       (exists buildpack v err, buildpack ∈ Buildpacks config /\ v <> "" /\
          a = (buildpack_tar tmpDir buildpack v,
               buildpackLayer_dir (BuilderDir config) (URI buildpack),
               filepath.Join ["/buildpacks"; ID buildpack; v], err))) /\
    (exists vs, length vs = length (Buildpacks config) /\
       chained (BaseImage config)
         (filepath.Join [tmpDir; "order.tar"]
          :: zip_with (buildpack_tar tmpDir) (Buildpacks config) vs)
         (appends evs)) /\
    closed evs = opened evs /\
    (forall name, TempDir_answer host w "" "create-builder" = Ok name -> name = tmpDir).
Proof.
  intros H.
  apply Create_step in H as [(e & T & -> & ->) | (tmpDir & w1 & T & Hb & ->)].
  { exists [TempDirCall "" "create-builder" (Err e)], "".
    rewrite app_nil_r. repeat split; try done.
    - intros a Ha. inversion Ha.
    - exists (replicate (length (Buildpacks config)) "").
      rewrite length_replicate. split; [reflexivity | constructor].
    - congruence. }
  apply Create_body_all in Hb as (body & C & L & FF & O & A & Ch & Cl).
  unfold record, set_files in C, L; cbn [calls logged] in C, L.
  destruct (os_Remove host tmpDir w1) as [rr w2] eqn:ER.
  apply os_Remove_run in ER as (rm & CR & LR). cbn [snd].
  rewrite C, <- !app_assoc in CR.
  exists ([TempDirCall "" "create-builder" (Ok tmpDir)] ++ body ++ [RemoveCall tmpDir rm]),
    tmpDir.
  split; [exact CR |]. rewrite LR, L.
  rewrite !owners_app, !archives_app, !appends_app, !opened_app, !closed_app.
  cbn. rewrite !app_nil_r.
  repeat split; try done.
  - now apply fail_fast_deferred_tail.
  - congruence.
Qed.

Lemma chained_length (base : Image) declared apps :
  chained base declared apps -> length apps <= length declared.
Proof. induction 1; simpl; lia. Qed.

(** X1. In every run of [Create], failed or not, the calls of
    [img.Append] follow the declared layers one by one: the order layer
    on the base image, then the buildpacks in the order of
    [config.Buildpacks], each on the image the previous append answered
    with; no layer is skipped or appended twice, and nothing is
    appended after an append that failed. *)
Theorem Create_appends_chained f config w r w' :
  Create host f config w = (r, w') ->
  exists tmpDir vs,
    length vs = length (Buildpacks config) /\
    chained (BaseImage config)
      (filepath.Join [tmpDir; "order.tar"]
       :: zip_with (buildpack_tar tmpDir) (Buildpacks config) vs)
      (appends (new_calls w w')) /\
    length (appends (new_calls w w')) <= S (length (Buildpacks config)).
Proof.
  intros H. apply Create_all in H
    as (evs & tmpDir & C & _ & _ & _ & _ & (vs & Lv & Ch) & _).
  apply new_calls_app in C as ->. exists tmpDir, vs.
  split; [exact Lv |]. split; [exact Ch |].
  apply chained_length in Ch. simpl in Ch. rewrite length_zip_with in Ch. lia.
Qed.

(** X2. [Create] stops at the first failure it looks at.  The
    deferred calls apart ([orderFile.Close] and [os.Remove], whose
    errors [Create] drops and [failure_of] leaves out), at most one
    call of a run fails; it is not a deferred call, the calls before it
    succeeded, only deferred calls come after it, and [Create] returns
    an error that ends with the message of that call.  A removal that
    fails is no such failure: it happens in runs that return [nil]. *)
Theorem Create_stops_at_first_checked_failure f config w r w' :
  Create host f config w = (r, w') ->
  let evs := new_calls w w' in
  length (failures evs) <= 1 /\
  forall pre c post msg, evs = pre ++ c :: post -> failure_of c = Some msg ->
    deferred c = false /\
    failures pre = [] /\
    Forall (fun c' => deferred c' = true) post /\
    exists context, r = Err (context +:+ msg).
Proof.
  intros H evs. subst evs. pose proof H as Hb. apply Create_write_blames in Hb.
  apply Create_all in H as (evs & tmpDir & C & _ & FF & _).
  apply new_calls_app in C. rewrite C in *.
  split; [now apply fail_fast_at_most_one |].
  intros pre c post msg -> Hc.
  assert (Hc' : failure_of c <> None) by congruence.
  destruct (fail_fast_spec _ pre c post FF eq_refl Hc') as [Hq Hpost].
  split; [now destruct c |].
  split; [exact Hq |]. split; [exact Hpost |].
  destruct (Hb msg) as [context Hctx].
  { apply (failures_elem c); [| exact Hc]. apply elem_of_app. right. left. }
  destruct r; [discriminate |]. injection Hctx as ->. now exists context.
Qed.

(** X3. [Create] prints its three lines, the first naming
    [config.RepoName], when it returns [nil], and nothing at all when
    it returns an error. *)
Theorem Create_log f config w r w' :
  Create host f config w = (r, w') ->
  logged w' = logged w ++ (if r is Ok _ then success_lines (RepoName config) else []).
Proof.
  intros H. now apply Create_all in H as (evs & tmpDir & _ & L & _).
Qed.

(** X4. Every archive [Create] asks [CreateTGZFile] for, in any run, is
    owned by uid 0 and gid 0, and it is either the order layer, from
    [tmpDir/buildpack] to [/buildpacks], or the layer of a buildpack of
    the configuration, from its directory to
    [/buildpacks/<ID>/<version>] with a version that is not empty. *)
Theorem Create_archives f config w r w' :
  Create host f config w = (r, w') ->
  let evs := new_calls w w' in
  Forall (fun o => o = (0%Z, 0%Z)) (owners evs) /\
  exists tmpDir,
    forall a, a ∈ archives evs ->
      (exists err, a = (filepath.Join [tmpDir; "order.tar"],
                        filepath.Join [tmpDir; "buildpack"], "/buildpacks", err)) \/
      (exists buildpack v err, buildpack ∈ Buildpacks config /\ v <> "" /\
         a = (buildpack_tar tmpDir buildpack v,
              buildpackLayer_dir (BuilderDir config) (URI buildpack),
              filepath.Join ["/buildpacks"; ID buildpack; v], err)).
Proof.
  intros H evs. subst evs.
  apply Create_all in H as (evs & tmpDir & C & _ & _ & O & A & _).
  apply new_calls_app in C as ->. split; [exact O |]. now exists tmpDir.
Qed.

(** *** [orderLayer] and the filesystem *)


(** X5. [orderLayer] changes three paths of the filesystem at most, the
    directory [dest/buildpack], the manifest [dest/buildpack/order.toml]
    and the archive [dest/order.tar]; after a successful run the three
    are there, the manifest holding the encoding of the groups. *)
Theorem orderLayer_files f dest groups w r w' :
  orderLayer host f dest groups w = (r, w') ->
  let d := filepath.Join [dest; "buildpack"] in
  let o := order_file dest in
  let t := filepath.Join [dest; "order.tar"] in
  (forall p, p <> d -> p <> o -> p <> t -> files w' !! p = files w !! p) /\
  (forall tar, r = Ok tar ->
     tar = t /\
     files w' !! d = Some Directory /\
     files w' !! o = Some (File (toml_Encode_order host groups).1) /\
     exists bytes, files w' !! t = Some (File bytes)).
Proof.
  intros H d o t. apply orderLayer_cases in H. cbv zeta in H.
  fold d o t in H.
  destruct H as (_ & H & _). split.
  - intros p Hd Ho Ht.
    destruct H as [(e & _ & -> & _) | [(e & _ & -> & _) | [(e & _ & _ & -> & _)
                    | [(e & _ & _ & -> & _) | (b & _ & _ & -> & _)]]]].
    all: now rewrite ?lookup_insert_ne by congruence.
  - intros tar ->.
    destruct H as [(e & ? & _) | [(e & ? & _) | [(e & _ & ? & _)
                    | [(e & _ & ? & _) | (b & He & Hr & -> & _)]]]]; try discriminate.
    injection Hr as ->. split; [reflexivity |].
    apply toml_Encode_answer_complete in He as (-> & _).
    pose proof (buildpack_dir_not_order_file dest) as Hdo.
    pose proof (buildpack_dir_not_order_tar dest) as Hdt.
    pose proof (order_tar_not_order_file dest) as Hto.
    fold d o in Hdo. fold d t in Hdt. fold t o in Hto.
    repeat split.
    + rewrite !lookup_insert_ne by congruence. apply lookup_insert_eq.
    + rewrite lookup_insert_ne by congruence. apply lookup_insert_eq.
    + exists b. apply lookup_insert_eq.
Qed.

(** X6. [orderLayer] closes the file it opened, on every path: the
    closed files are the opened files, and when the manifest was opened
    its [Close] is the last call of the run. *)
Theorem orderLayer_closes_order_file f dest groups w r w' :
  orderLayer host f dest groups w = (r, w') ->
  let evs := new_calls w w' in
  closed evs = opened evs /\
  (opened evs = [] \/
   (opened evs = [order_file dest] /\ last evs = Some (CloseCall (order_file dest)))).
Proof.
  intros H evs. subst evs. apply orderLayer_cases in H. cbv zeta in H.
  destruct H as (_ & [(e & _ & _ & C) | [(e & _ & _ & C) | [(e & _ & _ & _ & C)
                    | [(e & _ & _ & _ & C) | (b & _ & _ & _ & C)]]]] & _).
  all: apply new_calls_app in C as ->; cbn; split; [reflexivity |].
  all: first [now left | now right].
Qed.

(** X7. [orderLayer] cannot be run twice on a destination: once a run
    has created [dest/buildpack], any later run on the same [dest]
    fails at [os.Mkdir] and does nothing else. *)
Theorem orderLayer_not_repeatable f dest groups w r w' f2 groups2 :
  orderLayer host f dest groups w = (r, w') ->
  MkdirCall (filepath.Join [dest; "buildpack"]) None ∈ new_calls w w' ->
  exists e,
    orderLayer host f2 dest groups2 w'
    = (Err e, record (MkdirCall (filepath.Join [dest; "buildpack"]) (Some e)) w').
Proof.
  intros H Hin. apply orderLayer_cases in H. cbv zeta in H.
  assert (Hd : files w' !! filepath.Join [dest; "buildpack"] <> None).
  { destruct H as (_ & [(e & _ & _ & C) | [(e & _ & -> & _) | [(e & _ & _ & -> & _)
                    | [(e & _ & _ & -> & _) | (b & _ & _ & -> & _)]]]] & _).
    - apply new_calls_app in C. rewrite C in Hin.
      apply list_elem_of_singleton in Hin. discriminate.
    - now rewrite lookup_insert_eq.
    - rewrite lookup_insert. case_decide; [done |]. now rewrite lookup_insert_eq.
    - rewrite lookup_insert. case_decide; [done |]. now rewrite lookup_insert_eq.
    - rewrite lookup_insert. case_decide; [done |].
      rewrite lookup_insert. case_decide; [done |]. now rewrite lookup_insert_eq. }
  destruct (orderLayer host f2 dest groups2 w') as [r2 w2] eqn:E2.
  apply orderLayer_cases in E2. cbv zeta in E2.
  destruct E2 as (_ & _ & E2). destruct (E2 Hd) as (e & -> & ->). eauto.
Qed.

(** *** [buildpackLayer], success and unreadable metadata *)

(** X8. [buildpackLayer] succeeds exactly when the metadata decodes,
    declares the id of the buildpack and a version that is not empty,
    and [CreateTGZFile] succeeds; it then returns
    [dest/<ID>.<version>.tar], has made the two calls and has written
    the archive to that path, changing nothing else. *)
Theorem buildpackLayer_success f dest buildpack builderDir w r w' :
  buildpackLayer host f dest buildpack builderDir w = (r, w') ->
  let path := buildpack_toml builderDir buildpack in
  let dir := buildpackLayer_dir builderDir (URI buildpack) in
  let read := (toml_DecodeFile_buildpack host path w).1 in
  let archived meta bytes :=
    CreateTGZFile (FS_ f) (record (DecodeFileCall path None) w)
      (buildpack_tar dest buildpack (BP_Version meta)) dir
      (filepath.Join ["/buildpacks"; ID buildpack; BP_Version meta]) 0 0 = Ok bytes in
  ((exists tar, r = Ok tar) <->
   (exists meta bytes, read = Ok meta /\ ID buildpack = BP_ID meta /\
                       BP_Version meta <> "" /\ archived meta bytes)) /\
  (forall tar, r = Ok tar ->
     exists meta bytes, read = Ok meta /\ archived meta bytes /\
       tar = buildpack_tar dest buildpack (BP_Version meta) /\
       files w' = <[tar := File bytes]> (files w) /\
       new_calls w w' =
         [DecodeFileCall path None;
          CreateTGZFileCall tar dir
            (filepath.Join ["/buildpacks"; ID buildpack; BP_Version meta]) 0 0 None]).
Proof.
  intros H path dir read archived. subst archived.
  apply buildpackLayer_cases in H. fold path dir read in H. cbv zeta in H.
  destruct H as [(e & Hread & -> & ->) | (meta & Hread & H)].
  { split; [split |].
    - intros [tar ?]. discriminate.
    - intros (meta & bytes & Hm & _). congruence.
    - intros tar ?. discriminate. }
  destruct H as [(Hne & -> & ->) | [(_ & Hv & -> & ->) | [(Hid & Hv & e & Hc & -> & ->)
                                              | (Hid & Hv & b & Hc & -> & ->)]]].
  - split; [split |].
    + intros [tar ?]. discriminate.
    + intros (meta' & bytes & Hm & Hid & _). congruence.
    + intros tar ?. discriminate.
  - split; [split |].
    + intros [tar ?]. discriminate.
    + intros (meta' & bytes & Hm & _ & Hv' & _). congruence.
    + intros tar ?. discriminate.
  - split; [split |].
    + intros [tar ?]. discriminate.
    + intros (meta' & bytes & Hm & _ & _ & Hc').
      assert (meta' = meta) as -> by congruence. congruence.
    + intros tar ?. discriminate.
  - split; [split |].
    + intros _. exists meta, b. done.
    + intros _. eauto.
    + intros tar Ht. injection Ht as <-. exists meta, b.
      repeat split; try done.
      apply new_calls_app. unfold set_files, record; cbn [calls].
      now rewrite <- app_assoc.
Qed.

(** X9. When [buildpack.toml] cannot be read or decoded,
    [buildpackLayer] returns that error behind the path of the file,
    makes no other call and leaves the filesystem as it was. *)
Theorem buildpackLayer_unreadable_metadata f dest buildpack builderDir w e :
  let path := buildpack_toml builderDir buildpack in
  (toml_DecodeFile_buildpack host path w).1 = Err e ->
  let run := buildpackLayer host f dest buildpack builderDir w in
  run.1 = Err ("reading buildpack.toml from buildpack: " +:+ path +:+ ": " +:+ e) /\
  files run.2 = files w /\
  new_calls w run.2 = [DecodeFileCall path (Some e)].
Proof.
  intros path Hread run. subst run.
  destruct (buildpackLayer host f dest buildpack builderDir w) as [r w'] eqn:H.
  apply buildpackLayer_cases in H. fold path in H. cbv zeta in H.
  destruct H as [(e' & Hread' & -> & ->) | (meta & Hread' & _)]; [| congruence].
  assert (e' = e) as -> by congruence.
  cbn [fst snd]. repeat split. now apply new_calls_record.
Qed.

(** *** [BuilderConfigFromFlags] *)

Lemma toml_DecodeFile_builder_exact path repoName w r w' :
  toml_DecodeFile_builder host path repoName w = (r, w') ->
  w' = record (DecodeFileCall path (error_of r)) w.
Proof. unfold toml_DecodeFile_builder. intros H. now simplify_eq. Qed.

Lemma Images_ReadImage_exact (images : @Images Image) repoName useDaemon w r w' :
  Images_ReadImage images repoName useDaemon w = (r, w') ->
  w' = record (ReadImageCall repoName useDaemon (error_of r)) w.
Proof. unfold Images_ReadImage. intros H. now simplify_eq. Qed.

Lemma Images_RepoStore_exact (images : @Images Image) repoName useDaemon w r w' :
  Images_RepoStore images repoName useDaemon w = (r, w') ->
  w' = record (RepoStoreCall repoName useDaemon (error_of r)) w.
Proof. unfold Images_RepoStore. intros H. now simplify_eq. Qed.

(** Every way [BuilderConfigFromFlags] can go once the name of the base
    image is known. *)
Lemma BuilderConfigFromFlags_cases f flags w r w' :
  BuilderConfigFromFlags host f flags w = (r, w') ->
  let path := BuilderTomlPath flags in
  let repoName := flag_RepoName flags in
  let useDaemon := negb (Publish flags) in
  match baseImageName host f (StackID flags) repoName with
  | Err e => r = Err e /\ w' = w
  | Ok baseImage =>
      files w' = files w /\
      exists evs, calls w' = calls w ++ evs /\
        logged w' = logged w ++ map pulling_line (pulls evs) /\
        exists pre,
          (pre = if negb (NoPull flags) && negb (Publish flags)
                 then [PullImageCall baseImage None] else []) /\
          ((exists e, negb (NoPull flags) && negb (Publish flags) = true /\
              evs = [PullImageCall baseImage (Some e)] /\
              r = Err ("failed to pull stack build image " +:+ quoted baseImage
                       +:+ ": " +:+ e)) \/
           (exists e, evs = pre ++ [DecodeFileCall path (Some e)] /\
              r = Err ("failed to decode builder config from file "
                       +:+ quoted path +:+ ": " +:+ e)) \/
           (exists e, evs = pre ++ [DecodeFileCall path None;
                                    ReadImageCall baseImage useDaemon (Some e)] /\
              r = Err ("failed to read base image " +:+ quoted baseImage
                       +:+ ": " +:+ e)) \/
           (evs = pre ++ [DecodeFileCall path None;
                          ReadImageCall baseImage useDaemon None] /\
              r = Err ("base image " +:+ quoted baseImage +:+ " was not found")) \/
           (exists e, evs = pre ++ [DecodeFileCall path None;
                                    ReadImageCall baseImage useDaemon None;
                                    RepoStoreCall repoName useDaemon (Some e)] /\
              r = Err ("failed to create repository store for builder image "
                       +:+ quoted repoName +:+ ": " +:+ e)) \/
           (exists config, evs = pre ++ [DecodeFileCall path None;
                                         ReadImageCall baseImage useDaemon None;
                                         RepoStoreCall repoName useDaemon None] /\
              r = Ok config /\
              v1_Image_is_nil host (BaseImage config) = false /\
              BuilderDir config = filepath.Dir path))
  end.
Proof.
  intros H path repoName useDaemon. subst path repoName useDaemon.
  unfold BuilderConfigFromFlags in H.
  apply bind_run in H as [(e & H & ->) | (baseImage & w0 & H0 & H)].
  { unfold lift in H. injection H as -> <-. done. }
  unfold lift in H0. injection H0 as -> <-.
  (* the pull *)
  assert (Hpull : forall r1 w1,
    (if negb (NoPull flags) && negb (Publish flags)
     then bind (Println ["Pulling builder base image "; baseImage])
            (fun _ => onError (fun err => "failed to pull stack build image "
                                          +:+ quoted baseImage +:+ ": " +:+ err)
                        (Docker_PullImage (Docker_ f) baseImage))
     else ret tt) w = (r1, w1) ->
    files w1 = files w /\
    exists ev1, calls w1 = calls w ++ ev1 /\
      logged w1 = logged w ++ map pulling_line (pulls ev1) /\
      ((exists e, negb (NoPull flags) && negb (Publish flags) = true /\
          ev1 = [PullImageCall baseImage (Some e)] /\
          r1 = Err ("failed to pull stack build image " +:+ quoted baseImage
                    +:+ ": " +:+ e)) \/
       (r1 = Ok tt /\
        ev1 = if negb (NoPull flags) && negb (Publish flags)
              then [PullImageCall baseImage None] else []))).
  { intros r1 w1 Hp. destruct (negb (NoPull flags) && negb (Publish flags)).
    - unfold bind, Println, onError, Docker_PullImage, returning in Hp.
      cbn [fst snd] in Hp.
      match type of Hp with
      | context [PullImage ?d ?ww ?ref] => destruct (PullImage d ww ref) as [e|] eqn:E
      end; cbn [result_of] in Hp; injection Hp as <- <-.
      + split; [reflexivity |]. eexists. split; [reflexivity |].
        split; [reflexivity |]. left. eauto.
      + split; [reflexivity |]. eexists. split; [reflexivity |].
        split; [reflexivity |]. right. eauto.
    - unfold ret in Hp. injection Hp as <- <-.
      split; [reflexivity |]. exists []. rewrite !app_nil_r. eauto. }
  apply bind_run in H as [(e & H & ->) | ([] & w1 & H1 & H)].
  { apply Hpull in H as (F1 & ev1 & C1 & L1 & [(e' & Hc & -> & He) | (? & _)]);
      [| discriminate].
    injection He as ->. split; [exact F1 |]. exists [PullImageCall baseImage (Some e')].
    split; [exact C1 |]. split; [exact L1 |]. eexists. split; [reflexivity |].
    left. eauto. }
  apply Hpull in H1 as (F1 & ev1 & C1 & L1 & [(e' & _ & _ & ?) | (_ & Hev1)]);
    [discriminate |].
  clear Hpull. subst ev1.
  set (pre := if negb (NoPull flags) && negb (Publish flags)
              then [PullImageCall baseImage None] else []) in *.
  assert (Hpre : map pulling_line (pulls pre) ++ [] = map pulling_line (pulls pre))
    by apply app_nil_r.
  assert (Hlog : forall tl, pulls tl = [] ->
            logged w1 = logged w ++ map pulling_line (pulls (pre ++ tl))).
  { intros tl Htl. unfold pulls in *. now rewrite omap_app, Htl, app_nil_r. }
  (* decode *)
  apply bind_run in H as [(e & H & ->) | (decoded & w2 & H2 & H)].
  { apply onError_run in H as [(a & _ & ?) | (e' & H & He)]; [discriminate |].
    injection He as ->. apply toml_DecodeFile_builder_exact in H as ->.
    cbn [error_of files calls logged record].
    split; [exact F1 |]. eexists. rewrite C1, <- app_assoc.
    split; [reflexivity |]. split; [now apply Hlog |].
    exists pre. split; [reflexivity |]. right; left. eauto. }
  apply onError_run in H2 as [(a & H2 & Ha) | (e' & _ & ?)]; [| discriminate].
  injection Ha as <-. apply toml_DecodeFile_builder_exact in H2 as ->.
  cbn [error_of] in H |- *.
  (* read *)
  apply bind_run in H as [(e & H & ->) | (image & w3 & H3 & H)].
  { apply onError_run in H as [(a' & _ & ?) | (e' & H & He)]; [discriminate |].
    injection He as ->. apply Images_ReadImage_exact in H as ->.
    cbn [error_of files calls logged record].
    split; [exact F1 |]. eexists. rewrite C1, <- !app_assoc.
    split; [reflexivity |]. split; [now apply Hlog |].
    exists pre. split; [reflexivity |]. right; right; left. eauto. }
  apply onError_run in H3 as [(a' & H3 & Ha) | (e' & _ & ?)]; [| discriminate].
  injection Ha as <-. apply Images_ReadImage_exact in H3 as ->.
  cbn [error_of] in H |- *.
  (* nil *)
  apply bind_run in H as [(e & H & ->) | ([] & w4 & H4 & H)].
  { destruct (v1_Image_is_nil host image); unfold lift, ret in H; [| discriminate].
    injection H as <- <-. cbn [files calls logged record].
    split; [exact F1 |]. eexists. rewrite C1, <- !app_assoc.
    split; [reflexivity |]. split; [now apply Hlog |].
    exists pre. split; [reflexivity |]. do 3 right; left. eauto. }
  destruct (v1_Image_is_nil host image) eqn:Enil; unfold lift, ret in H4;
    [discriminate |].
  injection H4 as <-.
  (* repo store *)
  apply bind_run in H as [(e & H & ->) | (repo & w5 & H5 & H)].
  { apply onError_run in H as [(a'' & _ & ?) | (e' & H & He)]; [discriminate |].
    injection He as ->. apply Images_RepoStore_exact in H as ->.
    cbn [error_of files calls logged record].
    split; [exact F1 |]. eexists. rewrite C1, <- !app_assoc.
    split; [reflexivity |]. split; [now apply Hlog |].
    exists pre. split; [reflexivity |]. do 4 right; left. eauto. }
  apply onError_run in H5 as [(a'' & H5 & Ha) | (e' & _ & ?)]; [| discriminate].
  injection Ha as <-. apply Images_RepoStore_exact in H5 as ->.
  unfold ret in H. injection H as <- <-.
  cbn [error_of files calls logged record].
  split; [exact F1 |]. eexists. rewrite C1, <- !app_assoc.
  split; [reflexivity |]. split; [now apply Hlog |].
  exists pre. split; [reflexivity |]. do 5 right. eexists.
  split; [reflexivity |]. split; [reflexivity |]. split; [exact Enil | reflexivity].
Qed.

Lemma sole_failure_last cs0 c0 pre c post :
  cs0 ++ [c0] = pre ++ c :: post -> failures cs0 = [] -> failure_of c <> None ->
  post = [] /\ pre = cs0 /\ c = c0.
Proof.
  intros Heq Hq Hc. destruct post as [|x post _] using rev_ind.
  - apply (app_inj_tail cs0 pre c0 c) in Heq as [-> ->]. done.
  - exfalso.
    change (pre ++ c :: post ++ [x]) with (pre ++ (c :: post) ++ [x]) in Heq.
    rewrite app_assoc in Heq. apply app_inj_tail in Heq as [-> _].
    destruct (failure_of c) as [msg|] eqn:Ec; [| contradiction].
    assert (Hin : msg ∈ failures (pre ++ c :: post)).
    { apply (failures_elem c); [| exact Ec]. apply elem_of_app. right. left. }
    rewrite Hq in Hin. inversion Hin.
Qed.

Lemma no_failure_quiet cs pre c post :
  failures cs = [] -> cs = pre ++ c :: post -> failure_of c <> None -> False.
Proof.
  intros Hq -> Hc. destruct (failure_of c) as [msg|] eqn:Ec; [| contradiction].
  assert (Hin : msg ∈ failures (pre ++ c :: post)).
  { apply (failures_elem c); [| exact Ec]. apply elem_of_app. right. left. }
  rewrite Hq in Hin. inversion Hin.
Qed.

(** X10. A [BuilderConfigFromFlags] that succeeds has made, in this
    order, the pull when neither flag is set, the decoding of the
    builder configuration, [ReadImage] and [RepoStore], both with
    [useDaemon] being [!flags.Publish]; the base image it returns is
    not [nil], [BuilderDir] is the directory of the configuration file,
    and the filesystem is unchanged. *)
Theorem BuilderConfigFromFlags_success f flags w config w' :
  BuilderConfigFromFlags host f flags w = (Ok config, w') ->
  exists baseImage,
    baseImageName host f (StackID flags) (flag_RepoName flags) = Ok baseImage /\
    new_calls w w' =
      (if negb (NoPull flags) && negb (Publish flags)
       then [PullImageCall baseImage None] else [])
      ++ [DecodeFileCall (BuilderTomlPath flags) None;
          ReadImageCall baseImage (negb (Publish flags)) None;
          RepoStoreCall (flag_RepoName flags) (negb (Publish flags)) None] /\
    v1_Image_is_nil host (BaseImage config) = false /\
    BuilderDir config = filepath.Dir (BuilderTomlPath flags) /\
    files w' = files w.
Proof.
  intros H. apply BuilderConfigFromFlags_cases in H. cbv zeta in H.
  destruct (baseImageName host f (StackID flags) (flag_RepoName flags))
    as [baseImage | e]; [| destruct H; discriminate].
  destruct H as (F & evs & C & _ & pre & -> & H).
  exists baseImage. split; [reflexivity |].
  destruct H as [(e & _ & _ & ?) | [(e & _ & ?) | [(e & _ & ?) | [(_ & ?)
                | [(e & _ & ?) | (config' & -> & Hc & Hnil & Hdir)]]]]];
    try discriminate.
  injection Hc as <-. apply new_calls_app in C. done.
Qed.

(** X11. [BuilderConfigFromFlags] stops at the first failure: when the
    name of the base image does not resolve it returns that error
    without a call or a printed line, and a call that fails is the last
    call of the run, the ones before it having succeeded, its error
    being returned behind the context of the step. *)
Theorem BuilderConfigFromFlags_stops_at_first_failure f flags w r w' :
  BuilderConfigFromFlags host f flags w = (r, w') ->
  let evs := new_calls w w' in
  (forall e, baseImageName host f (StackID flags) (flag_RepoName flags) = Err e ->
     r = Err e /\ w' = w) /\
  (forall pre c post msg, evs = pre ++ c :: post -> failure_of c = Some msg ->
     post = [] /\ failures pre = [] /\ exists context, r = Err (context +:+ msg)) /\
  files w' = files w.
Proof.
  intros H evs. subst evs. apply BuilderConfigFromFlags_cases in H. cbv zeta in H.
  destruct (baseImageName host f (StackID flags) (flag_RepoName flags))
    as [baseImage | e].
  2:{ destruct H as [-> ->]. repeat split; try congruence.
      all: rewrite new_calls_same in H; now destruct pre. }
  destruct H as (F & evs & C & _ & pre0 & Hpre & H).
  apply new_calls_app in C. rewrite C. clear C.
  split; [intros e ?; discriminate |]. split; [| exact F].
  assert (Hq : failures pre0 = [])
    by (subst pre0; now destruct (negb (NoPull flags) && negb (Publish flags))).
  intros pre c post msg Hevs Hc.
  assert (Hc' : failure_of c <> None) by congruence.
  destruct H as [(e & _ & -> & ->) | [(e & -> & ->) | [(e & -> & ->) | [(-> & ->)
                | [(e & -> & ->) | (config' & -> & -> & _)]]]]].
  - apply (sole_failure_last []) in Hevs as (-> & Hp & ->); [| reflexivity | exact Hc'].
    subst pre. injection Hc as <-. repeat split; try done.
    eexists. rewrite <- !append_assoc. reflexivity.
  - apply sole_failure_last in Hevs as (-> & Hp & ->); [| exact Hq | exact Hc'].
    subst pre. injection Hc as <-. repeat split; try done.
    eexists. rewrite <- !append_assoc. reflexivity.
  - match type of Hevs with
    | pre0 ++ [?a; ?b] = _ =>
        replace (pre0 ++ [a; b]) with ((pre0 ++ [a]) ++ [b]) in Hevs
          by now rewrite <- app_assoc
    end.
    apply sole_failure_last in Hevs as (-> & Hp & ->);
      [| now rewrite failures_app, Hq | exact Hc'].
    subst pre. injection Hc as <-. repeat split; try (now rewrite failures_app, Hq).
    eexists. rewrite <- !append_assoc. reflexivity.
  - exfalso. eapply (no_failure_quiet _ pre c post); [| exact Hevs | exact Hc'].
    now rewrite failures_app, Hq.
  - match type of Hevs with
    | pre0 ++ [?a; ?b; ?c0] = _ =>
        replace (pre0 ++ [a; b; c0]) with ((pre0 ++ [a; b]) ++ [c0]) in Hevs
          by now rewrite <- app_assoc
    end.
    apply sole_failure_last in Hevs as (-> & Hp & ->);
      [| now rewrite failures_app, Hq | exact Hc'].
    subst pre. injection Hc as <-. repeat split; try (now rewrite failures_app, Hq).
    eexists. rewrite <- !append_assoc. reflexivity.
  - exfalso. eapply (no_failure_quiet _ pre c post); [| exact Hevs | exact Hc'].
    now rewrite failures_app, Hq.
Qed.

(** X12. [BuilderConfigFromFlags] prints one line for the pull it
    makes, naming the image, and nothing else. *)
Theorem BuilderConfigFromFlags_log f flags w r w' :
  BuilderConfigFromFlags host f flags w = (r, w') ->
  logged w' = logged w ++ map pulling_line (pulls (new_calls w w')).
Proof.
  intros H. apply BuilderConfigFromFlags_cases in H. cbv zeta in H.
  destruct (baseImageName host f (StackID flags) (flag_RepoName flags))
    as [baseImage | e].
  - destruct H as (_ & evs & C & L & _). apply new_calls_app in C. now rewrite C.
  - destruct H as [_ ->]. rewrite new_calls_same. simpl. now rewrite app_nil_r.
Qed.

(** *** Absolute paths *)

Lemma IsAbs_slash s : filepath.IsAbs ("/" +:+ s) = true.
Proof. reflexivity. Qed.

Lemma IsAbs_inv p : filepath.IsAbs p = true -> exists s, p = "/" +:+ s.
Proof.
  unfold filepath.IsAbs. destruct p as [|c p]; [discriminate |].
  cbn [strings.HasPrefix]. destruct (Ascii.eqb "/" c) eqn:E; [| discriminate].
  apply Ascii.eqb_eq in E as <-. intros _. now exists p.
Qed.

Lemma IsAbs_Clean p : filepath.IsAbs p = true -> filepath.IsAbs (filepath.Clean p) = true.
Proof.
  intros H. unfold filepath.Clean. rewrite H.
  destruct (String.eqb p "") eqn:E.
  - apply String.eqb_eq in E as ->. discriminate.
  - apply IsAbs_slash.
Qed.

Lemma IsAbs_Join d s :
  filepath.IsAbs d = true -> filepath.IsAbs (filepath.Join [d; s]) = true.
Proof.
  intros H. destruct (IsAbs_inv d H) as [d' ->].
  unfold filepath.Join. cbn [String.eqb strings.Join].
  change (("/" +:+ d') =? "")%string with false. cbv iota.
  apply IsAbs_Clean. apply IsAbs_slash.
Qed.

Lemma IsAbs_Dir path :
  filepath.IsAbs path = true -> filepath.IsAbs (filepath.Dir path) = true.
Proof.
  intros H. destruct (IsAbs_inv path H) as [rest ->].
  unfold filepath.Dir. apply IsAbs_Clean.
  change ("/" +:+ rest) with (String "/" rest). cbn [filepath.dir_part].
  destruct (strings.Contains rest "/"); reflexivity.
Qed.

Lemma buildpackLayer_dir_absolute builderDir uri :
  filepath.IsAbs builderDir = true ->
  filepath.IsAbs (buildpackLayer_dir builderDir uri) = true.
Proof.
  intros H. unfold buildpackLayer_dir.
  destruct (filepath.IsAbs (strings.TrimPrefix uri "file://")) eqn:E; cbn [negb].
  - exact E.
  - now apply IsAbs_Join.
Qed.

(** X13. When the path of the builder configuration is absolute, the
    [BuilderDir] that [BuilderConfigFromFlags] returns is absolute, and
    with it the directory of every buildpack and the path of its
    [buildpack.toml], whatever the URI of the buildpack is. *)
Theorem buildpack_directories_absolute f flags w config w' :
  BuilderConfigFromFlags host f flags w = (Ok config, w') ->
  filepath.IsAbs (BuilderTomlPath flags) = true ->
  filepath.IsAbs (BuilderDir config) = true /\
  forall buildpack,
    filepath.IsAbs (buildpackLayer_dir (BuilderDir config) (URI buildpack)) = true /\
    filepath.IsAbs (buildpack_toml (BuilderDir config) buildpack) = true.
Proof.
  intros H Habs. apply BuilderConfigFromFlags_cases in H. cbv zeta in H.
  destruct (baseImageName host f (StackID flags) (flag_RepoName flags))
    as [baseImage | e]; [| destruct H; discriminate].
  destruct H as (_ & evs & _ & _ & pre & _ & H).
  destruct H as [(e & _ & _ & ?) | [(e & _ & ?) | [(e & _ & ?) | [(_ & ?)
                | [(e & _ & ?) | (config' & _ & Hc & _ & Hdir)]]]]];
    try discriminate.
  injection Hc as <-.
  assert (Hd : filepath.IsAbs (BuilderDir config) = true)
    by (rewrite Hdir; now apply IsAbs_Dir).
  split; [exact Hd |]. intros buildpack. split.
  - now apply buildpackLayer_dir_absolute.
  - unfold buildpack_toml. apply IsAbs_Join. now apply buildpackLayer_dir_absolute.
Qed.
End More.

(** ** The tokens of the shell function Dockerfile *)

Example Base_examples :
  filepath.Base "/foo/bar/baz.js" = "baz.js" /\
  filepath.Base "/foo/bar/baz" = "baz" /\
  filepath.Base "/foo/bar/baz/" = "baz" /\
  filepath.Base "dev.txt" = "dev.txt" /\
  filepath.Base "../todo.txt" = "todo.txt" /\
  filepath.Base ".." = ".." /\
  filepath.Base "." = "." /\
  filepath.Base "/" = "/" /\
  filepath.Base "" = "." /\
  filepath.Base "//" = "/" /\
  filepath.Base "a//" = "a".
Proof. repeat split; reflexivity. Qed.

Lemma Contains_slash_cons c s :
  strings.Contains (String c s) "/" = Ascii.eqb "/" c || strings.Contains s "/".
Proof.
  cbn [strings.Contains strings.HasPrefix].
  destruct (Ascii.eqb "/" c); reflexivity.
Qed.

Lemma split_slash_no_slash s :
  Forall (fun e => strings.Contains e "/" = false) (strings.split_slash s).
Proof.
  induction s as [|c s IH]; [repeat constructor |].
  cbn [strings.split_slash]. destruct (Ascii.eqb c "/") eqn:E.
  - constructor; [reflexivity | exact IH].
  - destruct (strings.split_slash s) as [|e rest]; [repeat constructor |].
    + rewrite Contains_slash_cons, Ascii.eqb_sym, E. reflexivity.
    + inversion IH as [|? ? He Hrest]; subst. constructor; [| exact Hrest].
      rewrite Contains_slash_cons, Ascii.eqb_sym, E. exact He.
Qed.

Lemma last_default_Forall {A} (P : A -> Prop) (l : list A) d :
  Forall P l -> l <> [] -> P (List.last l d).
Proof.
  induction 1 as [|x l Hx Hl IH]; [contradiction |]. intros _.
  destruct l as [|y l]; [exact Hx |]. apply IH. discriminate.
Qed.

(** The base of a path is never empty, and it is [/] or free of slashes. *)
Lemma Base_element path :
  filepath.Base path <> "" /\
  (filepath.Base path = "/" \/ strings.Contains (filepath.Base path) "/" = false).
Proof.
  unfold filepath.Base. destruct (String.eqb path ""); [split; [discriminate | now right] |].
  destruct (String.eqb (List.last _ "") "") eqn:E; [split; [discriminate | now left] |].
  apply String.eqb_neq in E. split; [exact E |]. right.
  apply last_default_Forall; [apply split_slash_no_slash | apply split_slash_nonempty].
Qed.

Lemma trim_plain_tail d x :
  plain_element x ->
  filepath.trim_trailing_slashes (d +:+ "/" +:+ x) = d +:+ "/" +:+ x.
Proof.
  intros Hx.
  assert (Hx' : filepath.trim_trailing_slashes x = x /\ x <> "").
  { destruct Hx as (Hs & Hne & _). split; [| exact Hne]. clear Hne.
    induction x as [|c x IH]; [reflexivity |].
    cbn [strings.split_slash] in Hs. destruct (Ascii.eqb c "/") eqn:E; [discriminate |].
    cbn [filepath.trim_trailing_slashes]. rewrite E, andb_false_r.
    destruct x as [|c' x]; [reflexivity |].
    rewrite IH; [reflexivity |].
    destruct (strings.split_slash (String c' x)) as [|e rest] eqn:Es; [discriminate |].
    injection Hs as He ->. now rewrite He. }
  destruct Hx' as [Ht Hne].
  assert (Hsl : filepath.trim_trailing_slashes ("/" +:+ x) = "/" +:+ x).
  { change ("/" +:+ x) with (String "/" x). cbn [filepath.trim_trailing_slashes].
    rewrite Ht. apply String.eqb_neq in Hne. now rewrite Hne. }
  induction d as [|c d IH]; [exact Hsl |].
  rewrite append_cons. cbn [filepath.trim_trailing_slashes]. rewrite IH.
  assert (Hn : ((d +:+ "/" +:+ x) =? "")%string = false).
  { apply String.eqb_neq. destruct d; discriminate. }
  now rewrite Hn.
Qed.

Lemma last_default_snoc {A} (l : list A) x d : List.last (l ++ [x]) d = x.
Proof. induction l as [|y l IH]; [reflexivity |]. simpl. rewrite IH. now destruct l. Qed.

(** The base of [d/x] is [x]. *)
Lemma Base_of_joined d x :
  plain_element x -> filepath.Base (d +:+ "/" +:+ x) = x.
Proof.
  intros Hx. unfold filepath.Base.
  assert (Hn : ((d +:+ "/" +:+ x) =? "")%string = false).
  { apply String.eqb_neq. destruct d; discriminate. }
  rewrite Hn, (trim_plain_tail _ _ Hx), split_slash_append, (proj1 Hx), last_default_snoc.
  destruct Hx as (_ & Hne & _). apply String.eqb_neq in Hne. now rewrite Hne.
Qed.

Lemma Base_plain x : plain_element x -> filepath.Base x = x.
Proof.
  intros Hx. pose proof Hx as (Hs & Hne & _). unfold filepath.Base.
  apply String.eqb_neq in Hne as Hn. rewrite Hn.
  assert (Ht : filepath.trim_trailing_slashes x = x).
  { pose proof (trim_plain_tail "" x Hx) as H.
    change ("" +:+ "/" +:+ x) with (String "/" x) in H.
    cbn [filepath.trim_trailing_slashes] in H.
    destruct ((filepath.trim_trailing_slashes x =? "")%string && Ascii.eqb "/" "/");
      [discriminate | now injection H]. }
  rewrite Ht, Hs. simpl. now rewrite Hn.
Qed.

(** X14. [generateShellFunctionDockerFile] hands the template the
    artifact as given and, as [ArtifactBase], its last path element:
    never empty, free of slashes unless it is [/], and [x] for an
    artifact [x] or [d/x]; so [FUNCTION_URI] names a file right under
    the root of the image, where [ADD ... /] puts the artifact. *)
Theorem generateShellFunctionDockerFile_tokens
    (render : string -> string -> shell.DockerFileTokens -> result string)
    (opts : shell.InitOptions) :
  exists base,
    shell.generateShellFunctionDockerFile render opts
    = render shell.shellFunctionDockerfileTemplate "docker-shell"
        (shell.mkTokens (shell.Artifact opts) base (shell.RiffVersion opts)) /\
    base <> "" /\
    (base = "/" \/ strings.Contains base "/" = false) /\
    (forall x, plain_element x ->
       (shell.Artifact opts = x \/ exists d, shell.Artifact opts = d +:+ "/" +:+ x) ->
       base = x).
Proof.
  exists (filepath.Base (shell.Artifact opts)).
  split; [reflexivity |].
  destruct (Base_element (shell.Artifact opts)) as [Hne Hsl].
  split; [exact Hne |]. split; [exact Hsl |].
  intros x Hx [-> | [d ->]]; [now apply Base_plain | now apply Base_of_joined].
Qed.

(** ** The concrete world *)

(** [filepath.Clean] and [filepath.Join] on the examples of Go's
    documentation. *)
Example Clean_examples :
  filepath.Clean "a//b/./c/.." = "a/b" /\
  filepath.Clean "/../a/b/../././/c" = "/a/c" /\
  filepath.Clean "../../a/../.." = "../../.." /\
  filepath.Clean "abc/def/../.." = "." /\
  filepath.Clean "/" = "/" /\
  filepath.Clean "" = ".".
Proof. repeat split; reflexivity. Qed.

Example Join_examples :
  filepath.Join ["a"; "b/c"] = "a/b/c" /\
  filepath.Join [""; "/tmp/x"; ""] = "/tmp/x" /\
  filepath.Join ["/spec"; "../bp"] = "/bp" /\
  filepath.Join [""; ""] = "".
Proof. repeat split; reflexivity. Qed.

Example Dir_examples :
  filepath.Dir "/a/b/builder.toml" = "/a/b" /\
  filepath.Dir "builder.toml" = "." /\
  filepath.Dir "/builder.toml" = "/".
Proof. repeat split; reflexivity. Qed.

(** The end-to-end scenario of the design document: the order layer and
    the layer of [java] at [/buildpacks/java/1.0.0], in that order. *)
Example Create_java :
  let run := Create Demo.host Demo.factory Demo.config (Demo.world "java/1.0.0") in
  run.1 = Ok tt /\
  archives (calls run.2) =
    [("/tmp/create-builder012345/order.tar", "/tmp/create-builder012345/buildpack",
      "/buildpacks", None);
     ("/tmp/create-builder012345/java.1.0.0.tar", "/spec/bp-java",
      "/buildpacks/java/1.0.0", None)] /\
  writes (calls run.2) =
    [(Some ["base"; "/tmp/create-builder012345/order.tar";
            "/tmp/create-builder012345/java.1.0.0.tar"], None)].
Proof. vm_compute. repeat split; reflexivity. Qed.

(** The failure scenario: the metadata declares [jvm]. *)
Example Create_jvm :
  let run := Create Demo.host Demo.factory Demo.config (Demo.world "jvm/1.0.0") in
  run.1 = Err ("failed generate layer for buildpack " +:+ quoted "java"
               +:+ ": buildpack ids did not match: java != jvm") /\
  writes (calls run.2) = [].
Proof. vm_compute. repeat split; reflexivity. Qed.

Lemma Create_layers_in_order_witness :
  let w := Demo.world "java/1.0.0" in
  let w' := (Create Demo.host Demo.factory Demo.config w).2 in
  Create Demo.host Demo.factory Demo.config w = (Ok tt, w') /\
  length (appends (new_calls w w')) = 2.
Proof.
  intros w w'.
  assert (H : Create Demo.host Demo.factory Demo.config w = (Ok tt, w'))
    by (vm_compute; reflexivity).
  split; [exact H |].
  destruct (Create_layers_in_order Demo.host Demo.factory Demo.config w w' H)
    as (tmpDir & vs & images & final & _ & _ & _ & _ & _ & Hlen & _).
  exact Hlen.
Defined.

Lemma Create_write_only_when_complete_witness :
  let w := Demo.world "jvm/1.0.0" in
  let run := Create Demo.host Demo.factory Demo.config w in
  Create Demo.host Demo.factory Demo.config w = (run.1, run.2) /\
  blames (error_of run.1) (new_calls w run.2).
Proof.
  intros w run.
  assert (H : Create Demo.host Demo.factory Demo.config w = (run.1, run.2))
    by (vm_compute; reflexivity).
  split; [exact H |].
  exact (proj1 (proj2 (Create_write_only_when_complete
                         Demo.host Demo.factory Demo.config w run.1 run.2 H))).
Defined.

(** C6, as the claim has it, fails: the build of the builder without
    buildpacks succeeds, and afterwards the working directory is still
    there, the one call of [os.Remove] having failed on the directory
    that is not empty; the log holds the three lines of the success and
    nothing about the removal. *)
Lemma Create_leaves_working_directory :
  let run := Create Demo.host Demo.factory Demo.config_empty (Demo.world "") in
  run.1 = Ok tt /\
  files run.2 !! "/tmp/create-builder012345" = Some Directory /\
  removals (calls run.2) =
    [("/tmp/create-builder012345",
      Some "remove /tmp/create-builder012345: directory not empty")] /\
  logged run.2 =
    ["Successfully created builder image: example/builder"; "";
     "Tip: Run " +:+ dq
     +:+ "pack build <image name> --builder <builder image> --path <app source code>"
     +:+ dq +:+ " to use this builder"].
Proof. vm_compute. repeat split; reflexivity. Qed.

Lemma Create_removal_attempted_witness :
  let w := Demo.world "java/1.0.0" in
  let run := Create Demo.host Demo.factory Demo.config w in
  Create Demo.host Demo.factory Demo.config w = (run.1, run.2) /\
  TempDir_answer Demo.host w "" "create-builder" = Ok "/tmp/create-builder012345" /\
  exists rm, removals (new_calls w run.2) = [("/tmp/create-builder012345", rm)].
Proof.
  intros w run.
  assert (H : Create Demo.host Demo.factory Demo.config w = (run.1, run.2))
    by (vm_compute; reflexivity).
  assert (T : TempDir_answer Demo.host w "" "create-builder"
              = Ok "/tmp/create-builder012345") by reflexivity.
  split; [exact H |]. split; [exact T |].
  destruct (Create_removal_attempted Demo.host Demo.factory Demo.config w
              run.1 run.2 "/tmp/create-builder012345" H T)
    as (w0 & w1 & body & rm & _ & _ & _ & _ & Hrm & _).
  exists rm. exact Hrm.
Defined.

Lemma Create_without_buildpacks_witness :
  let w := Demo.world "" in
  let run := Create Demo.host Demo.factory Demo.config_empty w in
  run.1 = Ok tt /\
  decodes (new_calls w run.2) = [] /\
  appends (new_calls w run.2)
  = [(Some ["base"], "/tmp/create-builder012345/order.tar",
      Ok (Some ["base"; "/tmp/create-builder012345/order.tar"]))] /\
  writes (new_calls w run.2)
  = [(Some ["base"; "/tmp/create-builder012345/order.tar"], None)].
Proof.
  intros w run.
  destruct (Create_without_buildpacks Demo.host Demo.factory Demo.config_empty w
              "/tmp/create-builder012345")
    as (Hr & Hd & _ & image & Ha & Hw).
  - reflexivity.
  - reflexivity.
  - vm_compute. reflexivity.
  - vm_compute. reflexivity.
  - intros w0. reflexivity.
  - intros w0. reflexivity.
  - reflexivity.
  - intros w0. reflexivity.
  - intros w0. reflexivity.
  - intros w0. reflexivity.
  - intros w0 image. reflexivity.
  - fold run in Hr, Hd, Ha, Hw.
    assert (Hi : appends (new_calls w run.2)
                 = [(Some ["base"], "/tmp/create-builder012345/order.tar",
                     Ok (Some ["base"; "/tmp/create-builder012345/order.tar"]))])
      by (vm_compute; reflexivity).
    rewrite Hi in Ha. injection Ha as <-.
    split; [exact Hr |]. split; [exact Hd |]. split; [exact Hi | exact Hw].
Defined.

Lemma buildpackLayer_id_mismatch_witness :
  (buildpackLayer Demo.host Demo.factory "/tmp/x" Demo.java "/spec"
     (Demo.world "jvm/1.0.0")).1
  = Err (ids_did_not_match "java" "jvm").
Proof.
  refine (proj1 (buildpackLayer_id_mismatch Demo.host Demo.factory "/tmp/x" Demo.java
                   "/spec" (Demo.world "jvm/1.0.0") "jvm/1.0.0" (mkBP "jvm" "1.0.0")
                   _ _ _)).
  - vm_compute. reflexivity.
  - reflexivity.
  - apply String.eqb_neq. reflexivity.
Defined.

Lemma buildpackLayer_empty_version_witness :
  (buildpackLayer Demo.host Demo.factory "/tmp/x" Demo.java "/spec"
     (Demo.world "java")).1
  = Err (must_provide_version "/spec/bp-java/buildpack.toml").
Proof.
  refine (proj1 (buildpackLayer_empty_version Demo.host Demo.factory "/tmp/x" Demo.java
                   "/spec" (Demo.world "java") "java" (mkBP "java" "")
                   _ _ _)).
  - vm_compute. reflexivity.
  - reflexivity.
  - reflexivity.
Defined.

Lemma buildpackLayer_id_checked_first_witness :
  (buildpackLayer Demo.host Demo.factory "/tmp/x" Demo.java "/spec"
     (Demo.world "jvm")).1
  = Err (ids_did_not_match "java" "jvm").
Proof.
  refine (proj1 (buildpackLayer_id_checked_first Demo.host Demo.factory "/tmp/x"
                   Demo.java "/spec" (Demo.world "jvm") "jvm" (mkBP "jvm" "")
                   _ _ _ _)).
  - vm_compute. reflexivity.
  - reflexivity.
  - apply String.eqb_neq. reflexivity.
  - reflexivity.
Defined.

Lemma orderLayer_manifest_deterministic_witness :
  let run1 := orderLayer Demo.host Demo.factory "/tmp/a" [["java"]] Scenario.world_a in
  let run2 := orderLayer Demo.host Demo.factory "/tmp/b" [["java"]] Scenario.world_b in
  run1.1 = Ok "/tmp/a/order.tar" /\
  omap fs_behaviour (new_calls Scenario.world_a run1.2)
  = omap fs_behaviour (new_calls Scenario.world_b run2.2) /\
  run2.1 = Ok "/tmp/b/order.tar" /\
  exists bytes,
    bytes = "groups = java" /\
    files run1.2 !! "/tmp/a/buildpack/order.toml" = Some (File bytes) /\
    files run2.2 !! "/tmp/b/buildpack/order.toml" = Some (File bytes).
Proof.
  intros run1 run2.
  assert (H1 : run1.1 = Ok "/tmp/a/order.tar") by (vm_compute; reflexivity).
  assert (Hb : omap fs_behaviour (new_calls Scenario.world_a run1.2)
               = omap fs_behaviour (new_calls Scenario.world_b run2.2))
    by (vm_compute; reflexivity).
  assert (Hne : manifests (new_calls Scenario.world_a run1.2) <> [])
    by (vm_compute; discriminate).
  split; [exact H1 |]. split; [exact Hb |].
  destruct (proj2 (orderLayer_manifest_deterministic Demo.host Demo.factory
                     Demo.factory "/tmp/a" "/tmp/b" [["java"]]
                     Scenario.world_a Scenario.world_b Hb) Hne)
    as (bytes & _ & _ & F1 & F2 & Hok).
  destruct (Hok _ H1) as [H2 Hdoc].
  split; [exact H2 |]. exists bytes.
  split; [exact Hdoc |]. split; [exact F1 | exact F2].
Defined.

(** Without that behaviour the manifests differ: on the disk that is
    full the same run leaves the first six bytes of the document and
    fails. *)
Example orderLayer_short_write :
  let run1 := orderLayer (Scenario.host_full 6) Demo.factory "/tmp/a" [["java"]]
                Scenario.world_a in
  let run2 := orderLayer (Scenario.host_full 6) Demo.factory "/tmp/b" [["java"]]
                Scenario.world_b in
  run1.1 = Ok "/tmp/a/order.tar" /\
  files run1.2 !! "/tmp/a/buildpack/order.toml" = Some (File "groups = java") /\
  run2.1 = Err "write /tmp/b/buildpack/order.toml: no space left on device" /\
  files run2.2 !! "/tmp/b/buildpack/order.toml" = Some (File "groups") /\
  omap fs_behaviour (new_calls Scenario.world_a run1.2)
  <> omap fs_behaviour (new_calls Scenario.world_b run2.2).
Proof. vm_compute. repeat split; try reflexivity. discriminate. Qed.

(** C7, as the claim has it, fails: with neither [NoPull] nor [Publish]
    set and a stack the configuration does not know,
    [BuilderConfigFromFlags] returns the error of the lookup and
    [PullImage] is not called. *)
Lemma BuilderConfigFromFlags_unknown_stack_no_pull :
  let flags := Demo.flags "org.example.unknown" false false in
  let run := BuilderConfigFromFlags Demo.host Demo.factory flags (Demo.world "") in
  ~ ((exists ref, ref ∈ pulls (new_calls (Demo.world "") run.2)) <->
     (NoPull flags = false /\ Publish flags = false)).
Proof.
  intros flags run [_ H].
  destruct (H (conj eq_refl eq_refl)) as [ref Hin].
  vm_compute in Hin. inversion Hin.
Qed.

Lemma BuilderConfigFromFlags_pull_witness :
  let flags := Demo.flags "io.buildpacks.stacks.bionic" false false in
  pulls (new_calls (Demo.world "")
           (BuilderConfigFromFlags Demo.host Demo.factory flags (Demo.world "")).2)
  = ["packs/build"].
Proof.
  intros flags.
  exact (proj1 (BuilderConfigFromFlags_pull Demo.host Demo.factory flags (Demo.world ""))).
Defined.

(** ** Witnesses for more of the code *)

Lemma Create_appends_chained_witness :
  let w := Demo.world "java/1.0.0" in
  let run := Create Demo.host Demo.factory Demo.config w in
  Create Demo.host Demo.factory Demo.config w = (run.1, run.2) /\
  length (appends (new_calls w run.2)) <= 2.
Proof.
  intros w run.
  assert (H : Create Demo.host Demo.factory Demo.config w = (run.1, run.2))
    by (vm_compute; reflexivity).
  split; [exact H |].
  destruct (Create_appends_chained Demo.host Demo.factory Demo.config w run.1 run.2 H)
    as (tmpDir & vs & _ & _ & Hlen).
  exact Hlen.
Defined.

Lemma Create_stops_at_first_checked_failure_witness :
  let w := Scenario.world_bare in
  let run := Create Demo.host Demo.factory Demo.config w in
  let msg := "open /spec/bp-java/buildpack.toml: no such file or directory" in
  failures (new_calls w run.2) = [msg] /\
  removals (new_calls w run.2)
  = [("/tmp/create-builder012345",
      Some "remove /tmp/create-builder012345: directory not empty")] /\
  last (new_calls w run.2)
  = Some (RemoveCall "/tmp/create-builder012345"
            (Some "remove /tmp/create-builder012345: directory not empty")) /\
  exists context, run.1 = Err (context +:+ msg).
Proof.
  intros w run msg.
  assert (H : Create Demo.host Demo.factory Demo.config w = (run.1, run.2))
    by (vm_compute; reflexivity).
  assert (Hevs : new_calls w run.2
                 = take 7 (new_calls w run.2)
                   ++ DecodeFileCall "/spec/bp-java/buildpack.toml" (Some msg)
                   :: drop 8 (new_calls w run.2))
    by (vm_compute; reflexivity).
  split; [vm_compute; reflexivity |].
  split; [vm_compute; reflexivity |].
  split; [vm_compute; reflexivity |].
  exact (proj2 (proj2 (proj2
           (proj2 (Create_stops_at_first_checked_failure
                     Demo.host Demo.factory Demo.config w run.1 run.2 H)
              _ _ _ msg Hevs eq_refl)))).
Defined.

Lemma Create_log_witness :
  let w := Demo.world "java/1.0.0" in
  let run := Create Demo.host Demo.factory Demo.config w in
  Create Demo.host Demo.factory Demo.config w = (run.1, run.2) /\
  logged run.2 = logged w ++ (if run.1 is Ok _ then success_lines "example/builder" else []).
Proof.
  intros w run.
  assert (H : Create Demo.host Demo.factory Demo.config w = (run.1, run.2))
    by (vm_compute; reflexivity).
  split; [exact H |].
  exact (Create_log Demo.host Demo.factory Demo.config w run.1 run.2 H).
Defined.

Lemma Create_archives_witness :
  let w := Demo.world "java/1.0.0" in
  let run := Create Demo.host Demo.factory Demo.config w in
  Create Demo.host Demo.factory Demo.config w = (run.1, run.2) /\
  Forall (fun o => o = (0%Z, 0%Z)) (owners (new_calls w run.2)).
Proof.
  intros w run.
  assert (H : Create Demo.host Demo.factory Demo.config w = (run.1, run.2))
    by (vm_compute; reflexivity).
  split; [exact H |].
  exact (proj1 (Create_archives Demo.host Demo.factory Demo.config w run.1 run.2 H)).
Defined.

Lemma orderLayer_files_witness :
  let w := Demo.world "" in
  let run := orderLayer Demo.host Demo.factory "/tmp/a" [["java"]] w in
  orderLayer Demo.host Demo.factory "/tmp/a" [["java"]] w = (run.1, run.2) /\
  files run.2 !! "/spec/builder.toml" = files w !! "/spec/builder.toml".
Proof.
  intros w run.
  assert (H : orderLayer Demo.host Demo.factory "/tmp/a" [["java"]] w = (run.1, run.2))
    by (vm_compute; reflexivity).
  split; [exact H |].
  refine (proj1 (orderLayer_files Demo.host Demo.factory "/tmp/a" [["java"]] w
                   run.1 run.2 H) "/spec/builder.toml" _ _ _);
    apply String.eqb_neq; vm_compute; reflexivity.
Defined.

Lemma orderLayer_closes_order_file_witness :
  let w := Demo.world "" in
  let run := orderLayer Demo.host Demo.factory "/tmp/a" [["java"]] w in
  orderLayer Demo.host Demo.factory "/tmp/a" [["java"]] w = (run.1, run.2) /\
  closed (new_calls w run.2) = opened (new_calls w run.2).
Proof.
  intros w run.
  assert (H : orderLayer Demo.host Demo.factory "/tmp/a" [["java"]] w = (run.1, run.2))
    by (vm_compute; reflexivity).
  split; [exact H |].
  exact (proj1 (orderLayer_closes_order_file Demo.host Demo.factory "/tmp/a" [["java"]]
                  w run.1 run.2 H)).
Defined.

Lemma orderLayer_not_repeatable_witness :
  let w := Demo.world "" in
  let run := orderLayer Demo.host Demo.factory "/tmp/a" [["java"]] w in
  orderLayer Demo.host Demo.factory "/tmp/a" [["java"]] w = (run.1, run.2) /\
  exists e, (orderLayer Demo.host Demo.factory "/tmp/a" [["java"]] run.2).1 = Err e.
Proof.
  intros w run.
  assert (H : orderLayer Demo.host Demo.factory "/tmp/a" [["java"]] w = (run.1, run.2))
    by (vm_compute; reflexivity).
  assert (Hin : MkdirCall (filepath.Join ["/tmp/a"; "buildpack"]) None
                ∈ new_calls w run.2) by (vm_compute; left).
  split; [exact H |].
  destruct (orderLayer_not_repeatable Demo.host Demo.factory "/tmp/a" [["java"]] w
              run.1 run.2 Demo.factory [["java"]] H Hin) as [e He].
  exists e. now rewrite He.
Defined.

Lemma buildpackLayer_success_witness :
  let w := Demo.world "java/1.0.0" in
  let run := buildpackLayer Demo.host Demo.factory "/tmp/a" Demo.java "/spec" w in
  buildpackLayer Demo.host Demo.factory "/tmp/a" Demo.java "/spec" w = (run.1, run.2) /\
  run.1 = Ok "/tmp/a/java.1.0.0.tar" /\
  exists bytes, files run.2 = <["/tmp/a/java.1.0.0.tar" := File bytes]> (files w).
Proof.
  intros w run.
  assert (H : buildpackLayer Demo.host Demo.factory "/tmp/a" Demo.java "/spec" w
              = (run.1, run.2)) by (vm_compute; reflexivity).
  assert (Hr : run.1 = Ok "/tmp/a/java.1.0.0.tar") by (vm_compute; reflexivity).
  split; [exact H |]. split; [exact Hr |].
  destruct (proj2 (buildpackLayer_success Demo.host Demo.factory "/tmp/a" Demo.java
                     "/spec" w run.1 run.2 H) _ Hr)
    as (meta & bytes & _ & _ & _ & Hf & _).
  exists bytes. exact Hf.
Defined.

Lemma buildpackLayer_unreadable_metadata_witness :
  (buildpackLayer Demo.host Demo.factory "/tmp/a" Demo.java "/spec"
     Scenario.world_bare).1
  = Err ("reading buildpack.toml from buildpack: /spec/bp-java/buildpack.toml: "
         +:+ "open /spec/bp-java/buildpack.toml: no such file or directory").
Proof.
  refine (proj1 (buildpackLayer_unreadable_metadata Demo.host Demo.factory "/tmp/a"
                   Demo.java "/spec" Scenario.world_bare
                   "open /spec/bp-java/buildpack.toml: no such file or directory" _)).
  vm_compute. reflexivity.
Defined.

Lemma BuilderConfigFromFlags_success_witness :
  let flags := Demo.flags "io.buildpacks.stacks.bionic" true false in
  let w := Demo.world "java/1.0.0" in
  let w' := (BuilderConfigFromFlags Demo.host Demo.factory flags w).2 in
  new_calls w w' = [DecodeFileCall "/spec/builder.toml" None;
                    ReadImageCall "packs/build" false None;
                    RepoStoreCall "example/builder" false None].
Proof.
  intros flags w w'.
  assert (H : exists config,
            BuilderConfigFromFlags Demo.host Demo.factory flags w = (Ok config, w'))
    by (eexists; vm_compute; reflexivity).
  destruct H as [config H].
  destruct (BuilderConfigFromFlags_success Demo.host Demo.factory flags w config w' H)
    as (baseImage & Hb & Hc & _).
  assert (baseImage = "packs/build") as -> by (vm_compute in Hb; congruence).
  exact Hc.
Defined.

Lemma BuilderConfigFromFlags_stops_at_first_failure_witness :
  let w := Scenario.world_empty in
  let unknown := BuilderConfigFromFlags Demo.host Demo.factory
                   (Demo.flags "org.example.unknown" false false) w in
  let missing := BuilderConfigFromFlags Demo.host Demo.factory
                   (Demo.flags "io.buildpacks.stacks.bionic" false false) w in
  let msg := "open /spec/builder.toml: no such file or directory" in
  (unknown.1 = Err "stack org.example.unknown not found" /\ unknown.2 = w) /\
  new_calls w missing.2
  = [PullImageCall "packs/build" None; DecodeFileCall "/spec/builder.toml" (Some msg)] /\
  failures [PullImageCall "packs/build" None : @Call Demo.Image] = [] /\
  exists context, missing.1 = Err (context +:+ msg).
Proof.
  intros w unknown missing msg.
  assert (HU : BuilderConfigFromFlags Demo.host Demo.factory
                 (Demo.flags "org.example.unknown" false false) w
               = (unknown.1, unknown.2)) by (vm_compute; reflexivity).
  assert (HM : BuilderConfigFromFlags Demo.host Demo.factory
                 (Demo.flags "io.buildpacks.stacks.bionic" false false) w
               = (missing.1, missing.2)) by (vm_compute; reflexivity).
  assert (Hevs : new_calls w missing.2
                 = [PullImageCall "packs/build" None]
                   ++ DecodeFileCall "/spec/builder.toml" (Some msg) :: [])
    by (vm_compute; reflexivity).
  split.
  { apply (proj1 (BuilderConfigFromFlags_stops_at_first_failure
                    Demo.host Demo.factory _ w _ _ HU)).
    vm_compute. reflexivity. }
  split; [exact Hevs |].
  exact (proj2 (proj1 (proj2 (BuilderConfigFromFlags_stops_at_first_failure
                                Demo.host Demo.factory _ w _ _ HM))
                  _ _ _ msg Hevs eq_refl)).
Defined.

Lemma BuilderConfigFromFlags_log_witness :
  let flags := Demo.flags "io.buildpacks.stacks.bionic" false false in
  let w := Demo.world "java/1.0.0" in
  let run := BuilderConfigFromFlags Demo.host Demo.factory flags w in
  BuilderConfigFromFlags Demo.host Demo.factory flags w = (run.1, run.2) /\
  logged run.2 = logged w ++ map pulling_line (pulls (new_calls w run.2)).
Proof.
  intros flags w run.
  assert (H : BuilderConfigFromFlags Demo.host Demo.factory flags w = (run.1, run.2))
    by (vm_compute; reflexivity).
  split; [exact H |].
  exact (BuilderConfigFromFlags_log Demo.host Demo.factory flags w run.1 run.2 H).
Defined.

Lemma buildpack_directories_absolute_witness :
  let flags := Demo.flags "io.buildpacks.stacks.bionic" false false in
  let w := Demo.world "java/1.0.0" in
  let w' := (BuilderConfigFromFlags Demo.host Demo.factory flags w).2 in
  exists config,
    BuilderConfigFromFlags Demo.host Demo.factory flags w = (Ok config, w') /\
    filepath.IsAbs (BuilderTomlPath flags) = true /\
    filepath.IsAbs (BuilderDir config) = true.
Proof.
  intros flags w w'.
  assert (H : exists config,
            BuilderConfigFromFlags Demo.host Demo.factory flags w = (Ok config, w'))
    by (eexists; vm_compute; reflexivity).
  destruct H as [config H].
  assert (Habs : filepath.IsAbs (BuilderTomlPath flags) = true) by reflexivity.
  exists config. split; [exact H |]. split; [exact Habs |].
  exact (proj1 (buildpack_directories_absolute Demo.host Demo.factory flags w
                  config w' H Habs)).
Defined.

Lemma generateShellFunctionDockerFile_tokens_witness :
  shell.generateShellFunctionDockerFile Scenario.render Scenario.echo
  = Ok "0.0.7 echo.sh functions/echo.sh".
Proof.
  destruct (generateShellFunctionDockerFile_tokens Scenario.render Scenario.echo)
    as (base & Hrun & _ & _ & Hbase).
  rewrite Hrun.
  rewrite (Hbase "echo.sh");
    [reflexivity | repeat split; discriminate | right; now exists "functions"].
Defined.
